(** * Bundle pricing and validation engine

A shallow embedding of the pricing, discount and validation code of the
bundle application ([app/utils/bundle.server.ts], [app/utils/bundle.ts],
[app/routes/api.pricing.validate.tsx] and
[app/routes/api.storefront.bundle.validate.tsx]) together with the
properties the specification states about it.

Conventions of the embedding.
- A finite JavaScript [number] is an exact rational ([Q]); binary
  rounding, overflow and the sign of zero are abstracted away.  Where the
  source can leave the finite numbers (a division whose divisor is not
  guarded, [Math.min] of an empty list) the result lives in [jsnum],
  which adds [NaN] and the two infinities.
- [T | null] of a database row is [option T]; an optional property of a
  [Partial<...>] object is [optional T], which tells [undefined] from
  [null].
- The array the source pushes errors onto is a list, newest entry last.
- Rendering a number as text ([toFixed], template literals,
  [Intl.NumberFormat]) belongs to the JavaScript runtime and is an
  interface of the model, class [NumberFormat]. *)

From Stdlib Require Import QArith ZArith List String Ascii Bool Lia Lqa.
From Stdlib Require Import DecimalString Qround Qabs Qminmax Sorted.
Import ListNotations.

Open Scope string_scope.
Open Scope Q_scope.

(* ================================================================== *)
(** ** JavaScript values *)

Module JS.

(** A finite number. *)
Abbreviation number := Q (only parsing).

(** [a < b], [a <= b], [a === b] on finite numbers. *)
Definition ltb (a b : number) : bool := negb (Qle_bool b a).
Definition leb (a b : number) : bool := Qle_bool a b.
Definition eqb (a b : number) : bool := Qeq_bool a b.

(** A number that may have left the finite range. *)
Inductive jsnum : Type :=
| Finite (q : number)
| PosInfinity
| NegInfinity
| NaN.

(** [a / b] without any guard on [b]. *)
Definition div (a b : number) : jsnum :=
  if eqb b 0 then
    if eqb a 0 then NaN
    else if ltb 0 a then PosInfinity else NegInfinity
  else Finite (a / b).

(** [x * k] for a finite [k]. *)
Definition mul_fin (x : jsnum) (k : number) : jsnum :=
  match x with
  | Finite q => Finite (q * k)
  | PosInfinity =>
      if eqb k 0 then NaN else if ltb 0 k then PosInfinity else NegInfinity
  | NegInfinity =>
      if eqb k 0 then NaN else if ltb 0 k then NegInfinity else PosInfinity
  | NaN => NaN
  end.

(** [x - k] for a finite [k]. *)
Definition sub_fin (x : jsnum) (k : number) : jsnum :=
  match x with
  | Finite q => Finite (q - k)
  | other => other
  end.

(** [Math.max(a, b)] and [Math.min(...xs)]. *)
Definition Math_max (a b : number) : number := if ltb a b then b else a.

Definition Math_min (xs : list number) : jsnum :=
  fold_left
    (fun acc x =>
       match acc with
       | Finite m => Finite (if ltb x m then x else m)
       | PosInfinity => Finite x
       | other => other
       end)
    xs PosInfinity.

(** An optional property: missing, [null], or a value. *)
Inductive optional (A : Type) : Type :=
| undefined
| null
| present (a : A).
Arguments undefined {A}.
Arguments null {A}.
Arguments present {A} a.

(** [x === null]. *)
Definition is_null {A} (x : optional A) : bool :=
  match x with null => true | _ => false end.

(** Truthiness, as [if (x)], [!x] and [x && ...] test it. *)
Definition truthy_string (s : string) : bool := negb (String.eqb s "").
Definition truthy_number (n : number) : bool := negb (eqb n 0).

Definition truthy_opt {A} (t : A -> bool) (x : option A) : bool :=
  match x with Some a => t a | None => false end.

Definition truthy_optional {A} (t : A -> bool) (x : optional A) : bool :=
  match x with present a => t a | _ => false end.

(** [Array.prototype.sort(cmp)]: a stable sort, where [cmp a b > 0] places
    [a] after [b].  Elements that compare equal keep their order. *)
Section Sort.
Context {A : Type} (cmp : A -> A -> number).

Fixpoint sort_insert (x : A) (l : list A) : list A :=
  match l with
  | [] => [x]
  | y :: l' =>
      if ltb 0 (cmp x y) then y :: sort_insert x l' else x :: y :: l'
  end.

Definition sort (l : list A) : list A := fold_right sort_insert [] l.
End Sort.

(** [String.prototype.trim] over the ASCII white space characters. *)
Definition is_space (c : ascii) : bool :=
  match nat_of_ascii c with
  | 9%nat | 10%nat | 11%nat | 12%nat | 13%nat | 32%nat => true
  | _ => false
  end.

Fixpoint trim_start (s : string) : string :=
  match s with
  | String c s' => if is_space c then trim_start s' else s
  | EmptyString => EmptyString
  end.

Fixpoint trim_end (s : string) : string :=
  match s with
  | String c s' =>
      match trim_end s' with
      | EmptyString => if is_space c then EmptyString else String c EmptyString
      | t => String c t
      end
  | EmptyString => EmptyString
  end.

Definition trim (s : string) : string := trim_end (trim_start s).

(** The runtime's renderings of a finite number. *)
Class NumberFormat : Type := {
  (** [x.toFixed(digits)] *)
  toFixed : number -> nat -> string;
  (** [String(x)], which a template literal applies *)
  toString : number -> string;
  (** [Intl.NumberFormat("nl-NL", {style: "currency", currency}).format(x)] *)
  intlCurrency : string -> number -> string
}.

Definition jsnum_render (f : number -> string) (x : jsnum) : string :=
  match x with
  | Finite q => f q
  | PosInfinity => "Infinity"
  | NegInfinity => "-Infinity"
  | NaN => "NaN"
  end.

End JS.

Import JS.

(* ================================================================== *)
(** ** Data model ([app/types/bundle.ts] and the database rows) *)

Module BundleType.
Definition FIXED := "FIXED".
Definition MIX_MATCH := "MIX_MATCH".
Definition VOLUME := "VOLUME".
Definition TIERED := "TIERED".
End BundleType.

Module DiscountType.
Definition PERCENTAGE := "percentage".
Definition FIXED_AMOUNT := "fixed_amount".
Definition FIXED_PRICE := "fixed_price".
Definition FIXED_PRICE_PER_ITEM := "fixed_price_per_item".
End DiscountType.

(** A [Date], by its time value; an invalid date has none. *)
Module Date.
Record t : Type := { getTime : option number }.

(** [a > b], [a >= b] and [a < b]; false as soon as one side is invalid. *)
Definition gtb (a b : t) : bool :=
  match getTime a, getTime b with
  | Some x, Some y => ltb y x
  | _, _ => false
  end.

Definition geb (a b : t) : bool :=
  match getTime a, getTime b with
  | Some x, Some y => leb y x
  | _, _ => false
  end.

Definition ltb (a b : t) : bool := gtb b a.
End Date.

Module SelectedItem.
Record t : Type := {
  productId : string;
  variantId : string;
  quantity : number;
  price : number
}.
End SelectedItem.

Module ItemPrice.
Record t : Type := {
  productId : string;
  variantId : string;
  originalPrice : number;
  discountedPrice : number;
  quantity : number
}.
End ItemPrice.

Module AppliedDiscount.
  (** [type] is whatever [applyDiscount] was handed: a [DiscountType]
      string, or [None] for a missing one. *)
Record t : Type := {
  type : option string;
  value : number;
  label : string
}.
End AppliedDiscount.

Module BundleItem.
Record t : Type := {
  shopifyProductId : string;
  shopifyVariantId : option string;
  productTitle : string;
  quantity : number;
  isRequired : bool
}.
End BundleItem.

Module BundleCategory.
Record t : Type := {
  name : string;
  minSelect : number;
  maxSelect : option number;
  items : list BundleItem.t
}.
End BundleCategory.

Module BundleTier.
Record t : Type := {
  id : string;
  name : string;
  price : number;
  productCount : number;
  allowedProducts : option string
}.
End BundleTier.

Module VolumeRule.
Record t : Type := {
  minQuantity : number;
  maxQuantity : option number;
  discountType : string;
  discountValue : number;
  label : option string
}.
End VolumeRule.

(** A bundle row with its relations loaded. *)
Module Bundle.
Record t : Type := {
  title : string;
  type : string;
  price : option number;
  discountType : option string;
  discountValue : option number;
  minProducts : option number;
  maxProducts : option number;
  allowDuplicates : bool;
  applyToSameProduct : bool;
  startDate : option Date.t;
  endDate : option Date.t;
  items : list BundleItem.t;
  volumeRules : list VolumeRule.t;
  tiers : list BundleTier.t;
  categories : list BundleCategory.t
}.
End Bundle.

(** [Partial<Bundle> & { items?, volumeRules?, tiers? }], the argument of
    [validateBundle]. *)
Module PartialBundle.
Record t : Type := {
  title : optional string;
  type : optional string;
  price : optional number;
  discountType : optional string;
  minProducts : optional number;
  maxProducts : optional number;
  startDate : optional Date.t;
  endDate : optional Date.t;
  items : optional (list BundleItem.t);
  volumeRules : optional (list VolumeRule.t);
  tiers : optional (list BundleTier.t)
}.
End PartialBundle.

Module PricingCalculationResponse.
Record t : Type := {
  originalPrice : number;
  discountedPrice : number;
  savingsAmount : number;
  savingsPercent : number;
  itemPrices : list ItemPrice.t;
  appliedDiscount : option AppliedDiscount.t;
  isValid : bool;
  validationErrors : list string
}.
End PricingCalculationResponse.

Module ValidationError.
Record t : Type := {
  field : string;
  message : string;
  code : string
}.
End ValidationError.

Module ValidationResult.
Record t : Type := {
  isValid : bool;
  errors : list ValidationError.t
}.
End ValidationResult.

(* ================================================================== *)
(** ** The pricing engine ([app/utils/bundle.server.ts]) *)

Module Engine.
Section WithRuntime.
Context {fmt : NumberFormat}.

(** [switch]'s strict comparison of a possibly missing string with a
    constant. *)
Definition is_case (x : option string) (c : string) : bool :=
  match x with Some s => String.eqb s c | None => false end.

(** [selectedItems.reduce((sum, i) => sum + i.quantity, 0)] *)
Definition totalSelected (selectedItems : list SelectedItem.t) : number :=
  fold_left (fun sum i => sum + SelectedItem.quantity i) selectedItems 0.

(** *** [applyDiscount] *)

Record DiscountResult : Type := {
  dr_discountedPrice : number;
  dr_appliedDiscount : AppliedDiscount.t
}.

Definition applyDiscount (originalPrice : number)
    (discountType : option string) (discountValue : number)
    : DiscountResult :=
  let '(discountedPrice, label) :=
    if is_case discountType DiscountType.PERCENTAGE then
      (originalPrice * (1 - discountValue / 100),
       toString discountValue ++ "% off")
    else if is_case discountType DiscountType.FIXED_AMOUNT then
      (Math_max 0 (originalPrice - discountValue),
       "€" ++ toFixed discountValue 2 ++ " off")
    else if is_case discountType DiscountType.FIXED_PRICE then
      (discountValue, "€" ++ toFixed discountValue 2)
    else if is_case discountType DiscountType.FIXED_PRICE_PER_ITEM then
      (originalPrice, "€" ++ toFixed discountValue 2 ++ " per item")
    else
      (originalPrice, "")
  in
  {| dr_discountedPrice := discountedPrice;
     dr_appliedDiscount :=
       {| AppliedDiscount.type := discountType;
          AppliedDiscount.value := discountValue;
          AppliedDiscount.label := label |} |}.

(** *** [findApplicableVolumeRule] *)

(** The test of the loop body: [quantity >= rule.minQuantity] and
    [rule.maxQuantity === null || quantity <= rule.maxQuantity]. *)
Definition ruleApplies (quantity : number) (rule : VolumeRule.t) : bool :=
  leb (VolumeRule.minQuantity rule) quantity
  && match VolumeRule.maxQuantity rule with
     | None => true
     | Some maxQuantity => leb quantity maxQuantity
     end.

Definition findApplicableVolumeRule (rules : list VolumeRule.t)
    (quantity : number) : option VolumeRule.t :=
  let sortedRules :=
    sort (fun a b => VolumeRule.minQuantity b - VolumeRule.minQuantity a)
      rules in
  find (ruleApplies quantity) sortedRules.

(** *** [calculateBundlePricing] *)

(** The variables the type switch assigns. *)
Record Locals : Type := {
  discountedPrice : number;
  appliedDiscount : option AppliedDiscount.t;
  isValid : bool;
  errors : list string
}.

Definition setDiscount (r : DiscountResult) (st : Locals) : Locals :=
  {| discountedPrice := dr_discountedPrice r;
     appliedDiscount := Some (dr_appliedDiscount r);
     isValid := isValid st;
     errors := errors st |}.

Definition setFixedPrice (total unit : number) (label : string)
    (st : Locals) : Locals :=
  {| discountedPrice := total;
     appliedDiscount :=
       Some {| AppliedDiscount.type := Some DiscountType.FIXED_PRICE;
               AppliedDiscount.value := unit;
               AppliedDiscount.label := label |};
     isValid := isValid st;
     errors := errors st |}.

(** [isValid = false; errors.push(msg)] *)
Definition fail (msg : string) (st : Locals) : Locals :=
  {| discountedPrice := discountedPrice st;
     appliedDiscount := appliedDiscount st;
     isValid := false;
     errors := errors st ++ [msg] |}.

(** [bundle.discountType && bundle.discountValue !== null], with the
    values the branch then uses. *)
Definition configuredDiscount (bundle : Bundle.t)
    : option (string * number) :=
  match Bundle.discountType bundle, Bundle.discountValue bundle with
  | Some discountType, Some discountValue =>
      if truthy_string discountType
      then Some (discountType, discountValue) else None
  | _, _ => None
  end.

Definition caseFixed (bundle : Bundle.t) (quantity originalPrice : number)
    (st : Locals) : Locals :=
  match Bundle.price bundle with
  | Some price =>
      setFixedPrice (price * quantity) price
        ("Bundle price: €" ++ toFixed price 2) st
  | None =>
      match configuredDiscount bundle with
      | Some (discountType, discountValue) =>
          setDiscount
            (applyDiscount originalPrice (Some discountType) discountValue)
            st
      | None => st
      end
  end.

Definition caseMixMatch (bundle : Bundle.t)
    (selectedItems : list SelectedItem.t) (originalPrice : number)
    (st : Locals) : Locals :=
  let st :=
    match configuredDiscount bundle with
    | Some (discountType, discountValue) =>
        setDiscount
          (applyDiscount originalPrice (Some discountType) discountValue)
          st
    | None => st
    end in
  let totalProducts := totalSelected selectedItems in
  let st :=
    match Bundle.minProducts bundle with
    | Some minProducts =>
        if truthy_number minProducts && ltb totalProducts minProducts
        then fail ("Minimum " ++ toString minProducts
                     ++ " products required") st
        else st
    | None => st
    end in
  match Bundle.maxProducts bundle with
  | Some maxProducts =>
      if truthy_number maxProducts && ltb maxProducts totalProducts
      then fail ("Maximum " ++ toString maxProducts
                   ++ " products allowed") st
      else st
  | None => st
  end.

Definition caseVolume (bundle : Bundle.t)
    (selectedItems : list SelectedItem.t) (quantity originalPrice : number)
    (st : Locals) : Locals :=
  let totalQuantity := totalSelected selectedItems * quantity in
  match findApplicableVolumeRule (Bundle.volumeRules bundle) totalQuantity with
  | Some applicableRule =>
      let result :=
        applyDiscount originalPrice
          (Some (VolumeRule.discountType applicableRule))
          (VolumeRule.discountValue applicableRule) in
      let generated := dr_appliedDiscount result in
      {| discountedPrice := dr_discountedPrice result;
         appliedDiscount :=
           Some {| AppliedDiscount.type := AppliedDiscount.type generated;
                   AppliedDiscount.value := AppliedDiscount.value generated;
                   AppliedDiscount.label :=
                     match VolumeRule.label applicableRule with
                     | Some l =>
                         if truthy_string l then l
                         else AppliedDiscount.label generated
                     | None => AppliedDiscount.label generated
                     end |};
         isValid := isValid st;
         errors := errors st |}
  | None => st
  end.

Definition caseTiered (bundle : Bundle.t)
    (selectedItems : list SelectedItem.t) (tierId : option string)
    (quantity : number) (st : Locals) : Locals :=
  if truthy_opt truthy_string tierId then
    match find (fun t => is_case tierId (BundleTier.id t))
            (Bundle.tiers bundle) with
    | Some selectedTier =>
        let st :=
          setFixedPrice (BundleTier.price selectedTier * quantity)
            (BundleTier.price selectedTier)
            (BundleTier.name selectedTier ++ ": €"
               ++ toFixed (BundleTier.price selectedTier) 2) st in
        let tierProductCount := totalSelected selectedItems in
        if negb (eqb tierProductCount (BundleTier.productCount selectedTier))
        then fail (BundleTier.name selectedTier ++ " requires exactly "
                     ++ toString (BundleTier.productCount selectedTier)
                     ++ " products") st
        else st
    | None => fail "Invalid tier selected" st
    end
  else fail "Please select a tier" st.

(** The first loop: the price before any discount, and one entry per
    selected item. *)
Definition sumOriginal (selectedItems : list SelectedItem.t) : number :=
  fold_left
    (fun originalPrice item =>
       originalPrice + SelectedItem.price item * SelectedItem.quantity item)
    selectedItems 0.

Definition initialItemPrice (item : SelectedItem.t) : ItemPrice.t :=
  {| ItemPrice.productId := SelectedItem.productId item;
     ItemPrice.variantId := SelectedItem.variantId item;
     ItemPrice.originalPrice := SelectedItem.price item;
     ItemPrice.discountedPrice := SelectedItem.price item;
     ItemPrice.quantity := SelectedItem.quantity item |}.

(** [itemPrice.discountedPrice = itemPrice.originalPrice * discountRatio] *)
Definition rescale (discountRatio : number) (itemPrice : ItemPrice.t)
    : ItemPrice.t :=
  {| ItemPrice.productId := ItemPrice.productId itemPrice;
     ItemPrice.variantId := ItemPrice.variantId itemPrice;
     ItemPrice.originalPrice := ItemPrice.originalPrice itemPrice;
     ItemPrice.discountedPrice :=
       ItemPrice.originalPrice itemPrice * discountRatio;
     ItemPrice.quantity := ItemPrice.quantity itemPrice |}.

(** The [switch (bundle.type)]; no case matches an unknown type. *)
Definition typeSwitch (bundle : Bundle.t)
    (selectedItems : list SelectedItem.t) (tierId : option string)
    (quantity originalPrice : number) (st : Locals) : Locals :=
  if String.eqb (Bundle.type bundle) BundleType.FIXED then
    caseFixed bundle quantity originalPrice st
  else if String.eqb (Bundle.type bundle) BundleType.MIX_MATCH then
    caseMixMatch bundle selectedItems originalPrice st
  else if String.eqb (Bundle.type bundle) BundleType.VOLUME then
    caseVolume bundle selectedItems quantity originalPrice st
  else if String.eqb (Bundle.type bundle) BundleType.TIERED then
    caseTiered bundle selectedItems tierId quantity st
  else st.

(** The locals as declared: [discountedPrice = originalPrice],
    [appliedDiscount = null], [isValid = true], [errors = []]. *)
Definition initialLocals (originalPrice : number) : Locals :=
  {| discountedPrice := originalPrice;
     appliedDiscount := None;
     isValid := true;
     errors := [] |}.

(** [quantity] is the caller's argument; the default [1] of the source is
    [calculateBundlePricing_default] below. *)
Definition calculateBundlePricing (bundle : Bundle.t)
    (selectedItems : list SelectedItem.t) (tierId : option string)
    (quantity : number) : PricingCalculationResponse.t :=
  let itemPrices := map initialItemPrice selectedItems in
  let originalPrice := sumOriginal selectedItems * quantity in
  let st :=
    typeSwitch bundle selectedItems tierId quantity originalPrice
      (initialLocals originalPrice) in
  let itemPrices :=
    match appliedDiscount st with
    | Some _ =>
        if ltb 0 originalPrice
        then map (rescale (discountedPrice st / originalPrice)) itemPrices
        else itemPrices
    | None => itemPrices
    end in
  let savingsAmount := originalPrice - discountedPrice st in
  let savingsPercent :=
    if ltb 0 originalPrice then savingsAmount / originalPrice * 100 else 0 in
  {| PricingCalculationResponse.originalPrice := originalPrice;
     PricingCalculationResponse.discountedPrice := discountedPrice st;
     PricingCalculationResponse.savingsAmount := savingsAmount;
     PricingCalculationResponse.savingsPercent := savingsPercent;
     PricingCalculationResponse.itemPrices := itemPrices;
     PricingCalculationResponse.appliedDiscount := appliedDiscount st;
     PricingCalculationResponse.isValid := isValid st;
     PricingCalculationResponse.validationErrors := errors st |}.

Definition calculateBundlePricing_default (bundle : Bundle.t)
    (selectedItems : list SelectedItem.t) (tierId : option string)
    : PricingCalculationResponse.t :=
  calculateBundlePricing bundle selectedItems tierId 1.

End WithRuntime.
End Engine.

(* ================================================================== *)
(** ** Handles and product ids ([app/utils/bundle.server.ts]) *)

Module Ids.

(** [a-z0-9], the characters the handle keeps. *)
Definition isAlnum (c : ascii) : bool :=
  let n := nat_of_ascii c in
  (Nat.leb 97 n && Nat.leb n 122) || (Nat.leb 48 n && Nat.leb n 57).

(** [toLowerCase] on one character.  Characters outside ASCII are left as
    they are: their lower case is outside [a-z0-9] as well (the two
    exceptions, U+212A and U+0130, are outside the model). *)
Definition lowerChar (c : ascii) : ascii :=
  let n := nat_of_ascii c in
  if Nat.leb 65 n && Nat.leb n 90 then ascii_of_nat (n + 32) else c.

Fixpoint toLowerCase (s : string) : string :=
  match s with
  | String c s' => String (lowerChar c) (toLowerCase s')
  | EmptyString => EmptyString
  end.

(** [replace(/[^a-z0-9]+/g, "-")]: every maximal run of other characters
    becomes one dash.  [inRun] says that the run has its dash already. *)
Fixpoint dashRuns (inRun : bool) (s : string) : string :=
  match s with
  | String c s' =>
      if isAlnum c then String c (dashRuns false s')
      else if inRun then dashRuns true s'
      else String "-" (dashRuns true s')
  | EmptyString => EmptyString
  end.

(** [replace(/^-|-$/g, "")]: a dash at the start goes, and a dash at the
    end. *)
Definition stripStart (s : string) : string :=
  match s with
  | String c s' => if Ascii.eqb c "-" then s' else s
  | EmptyString => EmptyString
  end.

Fixpoint stripEnd (s : string) : string :=
  match s with
  | String c EmptyString => if Ascii.eqb c "-" then EmptyString else s
  | String c s' => String c (stripEnd s')
  | EmptyString => EmptyString
  end.

Definition generateHandle (title : string) : string :=
  substring 0 100 (stripEnd (stripStart (dashRuns false (toLowerCase title)))).

Definition gidPrefix : string := "gid://shopify/Product/".

(** [s] without the prefix [p], when it starts with it. *)
Fixpoint stripPrefix (p s : string) : option string :=
  match p, s with
  | EmptyString, _ => Some s
  | String a p', String b s' =>
      if Ascii.eqb a b then stripPrefix p' s' else None
  | String _ _, EmptyString => None
  end.

(** [id.startsWith(prefix) ? id.replace(prefix, "") : id]; the first
    occurrence of the prefix, which [replace] removes, is the one at the
    start. *)
Definition normalizeProductId (id : string) : string :=
  match stripPrefix gidPrefix id with
  | Some rest => rest
  | None => id
  end.

Definition productIdsMatch (id1 id2 : option string) : bool :=
  match id1, id2 with
  | Some a, Some b =>
      if negb (truthy_string a) || negb (truthy_string b) then false
      else String.eqb (normalizeProductId a) (normalizeProductId b)
  | _, _ => false
  end.

End Ids.

(* ================================================================== *)
(** ** Configuration-time validation ([validateBundle]) *)

Module Config.

Definition error (field message code : string) : ValidationError.t :=
  {| ValidationError.field := field;
     ValidationError.message := message;
     ValidationError.code := code |}.

(** [errors.push(e)] under a condition. *)
Definition pushIf (cond : bool) (e : ValidationError.t)
    (errors : list ValidationError.t) : list ValidationError.t :=
  if cond then errors ++ [e] else errors.

(** [!xs || xs.length === 0]; an array, even an empty one, is truthy. *)
Definition missingOrEmpty {A} (xs : optional (list A)) : bool :=
  match xs with
  | present l => Nat.eqb (List.length l) 0
  | _ => true
  end.

Definition hasType (bundle : PartialBundle.t) (c : string) : bool :=
  match PartialBundle.type bundle with
  | present s => String.eqb s c
  | _ => false
  end.

Definition checkTitle (bundle : PartialBundle.t) :=
  pushIf
    (negb (truthy_optional truthy_string (PartialBundle.title bundle))
     || match PartialBundle.title bundle with
        | present title => String.eqb (trim title) ""
        | _ => false
        end)
    (error "title" "Title is required" "REQUIRED").

Definition checkType (bundle : PartialBundle.t) :=
  pushIf (negb (truthy_optional truthy_string (PartialBundle.type bundle)))
    (error "type" "Bundle type is required" "REQUIRED").

Definition checkFixed (bundle : PartialBundle.t) errors :=
  let errors :=
    pushIf (missingOrEmpty (PartialBundle.items bundle))
      (error "items" "Fixed bundles must have at least one item" "MIN_ITEMS")
      errors in
  pushIf
    (is_null (PartialBundle.price bundle)
     && is_null (PartialBundle.discountType bundle))
    (error "price" "Fixed bundles must have a price or discount" "REQUIRED")
    errors.

Definition checkMixMatch (bundle : PartialBundle.t) errors :=
  let errors :=
    pushIf (missingOrEmpty (PartialBundle.items bundle))
      (error "items" "Mix & Match bundles must have available items"
         "MIN_ITEMS")
      errors in
  match PartialBundle.minProducts bundle, PartialBundle.maxProducts bundle with
  | present minProducts, present maxProducts =>
      pushIf
        (truthy_number minProducts && truthy_number maxProducts
         && ltb maxProducts minProducts)
        (error "minProducts" "Minimum products cannot exceed maximum"
           "INVALID_RANGE")
        errors
  | _, _ => errors
  end.

Definition checkVolume (bundle : PartialBundle.t) :=
  pushIf (missingOrEmpty (PartialBundle.volumeRules bundle))
    (error "volumeRules"
       "Volume bundles must have at least one discount rule" "MIN_RULES").

Definition checkTiered (bundle : PartialBundle.t) :=
  pushIf (missingOrEmpty (PartialBundle.tiers bundle))
    (error "tiers" "Tiered bundles must have at least one tier" "MIN_TIERS").

Definition checkByType (bundle : PartialBundle.t) errors :=
  if hasType bundle BundleType.FIXED then checkFixed bundle errors
  else if hasType bundle BundleType.MIX_MATCH then checkMixMatch bundle errors
  else if hasType bundle BundleType.VOLUME then checkVolume bundle errors
  else if hasType bundle BundleType.TIERED then checkTiered bundle errors
  else errors.

(** A [Date] object is always truthy. *)
Definition checkSchedule (bundle : PartialBundle.t) errors :=
  match PartialBundle.startDate bundle, PartialBundle.endDate bundle with
  | present startDate, present endDate =>
      pushIf (Date.geb startDate endDate)
        (error "endDate" "End date must be after start date"
           "INVALID_DATE_RANGE")
        errors
  | _, _ => errors
  end.

Definition validateBundle (bundle : PartialBundle.t) : ValidationResult.t :=
  let errors := checkTitle bundle [] in
  let errors := checkType bundle errors in
  let errors := checkByType bundle errors in
  let errors := checkSchedule bundle errors in
  {| ValidationResult.isValid := Nat.eqb (List.length errors) 0;
     ValidationResult.errors := errors |}.

End Config.

(* ================================================================== *)
(** ** Client-safe helpers ([app/utils/bundle.ts]) *)

Module Client.
Section WithRuntime.
Context {fmt : NumberFormat}.

(** The default currency of [formatPrice] is ["EUR"]. *)
Definition formatPrice (price : number) (currency : string) : string :=
  intlCurrency currency price.

(** The [percent] that [formatSavings] computes. *)
Definition savingsPercentOf (originalPrice discountedPrice : number)
    : jsnum :=
  let savings := originalPrice - discountedPrice in
  mul_fin (div savings originalPrice) 100.

Definition formatSavings (originalPrice discountedPrice : number)
    (showPercent : bool) : string :=
  let savings := originalPrice - discountedPrice in
  let percent := savingsPercentOf originalPrice discountedPrice in
  if showPercent then
    "Save " ++ jsnum_render (fun q => toFixed q 0) percent ++ "%"
  else
    "Save " ++ formatPrice savings "EUR".

(** [now] is the [new Date()] of the call. *)
Definition isBundleScheduleActive (now : Date.t)
    (startDate endDate : option Date.t) : bool :=
  if match startDate with Some s => Date.gtb s now | None => false end
  then false
  else if match endDate with Some e => Date.ltb e now | None => false end
  then false
  else true.


End WithRuntime.
End Client.

(* ================================================================== *)
(** ** Selection-time validation (the two validate routes) *)

Module Routes.

(** What [JSON.parse] made of a tier's [allowedProducts]: an array, whose
    entries are strings or something else, or a value that is no array. *)
Inductive parsed : Type :=
| ParsedArray (entries : list (option string))
| ParsedOther.

(** A [ProductVariant] node of the inventory query. *)
Module InventoryNode.
Record t : Type := {
  id : string;
  availableForSale : bool;
  quantityAvailable : option number;
  productTitle : string
}.
End InventoryNode.

Section WithRuntime.
Context {fmt : NumberFormat}.

(** [JSON.parse]; [None] when it throws. *)
Variable JSON_parse : string -> option parsed.

Import Config.

Definition sumQuantity (l : list SelectedItem.t) : number :=
  Engine.totalSelected l.

(** [rule => totalQty >= rule.minQuantity && (rule.maxQuantity === null ||
    totalQty <= rule.maxQuantity)], searched in stored order. *)
Definition qualifyingRule (bundle : Bundle.t) (totalQty : number)
    : option VolumeRule.t :=
  find (Engine.ruleApplies totalQty) (Bundle.volumeRules bundle).

Definition minRuleQuantity (bundle : Bundle.t) : jsnum :=
  Math_min (map VolumeRule.minQuantity (Bundle.volumeRules bundle)).

(** *** [POST /api/pricing/validate] *)

Definition matchesItem (s : SelectedItem.t) (item : BundleItem.t) : bool :=
  Engine.is_case (BundleItem.shopifyVariantId item) (SelectedItem.variantId s)
  || String.eqb (SelectedItem.productId s) (BundleItem.shopifyProductId item).

Definition adminFixed (bundle : Bundle.t)
    (selectedItems : list SelectedItem.t) errors :=
  let requiredItems := filter BundleItem.isRequired (Bundle.items bundle) in
  let errors :=
    fold_left
      (fun errors requiredItem =>
         match find (fun s => matchesItem s requiredItem) selectedItems with
         | None =>
             pushIf true
               (error "selectedItems"
                  ("Required item missing: "
                     ++ BundleItem.productTitle requiredItem)
                  "REQUIRED_ITEM_MISSING")
               errors
         | Some selected =>
             pushIf
               (ltb (SelectedItem.quantity selected)
                  (BundleItem.quantity requiredItem))
               (error "selectedItems"
                  ("Insufficient quantity for "
                     ++ BundleItem.productTitle requiredItem
                     ++ ": need " ++ toString (BundleItem.quantity requiredItem)
                     ++ ", got " ++ toString (SelectedItem.quantity selected))
                  "INSUFFICIENT_QUANTITY")
               errors
         end)
      requiredItems errors in
  pushIf
    (match Bundle.price bundle, Bundle.discountType bundle with
     | None, None => true
     | _, _ => false
     end)
    (error "price" "Bundle has no price or discount configured" "NO_PRICING")
    errors.

(** [variantCounts.set(key, (variantCounts.get(key) || 0) + quantity)] on a
    [Map], which keeps keys in insertion order. *)
Fixpoint countVariant (key : string) (quantity : number)
    (counts : list (string * number)) : list (string * number) :=
  match counts with
  | [] => [(key, 0 + quantity)]
  | (k, c) :: rest =>
      if String.eqb k key then (k, c + quantity) :: rest
      else (k, c) :: countVariant key quantity rest
  end.

Definition adminCategory (selectedItems : list SelectedItem.t) errors
    (category : BundleCategory.t) :=
  let categoryItems :=
    filter
      (fun selected =>
         existsb (fun catItem => matchesItem selected catItem)
           (BundleCategory.items category))
      selectedItems in
  let categoryTotal := sumQuantity categoryItems in
  let errors :=
    pushIf
      (truthy_number (BundleCategory.minSelect category)
       && ltb categoryTotal (BundleCategory.minSelect category))
      (error "categories"
         (BundleCategory.name category ++ ": minimum "
            ++ toString (BundleCategory.minSelect category)
            ++ " items required, got " ++ toString categoryTotal)
         "CATEGORY_MIN")
      errors in
  match BundleCategory.maxSelect category with
  | Some maxSelect =>
      pushIf (truthy_number maxSelect && ltb maxSelect categoryTotal)
        (error "categories"
           (BundleCategory.name category ++ ": maximum "
              ++ toString maxSelect
              ++ " items allowed, got " ++ toString categoryTotal)
           "CATEGORY_MAX")
        errors
  | None => errors
  end.

Definition adminMixMatch (bundle : Bundle.t)
    (selectedItems : list SelectedItem.t) errors :=
  let totalProducts := sumQuantity selectedItems in
  let errors :=
    match Bundle.minProducts bundle with
    | Some minProducts =>
        pushIf (truthy_number minProducts && ltb totalProducts minProducts)
          (error "selectedItems"
             ("Minimum " ++ toString minProducts
                ++ " products required, got " ++ toString totalProducts)
             "MIN_PRODUCTS")
          errors
    | None => errors
    end in
  let errors :=
    match Bundle.maxProducts bundle with
    | Some maxProducts =>
        pushIf (truthy_number maxProducts && ltb maxProducts totalProducts)
          (error "selectedItems"
             ("Maximum " ++ toString maxProducts
                ++ " products allowed, got " ++ toString totalProducts)
             "MAX_PRODUCTS")
          errors
    | None => errors
    end in
  let errors :=
    fold_left (adminCategory selectedItems) (Bundle.categories bundle)
      errors in
  if negb (Bundle.allowDuplicates bundle) then
    let variantCounts :=
      fold_left
        (fun counts item =>
           let key :=
             if truthy_string (SelectedItem.variantId item)
             then SelectedItem.variantId item
             else SelectedItem.productId item in
           countVariant key (SelectedItem.quantity item) counts)
        selectedItems [] in
    fold_left
      (fun errors '(key, count) =>
         pushIf (ltb 1 count)
           (error "selectedItems"
              ("Duplicate selection not allowed: " ++ key) "NO_DUPLICATES")
           errors)
      variantCounts errors
  else errors.

(** [new Set(selectedItems.map(item => item.productId)).size] *)
Definition distinctProductIds (selectedItems : list SelectedItem.t)
    : list string :=
  nodup string_dec (map SelectedItem.productId selectedItems).

Definition adminVolume (bundle : Bundle.t)
    (selectedItems : list SelectedItem.t) (quantity : number)
    (errors : list ValidationError.t) (warnings : list string)
    : list ValidationError.t * list string :=
  let '(errors, warnings) :=
    if Nat.eqb (List.length (Bundle.volumeRules bundle)) 0 then
      (pushIf true
         (error "volumeRules" "No volume discount rules configured"
            "NO_RULES")
         errors,
       warnings)
    else
      let totalQty := sumQuantity selectedItems * quantity in
      match qualifyingRule bundle totalQty with
      | Some _ => (errors, warnings)
      | None =>
          let minQty := minRuleQuantity bundle in
          let warning :=
            "Current quantity (" ++ toString totalQty
              ++ ") does not qualify for any discount. Minimum "
              ++ jsnum_render toString minQty ++ " required." in
          (errors, (warnings ++ [warning])%list)
      end in
  if Bundle.applyToSameProduct bundle then
    (pushIf (Nat.ltb 1 (List.length (distinctProductIds selectedItems)))
       (error "selectedItems"
          "Volume discount applies only to the same product"
          "SAME_PRODUCT_REQUIRED")
       errors,
     warnings)
  else (errors, warnings).

(** The allow-list loop stops at the first item that is not allowed. *)
Definition allAllowed (allowedIds : list (option string))
    (selectedItems : list SelectedItem.t) : bool :=
  forallb
    (fun item =>
       existsb (fun e => Engine.is_case e (SelectedItem.productId item))
         allowedIds
       || existsb (fun e => Engine.is_case e (SelectedItem.variantId item))
            allowedIds)
    selectedItems.

(** [None] when [JSON.parse] throws. *)
Definition adminTiered (bundle : Bundle.t)
    (selectedItems : list SelectedItem.t) (tierId : option string)
    (errors : list ValidationError.t) : option (list ValidationError.t) :=
  if negb (truthy_opt truthy_string tierId) then
    Some (pushIf true
            (error "tierId" "Please select a tier" "TIER_REQUIRED") errors)
  else
    match find (fun t => Engine.is_case tierId (BundleTier.id t))
            (Bundle.tiers bundle) with
    | None =>
        Some (pushIf true
                (error "tierId" "Invalid tier selected" "INVALID_TIER")
                errors)
    | Some selectedTier =>
        let tierProductCount := sumQuantity selectedItems in
        let errors :=
          pushIf
            (negb (eqb tierProductCount (BundleTier.productCount selectedTier)))
            (error "selectedItems"
               (BundleTier.name selectedTier ++ " requires exactly "
                  ++ toString (BundleTier.productCount selectedTier)
                  ++ " products, got " ++ toString tierProductCount)
               "TIER_PRODUCT_COUNT")
            errors in
        match BundleTier.allowedProducts selectedTier with
        | Some allowedProducts =>
            if truthy_string allowedProducts then
              match JSON_parse allowedProducts with
              | None => None
              | Some (ParsedArray allowedIds) =>
                  Some
                    (pushIf
                       (Nat.ltb 0 (List.length allowedIds)
                        && negb (allAllowed allowedIds selectedItems))
                       (error "selectedItems"
                          ("Product not available in "
                             ++ BundleTier.name selectedTier ++ " tier")
                          "PRODUCT_NOT_IN_TIER")
                       errors)
              | Some ParsedOther => Some errors
              end
            else Some errors
        | None => Some errors
        end
    end.

Definition adminCommon (selectedItems : list SelectedItem.t)
    (quantity : number) errors :=
  let errors :=
    pushIf (ltb quantity 1)
      (error "quantity" "Quantity must be at least 1" "MIN_QUANTITY")
      errors in
  fold_left
    (fun errors item =>
       pushIf (ltb (SelectedItem.price item) 0)
         (error "selectedItems"
            ("Invalid price for item: " ++ SelectedItem.productId item)
            "INVALID_PRICE")
         errors)
    selectedItems errors.

Record AdminBody : Type := {
  ab_isValid : bool;
  ab_errors : list ValidationError.t;
  ab_warnings : list string
}.

Inductive AdminResponse : Type :=
| AdminStatus (status : nat) (error : string)
| AdminOk (body : AdminBody).

(** The action of [api.pricing.validate.tsx].  [found] is what
    [prisma.bundle.findFirst] returned for [bundleId] and the shop;
    [selectedItems] and [quantity] already carry the defaults [[]] and
    [1] of the destructuring. *)
Definition pricingValidate (method : string) (bundleId : option string)
    (found : option Bundle.t) (selectedItems : list SelectedItem.t)
    (tierId : option string) (quantity : number) : AdminResponse :=
  if negb (String.eqb method "POST") then
    AdminStatus 405 "Method not allowed"
  else if negb (truthy_opt truthy_string bundleId) then
    AdminStatus 400 "Bundle ID is required"
  else
    match found with
    | None => AdminStatus 404 "Bundle not found"
    | Some bundle =>
        let switched : option (list ValidationError.t * list string) :=
          if String.eqb (Bundle.type bundle) BundleType.FIXED then
            Some (adminFixed bundle selectedItems [], [])
          else if String.eqb (Bundle.type bundle) BundleType.MIX_MATCH then
            Some (adminMixMatch bundle selectedItems [], [])
          else if String.eqb (Bundle.type bundle) BundleType.VOLUME then
            Some (adminVolume bundle selectedItems quantity [] [])
          else if String.eqb (Bundle.type bundle) BundleType.TIERED then
            match adminTiered bundle selectedItems tierId [] with
            | Some errors => Some (errors, [])
            | None => None
            end
          else Some ([], []) in
        match switched with
        | None => AdminStatus 500 "Failed to validate pricing"
        | Some (errors, warnings) =>
            let errors := adminCommon selectedItems quantity errors in
            AdminOk {| ab_isValid := Nat.eqb (List.length errors) 0;
                       ab_errors := errors;
                       ab_warnings := warnings |}
        end
    end.

(** *** [POST /api/storefront/bundle/validate] *)

(** [errors.push(msg)] on a list of messages. *)
Definition push (msg : string) (errors : list string) : list string :=
  (errors ++ [msg])%list.

(** The duplicate loop: whether some item's [variantId] is already in the
    [seen] set when the loop reaches it. *)
Fixpoint seenTwice (seen : list string) (selectedItems : list SelectedItem.t)
    : bool :=
  match selectedItems with
  | [] => false
  | item :: rest =>
      if existsb (String.eqb (SelectedItem.variantId item)) seen then true
      else seenTwice (SelectedItem.variantId item :: seen) rest
  end.

Definition storeMixMatch (bundle : Bundle.t)
    (selectedItems : list SelectedItem.t) (errors : list string)
    : list string :=
  let totalProducts := sumQuantity selectedItems in
  let errors :=
    match Bundle.minProducts bundle with
    | Some minProducts =>
        if truthy_number minProducts && ltb totalProducts minProducts
        then push ("Select at least " ++ toString minProducts ++ " products")
               errors
        else errors
    | None => errors
    end in
  let errors :=
    match Bundle.maxProducts bundle with
    | Some maxProducts =>
        if truthy_number maxProducts && ltb maxProducts totalProducts
        then push ("Maximum " ++ toString maxProducts ++ " products allowed")
               errors
        else errors
    | None => errors
    end in
  let errors :=
    fold_left
      (fun (errors : list string) category =>
         let categoryItemIds :=
           map BundleItem.shopifyVariantId (BundleCategory.items category) in
         let selectedFromCategory :=
           filter
             (fun s =>
                existsb (fun v => Engine.is_case v (SelectedItem.variantId s))
                  categoryItemIds)
             selectedItems in
         let categoryTotal := sumQuantity selectedFromCategory in
         let errors :=
           if truthy_number (BundleCategory.minSelect category)
              && ltb categoryTotal (BundleCategory.minSelect category)
           then push (BundleCategory.name category ++ ": select at least "
                        ++ toString (BundleCategory.minSelect category)
                        ++ " items")
                  errors
           else errors in
         match BundleCategory.maxSelect category with
         | Some maxSelect =>
             if truthy_number maxSelect && ltb maxSelect categoryTotal
             then push (BundleCategory.name category ++ ": maximum "
                          ++ toString maxSelect ++ " items")
                    errors
             else errors
         | None => errors
         end)
      (Bundle.categories bundle) errors in
  if negb (Bundle.allowDuplicates bundle) && seenTwice [] selectedItems
  then push "Duplicate products are not allowed in this bundle" errors
  else errors.

Definition storeTiered (bundle : Bundle.t)
    (selectedItems : list SelectedItem.t) (tierId : option string)
    (errors : list string) : list string :=
  if negb (truthy_opt truthy_string tierId) then
    push "Please select a tier" errors
  else
    match find (fun t => Engine.is_case tierId (BundleTier.id t))
            (Bundle.tiers bundle) with
    | None => push "Invalid tier selected" errors
    | Some selectedTier =>
        let tierProductCount := sumQuantity selectedItems in
        let productCount := BundleTier.productCount selectedTier in
        if ltb tierProductCount productCount then
          push ("Select " ++ toString (productCount - tierProductCount)
                  ++ " more products for " ++ BundleTier.name selectedTier)
            errors
        else if ltb productCount tierProductCount then
          push (BundleTier.name selectedTier ++ " allows only "
                  ++ toString productCount ++ " products")
            errors
        else errors
    end.

(** The [VOLUME] case: the selection must not be empty, and a selection no
    rule covers earns a warning.  Nothing here reads
    [bundle.applyToSameProduct]. *)
Definition storeVolume (bundle : Bundle.t)
    (selectedItems : list SelectedItem.t) (quantity : number)
    (errors warnings : list string) : list string * list string :=
  if Nat.eqb (List.length selectedItems) 0 then
    (push "Please select items" errors, warnings)
  else
    let totalQty := sumQuantity selectedItems * quantity in
    match qualifyingRule bundle totalQty with
    | Some _ => (errors, warnings)
    | None =>
        if Nat.ltb 0 (List.length (Bundle.volumeRules bundle)) then
          let minQty := minRuleQuantity bundle in
          (errors,
           push ("Add " ++ jsnum_render toString (sub_fin minQty totalQty)
                   ++ " more to qualify for a discount")
             warnings)
        else (errors, warnings)
    end.

(** The inventory loop over the nodes the query returned. *)
Definition storeInventory (selectedItems : list SelectedItem.t)
    (quantity : number) (nodes : list (option InventoryNode.t))
    (errors : list string) : list string :=
  fold_left
    (fun (errors : list string) node =>
       match node with
       | None => errors
       | Some node =>
           match
             find
               (fun item =>
                  String.eqb (SelectedItem.variantId item)
                    (InventoryNode.id node)
                  || String.eqb
                       ("gid://shopify/ProductVariant/"
                          ++ SelectedItem.variantId item)
                       (InventoryNode.id node))
               selectedItems
           with
           | None => errors
           | Some selectedItem =>
               let requiredQty :=
                 SelectedItem.quantity selectedItem * quantity in
               let available :=
                 match InventoryNode.quantityAvailable node with
                 | Some n => if truthy_number n then n else 0
                 | None => 0
                 end in
               if negb (InventoryNode.availableForSale node) then
                 push (InventoryNode.productTitle node ++ " is not available")
                   errors
               else if ltb available requiredQty then
                 push ("Only " ++ toString available ++ " of "
                         ++ InventoryNode.productTitle node ++ " available")
                   errors
               else errors
           end
       end)
    nodes errors.

Record StoreBody : Type := {
  sb_isValid : bool;
  sb_errors : list string;
  sb_warnings : list string;
  sb_pricing : option PricingCalculationResponse.t
}.

Inductive StoreResponse : Type :=
| StoreStatus (status : nat) (error : string)
| StoreJson (status : nat) (body : StoreBody).

Definition storeRejected (status : nat) (msg : string) : StoreResponse :=
  StoreJson status
    {| sb_isValid := false; sb_errors := [msg]; sb_warnings := [];
       sb_pricing := None |}.

(** The action of [api.storefront.bundle.validate.tsx].  [found] is the
    active or scheduled bundle [prisma.bundle.findFirst] returned; [now] is
    the clock of the schedule test; [inventory] is [inventoryJson.data?.nodes]
    of the inventory query, or [None] when the query throws.  Failures of
    the session and of the database are outside the model. *)
Definition storefrontValidate (method : string) (shop bundleId : option string)
    (found : option Bundle.t) (now : Date.t)
    (selectedItems : list SelectedItem.t) (tierId : option string)
    (quantity : number)
    (inventory : option (option (list (option InventoryNode.t))))
    : StoreResponse :=
  if negb (String.eqb method "POST") then StoreStatus 405 "Method not allowed"
  else if negb (truthy_opt truthy_string shop) then
    StoreStatus 400 "Shop is required"
  else if negb (truthy_opt truthy_string bundleId) then
    StoreStatus 400 "Bundle ID is required"
  else
    match found with
    | None => storeRejected 200 "Bundle not found"
    | Some bundle =>
        if negb (Client.isBundleScheduleActive now (Bundle.startDate bundle)
                   (Bundle.endDate bundle))
        then storeRejected 200 "Bundle not currently available"
        else
          let '(errors, warnings) :=
            if String.eqb (Bundle.type bundle) BundleType.FIXED then
              ([], [])
            else if String.eqb (Bundle.type bundle) BundleType.MIX_MATCH then
              (storeMixMatch bundle selectedItems [], [])
            else if String.eqb (Bundle.type bundle) BundleType.TIERED then
              (storeTiered bundle selectedItems tierId [], [])
            else if String.eqb (Bundle.type bundle) BundleType.VOLUME then
              storeVolume bundle selectedItems quantity [] []
            else ([], []) in
          let queried :=
            existsb (fun item => truthy_string (SelectedItem.variantId item))
              selectedItems in
          let checked : option (list string) :=
            if queried then
              match inventory with
              | None => None
              | Some None => Some errors
              | Some (Some nodes) =>
                  Some (storeInventory selectedItems quantity nodes errors)
              end
            else Some errors in
          match checked with
          | None => storeRejected 500 "Validation failed"
          | Some errors =>
              let ok := Nat.eqb (List.length errors) 0 in
              StoreJson 200
                {| sb_isValid := ok;
                   sb_errors := errors;
                   sb_warnings := warnings;
                   sb_pricing :=
                     if ok
                     then Some (Engine.calculateBundlePricing bundle
                                  selectedItems tierId quantity)
                     else None |}
          end
    end.

End WithRuntime.
End Routes.

(* ================================================================== *)
(** ** A decimal rendering of exact numbers

    An instance of [NumberFormat] to run the model on concrete inputs:
    [toFixed] rounds half away from zero, [toString] prints the shortest
    exact decimal (seventeen places at most).  The currency rendering is
    plain; locale rules are not modelled. *)

Module Decimal.

Definition showZ (z : Z) : string := NilZero.string_of_int (Z.to_int z).

Fixpoint zeros (n : nat) : string :=
  match n with O => "" | S k => "0" ++ zeros k end.

Definition showFixed (q : number) (digits : nat) : string :=
  let scale := (10 ^ Z.of_nat digits)%Z in
  let n := Qfloor (Qabs q * inject_Z scale + (1 # 2)) in
  let whole := showZ (n / scale) in
  let frac := showZ (n mod scale) in
  (if Qle_bool 0 q then "" else "-") ++ whole ++
  match digits with
  | O => ""
  | _ => "." ++ zeros (digits - String.length frac) ++ frac
  end.

Fixpoint showShortest (fuel digits : nat) (q : number) : string :=
  match fuel with
  | O => showFixed q digits
  | S k =>
      if Z.eqb (Z.pos (Qden (Qred (q * inject_Z (10 ^ Z.of_nat digits))))) 1
      then showFixed q digits
      else showShortest k (S digits) q
  end.

#[export] Instance format : NumberFormat := {|
  toFixed := showFixed;
  toString := showShortest 17 0;
  intlCurrency := fun currency q => currency ++ " " ++ showFixed q 2
|}.

End Decimal.

(* ================================================================== *)
(** ** Sample data *)

Module Samples.

Definition selected (productId variantId : string) (quantity price : number)
    : SelectedItem.t :=
  {| SelectedItem.productId := productId;
     SelectedItem.variantId := variantId;
     SelectedItem.quantity := quantity;
     SelectedItem.price := price |}.

Definition percentRule (minQuantity : number) (maxQuantity : option number)
    (percent : number) : VolumeRule.t :=
  {| VolumeRule.minQuantity := minQuantity;
     VolumeRule.maxQuantity := maxQuantity;
     VolumeRule.discountType := DiscountType.PERCENTAGE;
     VolumeRule.discountValue := percent;
     VolumeRule.label := None |}.

(** The overlapping rules of the specification: 10% from 3 to 5, 20% from
    6 on. *)
Definition overlappingRules : list VolumeRule.t :=
  [percentRule 3 (Some 5) 10; percentRule 6 None 20].

(** A bundle of the given type with nothing configured. *)
Definition bare (type : string) : Bundle.t :=
  {| Bundle.title := "Sample";
     Bundle.type := type;
     Bundle.price := None;
     Bundle.discountType := None;
     Bundle.discountValue := None;
     Bundle.minProducts := None;
     Bundle.maxProducts := None;
     Bundle.allowDuplicates := true;
     Bundle.applyToSameProduct := false;
     Bundle.startDate := None;
     Bundle.endDate := None;
     Bundle.items := [];
     Bundle.volumeRules := [];
     Bundle.tiers := [];
     Bundle.categories := [] |}.

(** The first scenario of the specification: a fixed bundle at 50 with two
    items of 30 and 25. *)
Definition fixedAtFifty : Bundle.t :=
  {| Bundle.title := "Duo";
     Bundle.type := BundleType.FIXED;
     Bundle.price := Some 50;
     Bundle.discountType := None;
     Bundle.discountValue := None;
     Bundle.minProducts := None;
     Bundle.maxProducts := None;
     Bundle.allowDuplicates := true;
     Bundle.applyToSameProduct := false;
     Bundle.startDate := None;
     Bundle.endDate := None;
     Bundle.items := [];
     Bundle.volumeRules := [];
     Bundle.tiers := [];
     Bundle.categories := [] |}.

(** Two rules that both cover a quantity of 4: no discount from 1 on, 10%
    from 3 to 5. *)
Definition nestedRules : list VolumeRule.t :=
  [percentRule 1 None 0; percentRule 3 (Some 5) 10].

Definition thirtyAndTwentyFive : list SelectedItem.t :=
  [selected "p1" "v1" 1 30; selected "p2" "v2" 1 25].

(** A mix and match bundle, 15% off, with the given bounds. *)
Definition mixMatch (minProducts maxProducts : option number) : Bundle.t :=
  {| Bundle.title := "Pick some";
     Bundle.type := BundleType.MIX_MATCH;
     Bundle.price := None;
     Bundle.discountType := Some DiscountType.PERCENTAGE;
     Bundle.discountValue := Some 15;
     Bundle.minProducts := minProducts;
     Bundle.maxProducts := maxProducts;
     Bundle.allowDuplicates := true;
     Bundle.applyToSameProduct := false;
     Bundle.startDate := None;
     Bundle.endDate := None;
     Bundle.items := [];
     Bundle.volumeRules := [];
     Bundle.tiers := [];
     Bundle.categories := [] |}.

(** A tiered bundle with the tier of the specification: three products
    for 65. *)
Definition trio : BundleTier.t :=
  {| BundleTier.id := "t1";
     BundleTier.name := "Trio";
     BundleTier.price := 65;
     BundleTier.productCount := 3;
     BundleTier.allowedProducts := None |}.

Definition tiered : Bundle.t :=
  {| Bundle.title := "Tiers";
     Bundle.type := BundleType.TIERED;
     Bundle.price := None;
     Bundle.discountType := None;
     Bundle.discountValue := None;
     Bundle.minProducts := None;
     Bundle.maxProducts := None;
     Bundle.allowDuplicates := true;
     Bundle.applyToSameProduct := false;
     Bundle.startDate := None;
     Bundle.endDate := None;
     Bundle.items := [];
     Bundle.volumeRules := [];
     Bundle.tiers := [trio];
     Bundle.categories := [] |}.

(** A volume bundle restricted to one product, 10% off from two items on. *)
Definition sameProductVolume : Bundle.t :=
  {| Bundle.title := "More of the same";
     Bundle.type := BundleType.VOLUME;
     Bundle.price := None;
     Bundle.discountType := None;
     Bundle.discountValue := None;
     Bundle.minProducts := None;
     Bundle.maxProducts := None;
     Bundle.allowDuplicates := true;
     Bundle.applyToSameProduct := true;
     Bundle.startDate := None;
     Bundle.endDate := None;
     Bundle.items := [];
     Bundle.volumeRules := [percentRule 2 None 10];
     Bundle.tiers := [];
     Bundle.categories := [] |}.

(** The volume scenario of the specification: no discount up to 2, 10% from
    3 to 5, 20% from 6 on. *)
Definition threeSteps : Bundle.t :=
  {| Bundle.title := "Steps";
     Bundle.type := BundleType.VOLUME;
     Bundle.price := None;
     Bundle.discountType := None;
     Bundle.discountValue := None;
     Bundle.minProducts := None;
     Bundle.maxProducts := None;
     Bundle.allowDuplicates := true;
     Bundle.applyToSameProduct := false;
     Bundle.startDate := None;
     Bundle.endDate := None;
     Bundle.items := [];
     Bundle.volumeRules :=
       [percentRule 1 (Some 2) 0; percentRule 3 (Some 5) 10;
        percentRule 6 None 20];
     Bundle.tiers := [];
     Bundle.categories := [] |}.

(** Two different products. *)
Definition twoProducts : list SelectedItem.t :=
  [selected "A" "v1" 1 10; selected "B" "v2" 2 10].

(** The body of a create request for a fixed bundle that names one item
    and neither [price] nor [discountType]. *)
Definition fixedWithoutPricing : PartialBundle.t :=
  {| PartialBundle.title := present "Starter kit";
     PartialBundle.type := present BundleType.FIXED;
     PartialBundle.price := undefined;
     PartialBundle.discountType := undefined;
     PartialBundle.minProducts := undefined;
     PartialBundle.maxProducts := undefined;
     PartialBundle.startDate := undefined;
     PartialBundle.endDate := undefined;
     PartialBundle.items :=
       present [{| BundleItem.shopifyProductId := "p1";
                   BundleItem.shopifyVariantId := None;
                   BundleItem.productTitle := "Mug";
                   BundleItem.quantity := 1;
                   BundleItem.isRequired := true |}];
     PartialBundle.volumeRules := present [];
     PartialBundle.tiers := present [] |}.

(** The same bundle as the database returns it: both columns null. *)
Definition fixedWithNulls : PartialBundle.t :=
  {| PartialBundle.title := PartialBundle.title fixedWithoutPricing;
     PartialBundle.type := PartialBundle.type fixedWithoutPricing;
     PartialBundle.price := null;
     PartialBundle.discountType := null;
     PartialBundle.minProducts := null;
     PartialBundle.maxProducts := null;
     PartialBundle.startDate := null;
     PartialBundle.endDate := null;
     PartialBundle.items := PartialBundle.items fixedWithoutPricing;
     PartialBundle.volumeRules := present [];
     PartialBundle.tiers := present [] |}.


(** A volume configuration with one rule and the given schedule. *)
Definition scheduled (startDate endDate : optional Date.t)
    : PartialBundle.t :=
  {| PartialBundle.title := present "Weekend deal";
     PartialBundle.type := present BundleType.VOLUME;
     PartialBundle.price := undefined;
     PartialBundle.discountType := undefined;
     PartialBundle.minProducts := undefined;
     PartialBundle.maxProducts := undefined;
     PartialBundle.startDate := startDate;
     PartialBundle.endDate := endDate;
     PartialBundle.items := undefined;
     PartialBundle.volumeRules := present [percentRule 2 None 10];
     PartialBundle.tiers := undefined |}.

(** A mix and match configuration with one item and the given bounds. *)
Definition bounded (minProducts maxProducts : optional number)
    : PartialBundle.t :=
  {| PartialBundle.title := present "Pick some";
     PartialBundle.type := present BundleType.MIX_MATCH;
     PartialBundle.price := undefined;
     PartialBundle.discountType := undefined;
     PartialBundle.minProducts := minProducts;
     PartialBundle.maxProducts := maxProducts;
     PartialBundle.startDate := undefined;
     PartialBundle.endDate := undefined;
     PartialBundle.items := PartialBundle.items fixedWithoutPricing;
     PartialBundle.volumeRules := undefined;
     PartialBundle.tiers := undefined |}.

Definition at_ (time : number) : Date.t := {| Date.getTime := Some time |}.

(** The overlapping rules in the other order. *)
Definition overlappingRulesReversed : list VolumeRule.t :=
  [percentRule 6 None 20; percentRule 3 (Some 5) 10].

(** Two lines that cost nothing. *)
Definition freeLines : list SelectedItem.t :=
  [selected "p1" "v1" 2 0; selected "p2" "v2" 1 0].



(** A mix and match bundle that allows no duplicates. *)
Definition noDuplicates : Bundle.t :=
  {| Bundle.title := "One of each";
     Bundle.type := BundleType.MIX_MATCH;
     Bundle.price := None;
     Bundle.discountType := Some DiscountType.PERCENTAGE;
     Bundle.discountValue := Some 15;
     Bundle.minProducts := None;
     Bundle.maxProducts := None;
     Bundle.allowDuplicates := false;
     Bundle.applyToSameProduct := false;
     Bundle.startDate := None;
     Bundle.endDate := None;
     Bundle.items := [];
     Bundle.volumeRules := [];
     Bundle.tiers := [];
     Bundle.categories := [] |}.

(** The inventory node of variant [v2], not for sale. *)
Definition soldOut : Routes.InventoryNode.t :=
  {| Routes.InventoryNode.id := "gid://shopify/ProductVariant/v2";
     Routes.InventoryNode.availableForSale := false;
     Routes.InventoryNode.quantityAvailable := Some 0;
     Routes.InventoryNode.productTitle := "Teapot" |}.

(** A parser that accepts no text. *)
Definition rejectAll (text : string) : option Routes.parsed := None.

End Samples.

(* ================================================================== *)
(** ** Vocabulary of the specification *)

Module Spec.

(** The discount types of the data model: Percentage, FixedAmount,
    FixedPrice and FixedPricePerItem. *)
Definition recognized (discountType : option string) : bool :=
  Engine.is_case discountType DiscountType.PERCENTAGE
  || Engine.is_case discountType DiscountType.FIXED_AMOUNT
  || Engine.is_case discountType DiscountType.FIXED_PRICE
  || Engine.is_case discountType DiscountType.FIXED_PRICE_PER_ITEM.

(** The bundle types of the data model. *)
Definition knownType (type : string) : Prop :=
  type = BundleType.FIXED \/ type = BundleType.MIX_MATCH
  \/ type = BundleType.VOLUME \/ type = BundleType.TIERED.

(** A volume rule qualifies for a quantity:
    [quantity >= rule.minQuantity] and [rule.maxQuantity] is null or
    [quantity <= rule.maxQuantity]. *)
Definition qualifies (quantity : number) (rule : VolumeRule.t) : Prop :=
  VolumeRule.minQuantity rule <= quantity
  /\ match VolumeRule.maxQuantity rule with
     | None => True
     | Some maxQuantity => quantity <= maxQuantity
     end.

(** What [applyDiscount] returns for a discount type of the data model:
    the price, and the discount with its label. *)
Definition discountOf (type : string) (value price : number) (label : string)
    : Engine.DiscountResult :=
  {| Engine.dr_discountedPrice := price;
     Engine.dr_appliedDiscount :=
       {| AppliedDiscount.type := Some type;
          AppliedDiscount.value := value;
          AppliedDiscount.label := label |} |}.

(** The errors that name a violated bound. *)
Definition tooFew {fmt : NumberFormat} (minProducts : number) : string :=
  "Minimum " ++ toString minProducts ++ " products required".

Definition tooMany {fmt : NumberFormat} (maxProducts : number) : string :=
  "Maximum " ++ toString maxProducts ++ " products allowed".

(** The order the rules are searched in: by [key], highest first. *)
Definition descending {A} (key : A -> number) (a b : A) : Prop :=
  key b <= key a.

(** No tier was chosen: [tierId] is missing or empty. *)
Definition noTier (tierId : option string) : Prop :=
  tierId = None \/ tierId = Some "".

(** A bound that is in force: set, and not zero. *)
Definition inForce (bound : option number) (m : number) : Prop :=
  bound = Some m /\ ~ m == 0.

(** The entry of [itemPrices] that belongs to a selected item, with the
    given discounted unit price. *)
Definition entryFor (item : SelectedItem.t) (discounted : number)
    : ItemPrice.t :=
  {| ItemPrice.productId := SelectedItem.productId item;
     ItemPrice.variantId := SelectedItem.variantId item;
     ItemPrice.originalPrice := SelectedItem.price item;
     ItemPrice.discountedPrice := discounted;
     ItemPrice.quantity := SelectedItem.quantity item |}.



(** The schedule is upside down: both dates are given and valid, and the
    start is not before the end. *)
Definition upsideDown (startDate endDate : optional Date.t) : Prop :=
  exists s e x y,
    startDate = present s /\ endDate = present e
    /\ Date.getTime s = Some x /\ Date.getTime e = Some y /\ y <= x.


Definition scheduleError : ValidationError.t :=
  Config.error "endDate" "End date must be after start date"
    "INVALID_DATE_RANGE".

Definition rangeError : ValidationError.t :=
  Config.error "minProducts" "Minimum products cannot exceed maximum"
    "INVALID_RANGE".

(** What the customer pays for the selected lines at their discounted unit
    prices, for one bundle. *)
Definition discountedTotal (itemPrices : list ItemPrice.t) : number :=
  fold_left
    (fun sum entry =>
       sum + ItemPrice.discountedPrice entry * ItemPrice.quantity entry)
    itemPrices 0.

(** The shape of a handle: what it is made of, and where its dashes are. *)
Fixpoint allChars (p : ascii -> bool) (s : string) : bool :=
  match s with
  | String c s' => p c && allChars p s'
  | EmptyString => true
  end.

Definition handleChar (c : ascii) : bool :=
  Ids.isAlnum c || Ascii.eqb c "-".

Definition startsWithDash (s : string) : bool :=
  match s with
  | String c _ => Ascii.eqb c "-"
  | EmptyString => false
  end.

Fixpoint endsWithDash (s : string) : bool :=
  match s with
  | String c EmptyString => Ascii.eqb c "-"
  | String _ s' => endsWithDash s'
  | EmptyString => false
  end.

Fixpoint hasDoubleDash (s : string) : bool :=
  match s with
  | String c s' => (Ascii.eqb c "-" && startsWithDash s') || hasDoubleDash s'
  | EmptyString => false
  end.

(** A handle as [generateHandle] writes them when it does not cut. *)
Definition cleanHandle (h : string) : Prop :=
  allChars handleChar h = true
  /\ startsWithDash h = false
  /\ endsWithDash h = false
  /\ hasDoubleDash h = false
  /\ (String.length h <= 100)%nat.

(** [item.variantId || item.productId] *)
Definition selectionKey (item : SelectedItem.t) : string :=
  if truthy_string (SelectedItem.variantId item)
  then SelectedItem.variantId item
  else SelectedItem.productId item.

(** The count of a key is above one. *)
Definition counted (key : string) (counts : list (string * number)) : Prop :=
  exists count, In (key, count) counts /\ 1 < count.

End Spec.

(* ================================================================== *)
(** ** Facts about the JavaScript layer *)

Module JSFacts.

Lemma ltb_lt (a b : number) : ltb a b = true <-> a < b.
Proof.
  unfold ltb. rewrite negb_true_iff.
  split; intro H.
  - apply Qnot_le_lt. intro Hle. apply Qle_bool_iff in Hle. congruence.
  - destruct (Qle_bool b a) eqn:E; [|reflexivity].
    apply Qle_bool_iff in E. exfalso. apply (Qlt_not_le _ _ H E).
Qed.

Lemma ltb_ge (a b : number) : ltb a b = false <-> b <= a.
Proof.
  unfold ltb. rewrite negb_false_iff. apply Qle_bool_iff.
Qed.

Lemma leb_le (a b : number) : leb a b = true <-> a <= b.
Proof. apply Qle_bool_iff. Qed.

Lemma eqb_eq (a b : number) : eqb a b = true <-> a == b.
Proof. apply Qeq_bool_iff. Qed.

Lemma eqb_neq (a b : number) : eqb a b = false <-> ~ a == b.
Proof.
  split; intro H.
  - intro E. apply eqb_eq in E. congruence.
  - destruct (eqb a b) eqn:E; [|reflexivity].
    apply eqb_eq in E. contradiction.
Qed.

Lemma truthy_number_iff (n : number) : truthy_number n = true <-> ~ n == 0.
Proof.
  unfold truthy_number. rewrite negb_true_iff. apply eqb_neq.
Qed.

Lemma truthy_string_iff (s : string) : truthy_string s = true <-> s <> "".
Proof.
  unfold truthy_string. rewrite negb_true_iff. apply String.eqb_neq.
Qed.

Lemma Math_max_Qmax (a b : number) : Math_max a b == Qmax a b.
Proof.
  unfold Math_max. destruct (ltb a b) eqn:E.
  - apply ltb_lt in E. symmetry. apply Q.max_r. apply Qlt_le_weak, E.
  - apply ltb_ge in E. symmetry. apply Q.max_l. exact E.
Qed.

Lemma Math_max_lower (a b : number) : a <= Math_max a b.
Proof.
  unfold Math_max. destruct (ltb a b) eqn:E.
  - apply ltb_lt in E. apply Qlt_le_weak, E.
  - apply Qle_refl.
Qed.

(** An unguarded division by zero never yields a finite number. *)
Lemma div_by_zero (a : number) :
  div a 0 = NaN \/ div a 0 = PosInfinity \/ div a 0 = NegInfinity.
Proof.
  unfold div. replace (eqb 0 0) with true by reflexivity.
  destruct (eqb a 0); [now left|].
  destruct (ltb 0 a); [right; now left | right; now right].
Qed.

(** A division whose divisor is not zero is the exact quotient. *)
Lemma div_finite (a b : number) : ~ b == 0 -> div a b = Finite (a / b).
Proof.
  intro H. unfold div. apply eqb_neq in H. now rewrite H.
Qed.

End JSFacts.

(* ================================================================== *)
(** ** The discount primitive *)

Module DiscountFacts.
Import Engine.

Section Cases.
Context {fmt : NumberFormat}.
Variables originalPrice discountValue : number.

Lemma applyDiscount_percentage :
  applyDiscount originalPrice (Some DiscountType.PERCENTAGE) discountValue
  = Spec.discountOf DiscountType.PERCENTAGE discountValue
      (originalPrice * (1 - discountValue / 100))
      (toString discountValue ++ "% off").
Proof. reflexivity. Qed.

Lemma applyDiscount_fixed_amount :
  applyDiscount originalPrice (Some DiscountType.FIXED_AMOUNT) discountValue
  = Spec.discountOf DiscountType.FIXED_AMOUNT discountValue
      (Math_max 0 (originalPrice - discountValue))
      ("€" ++ toFixed discountValue 2 ++ " off").
Proof. reflexivity. Qed.

Lemma applyDiscount_fixed_price :
  applyDiscount originalPrice (Some DiscountType.FIXED_PRICE) discountValue
  = Spec.discountOf DiscountType.FIXED_PRICE discountValue discountValue
      ("€" ++ toFixed discountValue 2).
Proof. reflexivity. Qed.

Lemma applyDiscount_per_item :
  applyDiscount originalPrice (Some DiscountType.FIXED_PRICE_PER_ITEM)
    discountValue
  = Spec.discountOf DiscountType.FIXED_PRICE_PER_ITEM discountValue
      originalPrice ("€" ++ toFixed discountValue 2 ++ " per item").
Proof. reflexivity. Qed.

Lemma applyDiscount_default (t : option string) :
  Spec.recognized t = false ->
  applyDiscount originalPrice t discountValue
  = {| dr_discountedPrice := originalPrice;
       dr_appliedDiscount :=
         {| AppliedDiscount.type := t;
            AppliedDiscount.value := discountValue;
            AppliedDiscount.label := "" |} |}.
Proof.
  intro H. unfold Spec.recognized in H. unfold applyDiscount.
  apply orb_false_elim in H as [H H4].
  apply orb_false_elim in H as [H H3].
  apply orb_false_elim in H as [H1 H2].
  now rewrite H1, H2, H3, H4.
Qed.

End Cases.

(** C1.  [applyDiscount] by discount type, for every original amount and
    discount value.  Percentage gives [original * (1 - value / 100)], so a
    value of 0 leaves the amount unchanged and a value of 100 gives 0.
    FixedAmount gives [max(0, original - value)], which is never negative.
    FixedPrice gives the value whatever the original amount is.
    FixedPricePerItem gives the original amount.  A missing discount type
    or one outside these four gives the original amount and an empty
    label. *)
Theorem applyDiscount_cases {fmt : NumberFormat}
    (originalAmount discountValue : number) :
  let discounted t v := dr_discountedPrice (applyDiscount originalAmount t v) in
  discounted (Some DiscountType.PERCENTAGE) discountValue
    = originalAmount * (1 - discountValue / 100)
  /\ discounted (Some DiscountType.PERCENTAGE) 0 == originalAmount
  /\ discounted (Some DiscountType.PERCENTAGE) 100 == 0
  /\ discounted (Some DiscountType.FIXED_AMOUNT) discountValue
       == Qmax 0 (originalAmount - discountValue)
  /\ 0 <= discounted (Some DiscountType.FIXED_AMOUNT) discountValue
  /\ (forall other : number,
        dr_discountedPrice
          (applyDiscount other (Some DiscountType.FIXED_PRICE) discountValue)
        = discountValue)
  /\ discounted (Some DiscountType.FIXED_PRICE_PER_ITEM) discountValue
       = originalAmount
  /\ (forall t : option string,
        Spec.recognized t = false ->
        discounted t discountValue = originalAmount
        /\ AppliedDiscount.label
             (dr_appliedDiscount (applyDiscount originalAmount t discountValue))
           = "").
Proof.
  cbv beta zeta.
  rewrite !applyDiscount_percentage, applyDiscount_fixed_amount,
    applyDiscount_per_item.
  unfold Spec.discountOf. cbn [dr_discountedPrice].
  split; [reflexivity|].
  split; [field|].
  split; [field|].
  split; [apply JSFacts.Math_max_Qmax|].
  split; [apply JSFacts.Math_max_lower|].
  split; [reflexivity|].
  split; [reflexivity|].
  intros t H. rewrite (applyDiscount_default _ _ t H). split; reflexivity.
Qed.

Section Runs.
#[local] Existing Instance Decimal.format.

(** The default branch at work: an unknown discount type, and none at all. *)
Lemma applyDiscount_cases_witness :
  (dr_discountedPrice (applyDiscount 80 (Some "bogus") 25) = 80
   /\ AppliedDiscount.label
        (dr_appliedDiscount (applyDiscount 80 (Some "bogus") 25)) = "")
  /\ (dr_discountedPrice (applyDiscount 80 None 25) = 80
      /\ AppliedDiscount.label
           (dr_appliedDiscount (applyDiscount 80 None 25)) = "").
Proof.
  destruct (applyDiscount_cases (fmt := Decimal.format) 80 25)
    as (_ & _ & _ & _ & _ & _ & _ & H).
  split; apply H; reflexivity.
Defined.

End Runs.

End DiscountFacts.

(* ================================================================== *)
(** ** Volume rule selection *)

Module VolumeFacts.
Import Engine.

Section SortFacts.
Context {A : Type} (cmp : A -> A -> number).

Lemma sort_insert_In (x y : A) (l : list A) :
  In y (sort_insert cmp x l) <-> y = x \/ In y l.
Proof.
  induction l as [|z l IH]; simpl.
  - intuition.
  - destruct (ltb 0 (cmp x z)); simpl; rewrite ?IH; intuition.
Qed.

Lemma sort_In (x : A) (l : list A) : In x (sort cmp l) <-> In x l.
Proof.
  induction l as [|z l IH]; simpl.
  - reflexivity.
  - rewrite sort_insert_In, IH. intuition.
Qed.

(** A comparator of the shape [(a, b) => key(b) - key(a)] sorts by [key],
    highest first. *)
Variable key : A -> number.
Hypothesis cmp_key : forall a b, cmp a b = key b - key a.

Lemma sort_insert_sorted (x : A) (l : list A) :
  StronglySorted (Spec.descending key) l ->
  StronglySorted (Spec.descending key) (sort_insert cmp x l).
Proof.
  induction 1 as [|y l Hs IH Hall]; simpl.
  - repeat constructor.
  - destruct (ltb 0 (cmp x y)) eqn:E.
    + apply JSFacts.ltb_lt in E. rewrite cmp_key in E.
      constructor; [exact IH|].
      apply Forall_forall. intros z Hz.
      apply sort_insert_In in Hz as [->|Hz].
      * unfold Spec.descending. lra.
      * rewrite Forall_forall in Hall. now apply Hall.
    + apply JSFacts.ltb_ge in E. rewrite cmp_key in E.
      constructor; [now constructor|].
      constructor.
      * unfold Spec.descending. lra.
      * rewrite Forall_forall in Hall |- *. intros z Hz.
        specialize (Hall z Hz). unfold Spec.descending in *. lra.
Qed.

Lemma sort_sorted (l : list A) :
  StronglySorted (Spec.descending key) (sort cmp l).
Proof.
  induction l as [|x l IH]; simpl.
  - constructor.
  - now apply sort_insert_sorted.
Qed.

End SortFacts.

(** [find] on a sorted list: whatever else passes the test comes later in
    the order. *)
Lemma find_first_sorted {A} (R : A -> A -> Prop) (p : A -> bool)
    (l : list A) (r : A) :
  StronglySorted R l -> find p l = Some r ->
  forall r', In r' l -> p r' = true -> r' = r \/ R r r'.
Proof.
  induction 1 as [|a l Hs IH Hall]; simpl; [discriminate|].
  destruct (p a) eqn:E.
  - intros [= <-] r' [->|Hin] _; [now left|right].
    rewrite Forall_forall in Hall. now apply Hall.
  - intros Hfind r' [->|Hin] Hp; [congruence|].
    now apply IH.
Qed.

Lemma ruleApplies_iff (quantity : number) (rule : VolumeRule.t) :
  ruleApplies quantity rule = true <-> Spec.qualifies quantity rule.
Proof.
  unfold ruleApplies, Spec.qualifies.
  rewrite andb_true_iff, JSFacts.leb_le.
  destruct (VolumeRule.maxQuantity rule).
  - now rewrite JSFacts.leb_le.
  - intuition.
Qed.

(** C3.  For every list of rules and every quantity,
    [findApplicableVolumeRule] returns a rule of the list that qualifies
    and whose [minQuantity] is the highest among the qualifying rules, and
    returns nothing exactly when no rule qualifies.  With the overlapping
    rules 10% for 3 to 5 and 20% from 6 on, a quantity of 6 selects the 20%
    rule. *)
Theorem findApplicableVolumeRule_highest (rules : list VolumeRule.t)
    (quantity : number) :
  match findApplicableVolumeRule rules quantity with
  | Some rule =>
      In rule rules
      /\ Spec.qualifies quantity rule
      /\ (forall other, In other rules -> Spec.qualifies quantity other ->
          VolumeRule.minQuantity other <= VolumeRule.minQuantity rule)
  | None => forall other, In other rules -> ~ Spec.qualifies quantity other
  end
  /\ findApplicableVolumeRule Samples.overlappingRules 6
     = Some (Samples.percentRule 6 None 20).
Proof.
  split; [|reflexivity].
  unfold findApplicableVolumeRule.
  set (cmp := fun a b => VolumeRule.minQuantity b - VolumeRule.minQuantity a).
  destruct (find (ruleApplies quantity) (sort cmp rules)) as [rule|] eqn:E.
  - pose proof (find_some _ _ E) as [Hin Happ].
    apply sort_In in Hin. apply ruleApplies_iff in Happ.
    split; [exact Hin|]. split; [exact Happ|].
    intros other Hother Hq.
    assert (Hs : StronglySorted (Spec.descending VolumeRule.minQuantity)
                   (sort cmp rules))
      by (apply sort_sorted; reflexivity).
    destruct (find_first_sorted _ _ _ _ Hs E other) as [->|Hd].
    + now apply sort_In.
    + now apply ruleApplies_iff.
    + apply Qle_refl.
    + exact Hd.
  - intros other Hother Hq.
    apply ruleApplies_iff in Hq.
    pose proof (find_none _ _ E other) as Hnone.
    rewrite Hnone in Hq; [discriminate|].
    now apply sort_In.
Qed.

(** Of two rules that cover a quantity of 4, the one starting at 3 wins
    over the one starting at 1. *)
Lemma findApplicableVolumeRule_highest_witness :
  findApplicableVolumeRule Samples.nestedRules 4
  = Some (Samples.percentRule 3 (Some 5) 10)
  /\ VolumeRule.minQuantity (Samples.percentRule 1 None 0)
     <= VolumeRule.minQuantity (Samples.percentRule 3 (Some 5) 10).
Proof.
  split; [reflexivity|].
  pose proof (proj1 (findApplicableVolumeRule_highest Samples.nestedRules 4))
    as H.
  change (findApplicableVolumeRule Samples.nestedRules 4)
    with (Some (Samples.percentRule 3 (Some 5) 10)) in H.
  destruct H as (_ & _ & Hmax).
  apply Hmax.
  - left. reflexivity.
  - split; [discriminate | exact I].
Defined.

End VolumeFacts.

(* ================================================================== *)
(** ** Bundle pricing *)

Module PricingFacts.
Import Engine.

Section Switch.
Context {fmt : NumberFormat}.
Variables (bundle : Bundle.t) (selectedItems : list SelectedItem.t)
          (tierId : option string) (quantity originalPrice : number)
          (st : Locals).

Lemma typeSwitch_fixed :
  Bundle.type bundle = BundleType.FIXED ->
  typeSwitch bundle selectedItems tierId quantity originalPrice st
  = caseFixed bundle quantity originalPrice st.
Proof. intro H. unfold typeSwitch. now rewrite H. Qed.

Lemma typeSwitch_mix_match :
  Bundle.type bundle = BundleType.MIX_MATCH ->
  typeSwitch bundle selectedItems tierId quantity originalPrice st
  = caseMixMatch bundle selectedItems originalPrice st.
Proof. intro H. unfold typeSwitch. now rewrite H. Qed.

Lemma typeSwitch_volume :
  Bundle.type bundle = BundleType.VOLUME ->
  typeSwitch bundle selectedItems tierId quantity originalPrice st
  = caseVolume bundle selectedItems quantity originalPrice st.
Proof. intro H. unfold typeSwitch. now rewrite H. Qed.

Lemma typeSwitch_tiered :
  Bundle.type bundle = BundleType.TIERED ->
  typeSwitch bundle selectedItems tierId quantity originalPrice st
  = caseTiered bundle selectedItems tierId quantity st.
Proof. intro H. unfold typeSwitch. now rewrite H. Qed.

Lemma typeSwitch_unknown :
  ~ Spec.knownType (Bundle.type bundle) ->
  typeSwitch bundle selectedItems tierId quantity originalPrice st = st.
Proof.
  intro H. unfold typeSwitch, Spec.knownType in *.
  repeat match goal with
         | |- context [String.eqb ?a ?b] =>
             destruct (String.eqb_spec a b); [exfalso; tauto|]
         end.
  reflexivity.
Qed.

End Switch.

(** A discount that counts as configured is applied as it stands; one that
    does not leaves the price where [applyDiscount] would leave it too. *)
Lemma configuredDiscount_price {fmt : NumberFormat} (bundle : Bundle.t)
    (originalPrice : number) (st : Locals) :
  discountedPrice st = originalPrice ->
  discountedPrice
    match configuredDiscount bundle with
    | Some (discountType, discountValue) =>
        setDiscount
          (applyDiscount originalPrice (Some discountType) discountValue) st
    | None => st
    end
  = match Bundle.discountType bundle, Bundle.discountValue bundle with
    | Some discountType, Some discountValue =>
        dr_discountedPrice
          (applyDiscount originalPrice (Some discountType) discountValue)
    | _, _ => originalPrice
    end.
Proof.
  intro Hst. unfold configuredDiscount.
  destruct (Bundle.discountType bundle) as [discountType|]; [|exact Hst].
  destruct (Bundle.discountValue bundle) as [discountValue|]; [|exact Hst].
  destruct (truthy_string discountType) eqn:E; [reflexivity|].
  unfold truthy_string in E. apply negb_false_iff, String.eqb_eq in E.
  subst discountType. exact Hst.
Qed.

(** C2.  For every fixed bundle: with a price set, the discounted price is
    [bundle.price * quantity], whatever the selected items cost; without a
    price but with a discount type and a discount value, it is what
    [applyDiscount] makes of the original price; otherwise it is the
    original price. *)
Theorem fixed_bundle_price {fmt : NumberFormat} (bundle : Bundle.t)
    (selectedItems : list SelectedItem.t) (tierId : option string)
    (quantity : number) :
  Bundle.type bundle = BundleType.FIXED ->
  let r := calculateBundlePricing bundle selectedItems tierId quantity in
  match Bundle.price bundle with
  | Some price =>
      PricingCalculationResponse.discountedPrice r = price * quantity
  | None =>
      match Bundle.discountType bundle, Bundle.discountValue bundle with
      | Some discountType, Some discountValue =>
          PricingCalculationResponse.discountedPrice r
          = dr_discountedPrice
              (applyDiscount (PricingCalculationResponse.originalPrice r)
                 (Some discountType) discountValue)
      | _, _ =>
          PricingCalculationResponse.discountedPrice r
          = PricingCalculationResponse.originalPrice r
      end
  end.
Proof.
  intros Htype r. subst r. unfold calculateBundlePricing.
  cbn [PricingCalculationResponse.discountedPrice
       PricingCalculationResponse.originalPrice].
  rewrite (typeSwitch_fixed _ _ _ _ _ _ Htype). unfold caseFixed.
  destruct (Bundle.price bundle) as [price|]; [reflexivity|].
  generalize
    (configuredDiscount_price bundle (sumOriginal selectedItems * quantity)
       (initialLocals (sumOriginal selectedItems * quantity)) eq_refl).
  destruct (Bundle.discountType bundle), (Bundle.discountValue bundle);
    intro H; exact H.
Qed.

(** C10.  A bundle whose type is none of FIXED, MIX_MATCH, VOLUME and
    TIERED is priced as undiscounted and reported valid: no error, no
    applied discount, the discounted price equal to the original price and
    savings of zero. *)
Theorem unknown_type_undiscounted {fmt : NumberFormat} (bundle : Bundle.t)
    (selectedItems : list SelectedItem.t) (tierId : option string)
    (quantity : number) :
  ~ Spec.knownType (Bundle.type bundle) ->
  let r := calculateBundlePricing bundle selectedItems tierId quantity in
  PricingCalculationResponse.isValid r = true
  /\ PricingCalculationResponse.validationErrors r = []
  /\ PricingCalculationResponse.appliedDiscount r = None
  /\ PricingCalculationResponse.discountedPrice r
     = PricingCalculationResponse.originalPrice r
  /\ PricingCalculationResponse.savingsAmount r == 0.
Proof.
  intros Htype r. subst r. unfold calculateBundlePricing.
  rewrite (typeSwitch_unknown _ _ _ _ _ _ Htype).
  cbn. repeat split. ring.
Qed.

(** C6.  When a discount was applied and the original price is positive,
    every entry of [itemPrices] carries its item's price times
    [discountedPrice / originalPrice]; when no discount was applied, or the
    original price is zero, every entry carries its item's price. *)
Theorem item_prices_allocation {fmt : NumberFormat} (bundle : Bundle.t)
    (selectedItems : list SelectedItem.t) (tierId : option string)
    (quantity : number) :
  let r := calculateBundlePricing bundle selectedItems tierId quantity in
  let ratio :=
    PricingCalculationResponse.discountedPrice r
    / PricingCalculationResponse.originalPrice r in
  (PricingCalculationResponse.appliedDiscount r <> None ->
   0 < PricingCalculationResponse.originalPrice r ->
   PricingCalculationResponse.itemPrices r
   = map (fun item => Spec.entryFor item (SelectedItem.price item * ratio))
       selectedItems)
  /\ (PricingCalculationResponse.appliedDiscount r = None
      \/ PricingCalculationResponse.originalPrice r == 0 ->
      PricingCalculationResponse.itemPrices r
      = map (fun item => Spec.entryFor item (SelectedItem.price item))
          selectedItems).
Proof.
  cbv zeta. unfold calculateBundlePricing.
  cbn [PricingCalculationResponse.discountedPrice
       PricingCalculationResponse.originalPrice
       PricingCalculationResponse.appliedDiscount
       PricingCalculationResponse.itemPrices].
  set (originalPrice := sumOriginal selectedItems * quantity).
  set (st := typeSwitch _ _ _ _ _ _).
  split.
  - intros Happlied Hpos. apply JSFacts.ltb_lt in Hpos.
    destruct (appliedDiscount st); [|congruence].
    rewrite Hpos, map_map. reflexivity.
  - intros [Hnone|Hzero].
    + now rewrite Hnone.
    + assert (Hle : ltb 0 originalPrice = false)
        by (apply JSFacts.ltb_ge; lra).
      rewrite Hle. now destruct (appliedDiscount st).
Qed.

(** The percentage of [calculateBundlePricing] is guarded: zero when the
    original price is not positive, the quotient otherwise. *)
Lemma savingsPercent_guarded {fmt : NumberFormat} (bundle : Bundle.t)
    (selectedItems : list SelectedItem.t) (tierId : option string)
    (quantity : number) :
  let r := calculateBundlePricing bundle selectedItems tierId quantity in
  (PricingCalculationResponse.originalPrice r <= 0 ->
   PricingCalculationResponse.savingsPercent r = 0)
  /\ (0 < PricingCalculationResponse.originalPrice r ->
      PricingCalculationResponse.savingsPercent r
      = (PricingCalculationResponse.originalPrice r
         - PricingCalculationResponse.discountedPrice r)
        / PricingCalculationResponse.originalPrice r * 100)
  /\ PricingCalculationResponse.savingsAmount r
     = PricingCalculationResponse.originalPrice r
       - PricingCalculationResponse.discountedPrice r.
Proof.
  cbv zeta. unfold calculateBundlePricing.
  cbn [PricingCalculationResponse.discountedPrice
       PricingCalculationResponse.originalPrice
       PricingCalculationResponse.savingsPercent
       PricingCalculationResponse.savingsAmount].
  split; [|split; [|reflexivity]].
  - intro H. apply JSFacts.ltb_ge in H. now rewrite H.
  - intro H. apply JSFacts.ltb_lt in H. now rewrite H.
Qed.

(** What the tiered case leaves behind, by the three ways it can go. *)
Section Tiered.
Context {fmt : NumberFormat}.
Variables (bundle : Bundle.t) (selectedItems : list SelectedItem.t)
          (quantity : number) (st : Locals).

Lemma caseTiered_no_tier (tierId : option string) :
  Spec.noTier tierId ->
  caseTiered bundle selectedItems tierId quantity st
  = fail "Please select a tier" st.
Proof. intros [->| ->]; reflexivity. Qed.

Lemma caseTiered_lookup (t : string) :
  t <> "" ->
  caseTiered bundle selectedItems (Some t) quantity st
  = match find (fun tier => String.eqb t (BundleTier.id tier))
            (Bundle.tiers bundle) with
    | Some selectedTier =>
        let st' :=
          setFixedPrice (BundleTier.price selectedTier * quantity)
            (BundleTier.price selectedTier)
            (BundleTier.name selectedTier ++ ": €"
               ++ toFixed (BundleTier.price selectedTier) 2) st in
        if eqb (totalSelected selectedItems)
             (BundleTier.productCount selectedTier)
        then st'
        else fail (BundleTier.name selectedTier ++ " requires exactly "
                     ++ toString (BundleTier.productCount selectedTier)
                     ++ " products") st'
    | None => fail "Invalid tier selected" st
    end.
Proof.
  intro Ht. unfold caseTiered.
  apply JSFacts.truthy_string_iff in Ht. cbn [truthy_opt is_case]. rewrite Ht.
  destruct (find _ _) as [selectedTier|]; [|reflexivity].
  cbv zeta. now destruct (eqb _ _).
Qed.

End Tiered.

(** C4, as the code has it.  For every tiered bundle: without a tier id
    (missing or empty) the result is invalid with the one error "Please
    select a tier"; with a tier id that no tier carries it is invalid with
    the one error "Invalid tier selected", and the discounted price is the
    original price; with the id of a tier the discounted price is
    [tier.price * quantity], also when the selected quantity differs from
    [tier.productCount], which makes the result invalid with one error
    naming the tier and the required count. *)
Theorem tiered_bundle_price {fmt : NumberFormat} (bundle : Bundle.t)
    (selectedItems : list SelectedItem.t) (tierId : option string)
    (quantity : number) :
  Bundle.type bundle = BundleType.TIERED ->
  let r := calculateBundlePricing bundle selectedItems tierId quantity in
  (Spec.noTier tierId ->
   PricingCalculationResponse.isValid r = false
   /\ PricingCalculationResponse.validationErrors r = ["Please select a tier"]
   /\ PricingCalculationResponse.discountedPrice r
      = PricingCalculationResponse.originalPrice r)
  /\ (forall t, tierId = Some t -> t <> "" ->
      match find (fun tier => String.eqb t (BundleTier.id tier))
              (Bundle.tiers bundle) with
      | None =>
          PricingCalculationResponse.isValid r = false
          /\ PricingCalculationResponse.validationErrors r
             = ["Invalid tier selected"]
          /\ PricingCalculationResponse.discountedPrice r
             = PricingCalculationResponse.originalPrice r
      | Some tier =>
          PricingCalculationResponse.discountedPrice r
          = BundleTier.price tier * quantity
          /\ (totalSelected selectedItems == BundleTier.productCount tier ->
              PricingCalculationResponse.isValid r = true
              /\ PricingCalculationResponse.validationErrors r = [])
          /\ (~ totalSelected selectedItems == BundleTier.productCount tier ->
              PricingCalculationResponse.isValid r = false
              /\ PricingCalculationResponse.validationErrors r
                 = [BundleTier.name tier ++ " requires exactly "
                      ++ toString (BundleTier.productCount tier)
                      ++ " products"])
      end).
Proof.
  intros Htype r. subst r. unfold calculateBundlePricing.
  cbn [PricingCalculationResponse.discountedPrice
       PricingCalculationResponse.originalPrice
       PricingCalculationResponse.isValid
       PricingCalculationResponse.validationErrors].
  rewrite (typeSwitch_tiered _ _ _ _ _ _ Htype).
  split.
  - intro Hno. rewrite (caseTiered_no_tier _ _ _ _ _ Hno).
    repeat split.
  - intros t -> Ht. rewrite (caseTiered_lookup _ _ _ _ _ Ht).
    destruct (find _ _) as [tier|]; [|repeat split].
    cbv zeta.
    destruct (eqb (totalSelected selectedItems) (BundleTier.productCount tier))
      eqn:E.
    + apply JSFacts.eqb_eq in E.
      split; [reflexivity|]. split; [intros _; now split|].
      intro Hne. contradiction.
    + apply JSFacts.eqb_neq in E.
      split; [reflexivity|]. split; [intro He; contradiction|].
      intros _. now split.
Qed.

(** What the mix and match case leaves behind. *)
Section MixMatch.
Context {fmt : NumberFormat}.
Variables (bundle : Bundle.t) (selectedItems : list SelectedItem.t)
          (originalPrice : number).

Lemma caseMixMatch_outcome :
  let st :=
    caseMixMatch bundle selectedItems originalPrice
      (initialLocals originalPrice) in
  let total := totalSelected selectedItems in
  let below :=
    match Bundle.minProducts bundle with
    | Some m =>
        if truthy_number m && ltb total m then [Spec.tooFew m] else []
    | None => []
    end in
  let above :=
    match Bundle.maxProducts bundle with
    | Some m =>
        if truthy_number m && ltb m total then [Spec.tooMany m] else []
    | None => []
    end in
  errors st = (below ++ above)%list
  /\ isValid st = Nat.eqb (List.length (below ++ above)) 0
  /\ discountedPrice st
     = match Bundle.discountType bundle, Bundle.discountValue bundle with
       | Some discountType, Some discountValue =>
           dr_discountedPrice
             (applyDiscount originalPrice (Some discountType) discountValue)
       | _, _ => originalPrice
       end.
Proof.
  cbv zeta. unfold caseMixMatch, Spec.tooFew, Spec.tooMany.
  set (st0 := initialLocals originalPrice).
  pose proof (configuredDiscount_price bundle originalPrice st0 eq_refl) as Hp.
  set (st1 := match configuredDiscount bundle with
              | Some (discountType, discountValue) =>
                  setDiscount
                    (applyDiscount originalPrice (Some discountType)
                       discountValue) st0
              | None => st0
              end) in *.
  assert (H1 : errors st1 = [] /\ isValid st1 = true)
    by (subst st1; destruct (configuredDiscount bundle) as [[? ?]|];
        now split).
  destruct H1 as [He Hv]. rewrite <- Hp. clear Hp.
  destruct (Bundle.minProducts bundle) as [lo|];
    destruct (Bundle.maxProducts bundle) as [hi|];
    repeat match goal with
           | |- context [if ?c then _ else _] => destruct c
           end;
    cbn [fail errors isValid discountedPrice app List.length Nat.eqb];
    rewrite ?He, ?Hv; repeat split.
Qed.

End MixMatch.

(** C5, as the code has it.  For every mix and match bundle, a bound counts
    when it is set and not zero.  A total below such a minimum, or above
    such a maximum, makes the result invalid and adds one error naming the
    bound; a total within the bounds that count leaves it valid without
    errors.  The bounds are inclusive.  Whatever the verdict, the
    discounted price is what the configured discount makes of the original
    price. *)
Theorem mix_match_bounds {fmt : NumberFormat} (bundle : Bundle.t)
    (selectedItems : list SelectedItem.t) (tierId : option string)
    (quantity : number) :
  Bundle.type bundle = BundleType.MIX_MATCH ->
  let r := calculateBundlePricing bundle selectedItems tierId quantity in
  let total := totalSelected selectedItems in
  let below m := Spec.inForce (Bundle.minProducts bundle) m /\ total < m in
  let above m := Spec.inForce (Bundle.maxProducts bundle) m /\ m < total in
  (forall lo, below lo -> (forall hi, ~ above hi) ->
     PricingCalculationResponse.isValid r = false
     /\ PricingCalculationResponse.validationErrors r = [Spec.tooFew lo])
  /\ (forall hi, above hi -> (forall lo, ~ below lo) ->
      PricingCalculationResponse.isValid r = false
      /\ PricingCalculationResponse.validationErrors r = [Spec.tooMany hi])
  /\ (forall lo hi, below lo -> above hi ->
      PricingCalculationResponse.isValid r = false
      /\ PricingCalculationResponse.validationErrors r
         = [Spec.tooFew lo; Spec.tooMany hi])
  /\ ((forall lo, ~ below lo) -> (forall hi, ~ above hi) ->
      PricingCalculationResponse.isValid r = true
      /\ PricingCalculationResponse.validationErrors r = [])
  /\ PricingCalculationResponse.discountedPrice r
     = match Bundle.discountType bundle, Bundle.discountValue bundle with
       | Some discountType, Some discountValue =>
           dr_discountedPrice
             (applyDiscount (PricingCalculationResponse.originalPrice r)
                (Some discountType) discountValue)
       | _, _ => PricingCalculationResponse.originalPrice r
       end.
Proof.
  intros Htype r. subst r. unfold calculateBundlePricing.
  cbn [PricingCalculationResponse.discountedPrice
       PricingCalculationResponse.originalPrice
       PricingCalculationResponse.isValid
       PricingCalculationResponse.validationErrors].
  rewrite (typeSwitch_mix_match _ _ _ _ _ _ Htype).
  destruct (caseMixMatch_outcome bundle selectedItems
              (sumOriginal selectedItems * quantity)) as (He & Hv & Hp).
  cbv zeta in He, Hv, Hp |- *. rewrite He, Hv, Hp. clear He Hv Hp.
  unfold Spec.inForce.
  assert (Hlo : forall m, Bundle.minProducts bundle = Some m ->
            truthy_number m && ltb (totalSelected selectedItems) m = true
            <-> ~ m == 0 /\ totalSelected selectedItems < m).
  { intros m _. now rewrite andb_true_iff, JSFacts.truthy_number_iff,
                  JSFacts.ltb_lt. }
  assert (Hhi : forall m, Bundle.maxProducts bundle = Some m ->
            truthy_number m && ltb m (totalSelected selectedItems) = true
            <-> ~ m == 0 /\ m < totalSelected selectedItems).
  { intros m _. now rewrite andb_true_iff, JSFacts.truthy_number_iff,
                  JSFacts.ltb_lt. }
  destruct (Bundle.minProducts bundle) as [lo|];
    destruct (Bundle.maxProducts bundle) as [hi|].
  all: try (specialize (Hlo lo eq_refl)); try (specialize (Hhi hi eq_refl)).
  all: repeat match goal with
         | |- context [if ?c then _ else _] => destruct c eqn:?
         end.
  all: cbn [app List.length Nat.eqb].
  all: repeat split.
  all: repeat match goal with
         | |- forall _, _ => intro
         | H : (_ = Some _ /\ _) /\ _ |- _ => destruct H as [[? ?] ?]
         | H : Some _ = Some _ |- _ => injection H as <-
         | H : None = Some _ |- _ => discriminate H
         end.
  all: try reflexivity.
  all: try (exfalso;
            match goal with
            | H : forall m, ~ ((Some ?x = Some m /\ _) /\ _),
              H' : true = true <-> _ |- _ =>
                apply (H x); split; [split; [reflexivity|]|]; tauto
            | H : false = true <-> _ |- _ =>
                assert (false = true) by (apply H; tauto); discriminate
            end).
Qed.

Section Runs.
#[local] Existing Instance Decimal.format.

(** The first scenario of the specification: 50 for items worth 55. *)
Lemma fixed_bundle_price_witness :
  Bundle.type Samples.fixedAtFifty = BundleType.FIXED
  /\ PricingCalculationResponse.discountedPrice
       (calculateBundlePricing Samples.fixedAtFifty
          Samples.thirtyAndTwentyFive None 1)
     = 50 * 1.
Proof.
  split; [reflexivity|].
  exact (fixed_bundle_price Samples.fixedAtFifty Samples.thirtyAndTwentyFive
           None 1 eq_refl).
Defined.

(** A bundle of a type the engine does not know. *)
Lemma unknown_type_undiscounted_witness :
  let r :=
    calculateBundlePricing (Samples.bare "BOGO") Samples.thirtyAndTwentyFive
      None 1 in
  ~ Spec.knownType "BOGO"
  /\ PricingCalculationResponse.isValid r = true
  /\ PricingCalculationResponse.validationErrors r = []
  /\ PricingCalculationResponse.appliedDiscount r = None
  /\ PricingCalculationResponse.discountedPrice r
     = PricingCalculationResponse.originalPrice r
  /\ PricingCalculationResponse.savingsAmount r == 0.
Proof.
  assert (H : ~ Spec.knownType (Bundle.type (Samples.bare "BOGO")))
    by (intros [H|[H|[H|H]]]; discriminate H).
  split; [exact H|].
  exact (unknown_type_undiscounted (Samples.bare "BOGO")
           Samples.thirtyAndTwentyFive None 1 H).
Defined.

(** Both rows of the first scenario are scaled by 50/55. *)
Lemma item_prices_allocation_witness :
  PricingCalculationResponse.itemPrices
    (calculateBundlePricing Samples.fixedAtFifty Samples.thirtyAndTwentyFive
       None 1)
  = map (fun item =>
           Spec.entryFor item (SelectedItem.price item * (50 * 1 / (55 * 1))))
      Samples.thirtyAndTwentyFive.
Proof.
  apply (proj1 (item_prices_allocation Samples.fixedAtFifty
                  Samples.thirtyAndTwentyFive None 1)).
  - discriminate.
  - reflexivity.
Defined.

(** The tier scenario of the specification: three products, tier "t1". *)
Lemma tiered_bundle_price_witness :
  let r :=
    calculateBundlePricing Samples.tiered [Samples.selected "p1" "v1" 3 30]
      (Some "t1") 1 in
  Bundle.type Samples.tiered = BundleType.TIERED
  /\ PricingCalculationResponse.discountedPrice r = 65 * 1
  /\ PricingCalculationResponse.isValid r = true
  /\ PricingCalculationResponse.validationErrors r = [].
Proof.
  split; [reflexivity|].
  destruct (tiered_bundle_price Samples.tiered
              [Samples.selected "p1" "v1" 3 30] (Some "t1") 1 eq_refl)
    as [_ H].
  specialize (H "t1" eq_refl).
  destruct H as (Hp & Hok & _); [discriminate|].
  split; [exact Hp|]. apply Hok. reflexivity.
Defined.

(** An empty tier id is a tier id that no tier carries, and the answer is
    "Please select a tier", not "Invalid tier selected". *)
Lemma tiered_empty_id_not_invalid :
  Bundle.type Samples.tiered = BundleType.TIERED
  /\ find (fun tier => String.eqb "" (BundleTier.id tier))
       (Bundle.tiers Samples.tiered) = None
  /\ PricingCalculationResponse.validationErrors
       (calculateBundlePricing Samples.tiered
          [Samples.selected "p1" "v1" 3 30] (Some "") 1)
     = ["Please select a tier"]
  /\ "Please select a tier" <> "Invalid tier selected".
Proof. repeat split. discriminate. Qed.

(** The mix and match scenario of the specification: two products where
    three are required, 15% off all the same. *)
Lemma mix_match_bounds_witness :
  let r :=
    calculateBundlePricing (Samples.mixMatch (Some 3) (Some 5))
      [Samples.selected "p1" "v1" 2 10] None 1 in
  Bundle.type (Samples.mixMatch (Some 3) (Some 5)) = BundleType.MIX_MATCH
  /\ PricingCalculationResponse.isValid r = false
  /\ PricingCalculationResponse.validationErrors r
     = ["Minimum 3 products required"]
  /\ PricingCalculationResponse.discountedPrice r == 17.
Proof.
  split; [reflexivity|].
  destruct (mix_match_bounds (Samples.mixMatch (Some 3) (Some 5))
              [Samples.selected "p1" "v1" 2 10] None 1 eq_refl)
    as (Hlow & _ & _ & _ & Hp).
  destruct (Hlow 3) as [Hv He].
  - split; [split; [reflexivity | discriminate] | reflexivity].
  - intros hi [[Hhi _] Hlt]. injection Hhi as <-. discriminate Hlt.
  - split; [exact Hv|]. split; [exact He|].
    cbv zeta in Hp. rewrite Hp. reflexivity.
Defined.

(** A maximum of zero: the selection exceeds it and the result is valid. *)
Lemma mix_match_zero_maximum_ignored :
  Bundle.type (Samples.mixMatch None (Some 0)) = BundleType.MIX_MATCH
  /\ Bundle.maxProducts (Samples.mixMatch None (Some 0)) = Some 0
  /\ 0 < totalSelected [Samples.selected "p1" "v1" 2 10]
  /\ PricingCalculationResponse.isValid
       (calculateBundlePricing (Samples.mixMatch None (Some 0))
          [Samples.selected "p1" "v1" 2 10] None 1)
     = true
  /\ PricingCalculationResponse.validationErrors
       (calculateBundlePricing (Samples.mixMatch None (Some 0))
          [Samples.selected "p1" "v1" 2 10] None 1)
     = [].
Proof. repeat split. Qed.

End Runs.

End PricingFacts.

(* ================================================================== *)
(** ** The scenarios of the specification *)

Module Scenarios.
Import Engine.

Section Runs.
#[local] Existing Instance Decimal.format.

(** A fixed bundle at 50 for items of 30 and 25: 55 before, 50 after, 5
    saved, which is 100/11 percent. *)
Example fixed_at_fifty :
  let r :=
    calculateBundlePricing Samples.fixedAtFifty Samples.thirtyAndTwentyFive
      None 1 in
  PricingCalculationResponse.originalPrice r == 55
  /\ PricingCalculationResponse.discountedPrice r == 50
  /\ PricingCalculationResponse.savingsAmount r == 5
  /\ PricingCalculationResponse.savingsPercent r == 100 # 11
  /\ option_map AppliedDiscount.label
       (PricingCalculationResponse.appliedDiscount r)
     = Some "Bundle price: €50.00".
Proof. repeat split. Qed.

(** Four items against the three volume steps: the 10% step applies. *)
Example volume_middle_step :
  let r :=
    calculateBundlePricing Samples.threeSteps
      [Samples.selected "p1" "v1" 4 10] None 1 in
  findApplicableVolumeRule (Bundle.volumeRules Samples.threeSteps) 4
  = Some (Samples.percentRule 3 (Some 5) 10)
  /\ PricingCalculationResponse.discountedPrice r
     == PricingCalculationResponse.originalPrice r * (9 # 10)
  /\ option_map AppliedDiscount.label
       (PricingCalculationResponse.appliedDiscount r)
     = Some "10% off".
Proof. repeat split. Qed.

(** A tier id that no tier carries. *)
Example tiered_unknown_id :
  let r :=
    calculateBundlePricing Samples.tiered [Samples.selected "p1" "v1" 3 30]
      (Some "t9") 1 in
  PricingCalculationResponse.isValid r = false
  /\ PricingCalculationResponse.validationErrors r = ["Invalid tier selected"]
  /\ PricingCalculationResponse.discountedPrice r
     = PricingCalculationResponse.originalPrice r.
Proof. repeat split. Qed.

End Runs.
End Scenarios.

(* ================================================================== *)
(** ** The percentage of [formatSavings] *)

Module ClientFacts.
Import Client.

(** C7, where it fails.  [formatSavings] divides by the original price
    without a guard: at an original price of zero its percentage is never
    a finite number, so never zero; for a discounted price of zero it is
    [NaN], and the text reads "Save NaN%".  The guard of
    [calculateBundlePricing] is [PricingFacts.savingsPercent_guarded]. *)
Theorem formatSavings_percent_unguarded {fmt : NumberFormat} :
  (forall (discountedPrice q : number),
      savingsPercentOf 0 discountedPrice <> Finite q)
  /\ savingsPercentOf 0 0 = NaN
  /\ formatSavings 0 0 true = "Save NaN%"
  /\ formatSavings 0 5 true = "Save -Infinity%".
Proof.
  split; [|repeat split].
  intros discountedPrice q. unfold savingsPercentOf.
  destruct (JSFacts.div_by_zero (0 - discountedPrice)) as [H|[H|H]];
    rewrite H; discriminate.
Qed.

(** Away from zero the percentage is the quotient the claim names. *)
Lemma savingsPercentOf_nonzero (originalPrice discountedPrice : number) :
  ~ originalPrice == 0 ->
  savingsPercentOf originalPrice discountedPrice
  = Finite ((originalPrice - discountedPrice) / originalPrice * 100).
Proof.
  intro H. unfold savingsPercentOf. now rewrite (JSFacts.div_finite _ _ H).
Qed.

End ClientFacts.

(* ================================================================== *)
(** ** Configuration-time validation *)

Module ConfigFacts.
Import Config.

Lemma pushIf_In (cond : bool) (e e' : ValidationError.t)
    (errors : list ValidationError.t) :
  In e errors -> In e (pushIf cond e' errors).
Proof.
  intro H. unfold pushIf. destruct cond; [|exact H].
  apply in_or_app. now left.
Qed.

Lemma pushIf_true_In (e : ValidationError.t) (errors : list ValidationError.t) :
  In e (pushIf true e errors).
Proof. unfold pushIf. apply in_or_app. right. now left. Qed.

Lemma checkSchedule_In (bundle : PartialBundle.t) (e : ValidationError.t)
    (errors : list ValidationError.t) :
  In e errors -> In e (checkSchedule bundle errors).
Proof.
  intro H. unfold checkSchedule.
  destruct (PartialBundle.startDate bundle); try exact H.
  destruct (PartialBundle.endDate bundle); try exact H.
  now apply pushIf_In.
Qed.

(** The function is total, and [isValid] says that the list of errors is
    empty. *)
Lemma validateBundle_isValid (bundle : PartialBundle.t) :
  ValidationResult.isValid (validateBundle bundle) = true
  <-> ValidationResult.errors (validateBundle bundle) = [].
Proof.
  unfold validateBundle. cbn [ValidationResult.isValid ValidationResult.errors].
  destruct (checkSchedule _ _); simpl; split; congruence.
Qed.

(** X16.  A fixed bundle whose [price] and [discountType] are both [null]
    is told that it needs one of them, with code REQUIRED on the price
    field, and is invalid. *)
Lemma validateBundle_fixed_nulls (bundle : PartialBundle.t) :
  PartialBundle.type bundle = present BundleType.FIXED ->
  PartialBundle.price bundle = null ->
  PartialBundle.discountType bundle = null ->
  In (error "price" "Fixed bundles must have a price or discount" "REQUIRED")
     (ValidationResult.errors (validateBundle bundle))
  /\ ValidationResult.isValid (validateBundle bundle) = false.
Proof.
  intros Htype Hprice Hdiscount.
  assert (Hin : In (error "price" "Fixed bundles must have a price or discount"
                      "REQUIRED")
                  (ValidationResult.errors (validateBundle bundle))).
  { unfold validateBundle. cbn [ValidationResult.errors].
    apply checkSchedule_In. unfold checkByType, hasType. rewrite Htype.
    cbn [String.eqb]. simpl. unfold checkFixed.
    rewrite Hprice, Hdiscount. apply pushIf_true_In. }
  split; [exact Hin|].
  destruct (ValidationResult.isValid (validateBundle bundle)) eqn:E;
    [|reflexivity].
  apply validateBundle_isValid in E. rewrite E in Hin. destruct Hin.
Qed.

(** C8, where it fails.  A fixed bundle with one item and neither a price
    nor a discount type, as the create route hands it over (both
    properties missing), passes: no error, [isValid] true. *)
Theorem validateBundle_fixed_without_pricing_passes :
  PartialBundle.type Samples.fixedWithoutPricing = present BundleType.FIXED
  /\ PartialBundle.price Samples.fixedWithoutPricing = undefined
  /\ PartialBundle.discountType Samples.fixedWithoutPricing = undefined
  /\ validateBundle Samples.fixedWithoutPricing
     = {| ValidationResult.isValid := true; ValidationResult.errors := [] |}.
Proof. repeat split. Qed.

(** The same bundle with both columns [null] is refused. *)
Lemma validateBundle_fixed_with_nulls_fails :
  validateBundle Samples.fixedWithNulls
  = {| ValidationResult.isValid := false;
       ValidationResult.errors :=
         [error "price" "Fixed bundles must have a price or discount"
            "REQUIRED"] |}.
Proof. reflexivity. Qed.

End ConfigFacts.

(* ================================================================== *)
(** ** Selection-time validation of volume bundles *)

Module RouteFacts.
Import Routes.

(** The admin route refuses a volume selection that spans products when
    the bundle asks for one product. *)
Lemma adminVolume_same_product {fmt : NumberFormat} (bundle : Bundle.t)
    (selectedItems : list SelectedItem.t) (quantity : number) :
  Bundle.applyToSameProduct bundle = true ->
  (1 < List.length (distinctProductIds selectedItems))%nat ->
  In (Config.error "selectedItems"
        "Volume discount applies only to the same product"
        "SAME_PRODUCT_REQUIRED")
     (fst (adminVolume bundle selectedItems quantity [] [])).
Proof.
  intros Hflag Hmany. unfold adminVolume. rewrite Hflag.
  apply Nat.ltb_lt in Hmany. rewrite Hmany.
  destruct (Nat.eqb _ 0); [|destruct (qualifyingRule _ _)];
    cbn [fst]; apply ConfigFacts.pushIf_true_In.
Qed.

(** The volume case of the storefront route reports nothing about a
    selection that is not empty, whatever the bundle says. *)
Lemma storeVolume_no_error {fmt : NumberFormat} (bundle : Bundle.t)
    (selectedItems : list SelectedItem.t) (quantity : number) :
  selectedItems <> [] ->
  fst (storeVolume bundle selectedItems quantity [] []) = [].
Proof.
  intro H. unfold storeVolume.
  destruct selectedItems as [|item rest]; [congruence|].
  cbn [List.length Nat.eqb].
  destruct (qualifyingRule _ _); [reflexivity|].
  now destruct (Nat.ltb _ _).
Qed.

(** C9, where it fails.  The storefront route accepts a selection of two
    different products for a volume bundle with [applyToSameProduct] set:
    no error, [isValid] true, and a price with the volume discount. *)
Theorem storefront_accepts_mixed_products {fmt : NumberFormat} (now : Date.t) :
  Bundle.type Samples.sameProductVolume = BundleType.VOLUME
  /\ Bundle.applyToSameProduct Samples.sameProductVolume = true
  /\ map SelectedItem.productId Samples.twoProducts = ["A"; "B"]
  /\ storefrontValidate "POST" (Some "shop.example") (Some "b1")
       (Some Samples.sameProductVolume) now Samples.twoProducts None 1
       (Some (Some []))
     = StoreJson 200
         {| sb_isValid := true;
            sb_errors := [];
            sb_warnings := [];
            sb_pricing :=
              Some (Engine.calculateBundlePricing Samples.sameProductVolume
                      Samples.twoProducts None 1) |}.
Proof. repeat split. Qed.

(** The admin route, on the same bundle and selection. *)
Lemma pricingValidate_rejects_mixed_products {fmt : NumberFormat}
    (JSON_parse : string -> option parsed) :
  pricingValidate JSON_parse "POST" (Some "b1")
    (Some Samples.sameProductVolume) Samples.twoProducts None 1
  = AdminOk
      {| ab_isValid := false;
         ab_errors :=
           [Config.error "selectedItems"
              "Volume discount applies only to the same product"
              "SAME_PRODUCT_REQUIRED"];
         ab_warnings := [] |}.
Proof. reflexivity. Qed.

End RouteFacts.

(* ================================================================== *)
(** ** Handles and product ids *)

Module IdsFacts.
Import Ids.

Lemma handleChar_cases (c : ascii) :
  Spec.handleChar c = true -> isAlnum c = false -> c = "-"%char.
Proof.
  unfold Spec.handleChar. intros H Hn. rewrite Hn in H.
  now apply Ascii.eqb_eq in H.
Qed.

Lemma lowerChar_alnum (c : ascii) : isAlnum c = true -> lowerChar c = c.
Proof.
  unfold isAlnum, lowerChar. cbv zeta.
  destruct (Nat.leb_spec 65 (nat_of_ascii c));
    destruct (Nat.leb_spec (nat_of_ascii c) 90);
    destruct (Nat.leb_spec 97 (nat_of_ascii c));
    destruct (Nat.leb_spec (nat_of_ascii c) 122);
    destruct (Nat.leb_spec 48 (nat_of_ascii c));
    destruct (Nat.leb_spec (nat_of_ascii c) 57);
    cbn; intro; try reflexivity; try discriminate; lia.
Qed.

Lemma lowerChar_handleChar (c : ascii) :
  Spec.handleChar c = true -> lowerChar c = c.
Proof.
  intro H. destruct (isAlnum c) eqn:E.
  - now apply lowerChar_alnum.
  - rewrite (handleChar_cases c H E). reflexivity.
Qed.

Lemma toLowerCase_handle (s : string) :
  Spec.allChars Spec.handleChar s = true -> toLowerCase s = s.
Proof.
  induction s as [|c s IH]; simpl; [reflexivity|].
  intro H. apply andb_true_iff in H as [Hc Hs].
  now rewrite (lowerChar_handleChar c Hc), IH.
Qed.

Lemma dashRuns_chars (inRun : bool) (s : string) :
  Spec.allChars Spec.handleChar (dashRuns inRun s) = true.
Proof.
  revert inRun. induction s as [|c s IH]; intro inRun; simpl; [reflexivity|].
  destruct (isAlnum c) eqn:E.
  - simpl. unfold Spec.handleChar at 1. rewrite E. simpl. apply IH.
  - destruct inRun; [apply IH|]. simpl. apply IH.
Qed.

Lemma dashRuns_dashes (inRun : bool) (s : string) :
  Spec.hasDoubleDash (dashRuns inRun s) = false
  /\ (inRun = true -> Spec.startsWithDash (dashRuns inRun s) = false).
Proof.
  revert inRun. induction s as [|c s IH]; intro inRun; simpl.
  - now split.
  - destruct (isAlnum c) eqn:E.
    + destruct (IH false) as [Hd _]. simpl. rewrite Hd.
      assert (Hc : Ascii.eqb c "-" = false).
      { destruct (Ascii.eqb_spec c "-"%char) as [->|]; [discriminate E|].
        reflexivity. }
      rewrite Hc. simpl. now split.
    + destruct inRun.
      * destruct (IH true) as [Hd Hs]. split; [exact Hd|]. intros _. now apply Hs.
      * destruct (IH true) as [Hd Hs]. simpl. rewrite Hd, (Hs eq_refl).
        split; [reflexivity|discriminate].
Qed.

Lemma dashRuns_clean (inRun : bool) (s : string) :
  Spec.allChars Spec.handleChar s = true ->
  Spec.hasDoubleDash s = false ->
  (inRun = true -> Spec.startsWithDash s = false) ->
  dashRuns inRun s = s.
Proof.
  revert inRun. induction s as [|c s IH]; intros inRun Hall Hdd Hstart;
    simpl; [reflexivity|].
  simpl in Hall, Hdd. apply andb_true_iff in Hall as [Hc Hs].
  apply orb_false_iff in Hdd as [Hcd Hdd].
  destruct (isAlnum c) eqn:E.
  - rewrite (IH false Hs Hdd); [reflexivity|discriminate].
  - pose proof (handleChar_cases c Hc E) as ->.
    destruct inRun.
    + specialize (Hstart eq_refl). discriminate Hstart.
    + simpl in Hcd. rewrite (IH true Hs Hdd); [reflexivity|].
      intros _. exact Hcd.
Qed.

Lemma stripStart_facts (s : string) :
  Spec.allChars Spec.handleChar s = true ->
  Spec.hasDoubleDash s = false ->
  Spec.allChars Spec.handleChar (stripStart s) = true
  /\ Spec.hasDoubleDash (stripStart s) = false
  /\ Spec.startsWithDash (stripStart s) = false.
Proof.
  destruct s as [|c s]; simpl; [intros; now repeat split|].
  intros Hall Hdd. apply andb_true_iff in Hall as [Hc Hs].
  apply orb_false_iff in Hdd as [Hcd Hdd].
  destruct (Ascii.eqb c "-") eqn:E.
  - simpl in Hcd. now repeat split.
  - simpl. rewrite Hc, Hs, E, Hdd. simpl. now repeat split.
Qed.

Lemma stripEnd_start (s : string) :
  Spec.startsWithDash (stripEnd s) = true -> Spec.startsWithDash s = true.
Proof.
  destruct s as [|c [|d s]]; simpl; try tauto.
  destruct (Ascii.eqb c "-") eqn:E; simpl; [tauto|]. now rewrite E.
Qed.

Lemma stripEnd_chars (s : string) :
  Spec.allChars Spec.handleChar s = true ->
  Spec.allChars Spec.handleChar (stripEnd s) = true.
Proof.
  induction s as [|c s IH]; [tauto|].
  intro Hall. simpl in Hall. apply andb_true_iff in Hall as [Hc Hs].
  destruct s as [|d s].
  - simpl. destruct (Ascii.eqb c "-"); simpl; [reflexivity|].
    now rewrite Hc.
  - change (stripEnd (String c (String d s)))
      with (String c (stripEnd (String d s))).
    cbn [Spec.allChars]. now rewrite Hc, IH.
Qed.

Lemma stripEnd_dashes (s : string) :
  Spec.hasDoubleDash s = false ->
  Spec.hasDoubleDash (stripEnd s) = false
  /\ Spec.endsWithDash (stripEnd s) = false.
Proof.
  induction s as [|c s IH]; [now split|].
  intro Hdd. simpl in Hdd. apply orb_false_iff in Hdd as [Hcd Hdd].
  destruct s as [|d s].
  - simpl. destruct (Ascii.eqb c "-") eqn:E; simpl; [now split|].
    now rewrite E.
  - change (stripEnd (String c (String d s)))
      with (String c (stripEnd (String d s))).
    destruct (IH Hdd) as [Hb He].
    assert (Hfirst : Ascii.eqb c "-"
                     && Spec.startsWithDash (stripEnd (String d s)) = false).
    { destruct (Ascii.eqb c "-"); [|reflexivity]. cbn [andb] in Hcd |- *.
      destruct (Spec.startsWithDash (stripEnd (String d s))) eqn:E;
        [|reflexivity].
      apply stripEnd_start in E. congruence. }
    cbn [Spec.hasDoubleDash]. rewrite Hfirst, Hb. split; [reflexivity|].
    destruct (stripEnd (String d s)) as [|e t] eqn:Et.
    + cbn [Spec.endsWithDash]. destruct (Ascii.eqb c "-") eqn:Ec;
        [|reflexivity].
      exfalso. cbn [andb Spec.startsWithDash] in Hcd.
      destruct s as [|e s]; [|discriminate Et].
      cbn [stripEnd] in Et. rewrite Hcd in Et. discriminate Et.
    + exact He.
Qed.

Lemma stripEnd_keeps_start (s : string) :
  Spec.startsWithDash s = false -> Spec.startsWithDash (stripEnd s) = false.
Proof.
  intro H. destruct (Spec.startsWithDash (stripEnd s)) eqn:E; [|reflexivity].
  apply stripEnd_start in E. congruence.
Qed.

Lemma stripStart_clean (s : string) :
  Spec.startsWithDash s = false -> stripStart s = s.
Proof. destruct s as [|c s]; simpl; [reflexivity|]. now intros ->. Qed.

Lemma stripEnd_clean (s : string) :
  Spec.endsWithDash s = false -> stripEnd s = s.
Proof.
  induction s as [|c s IH]; [reflexivity|].
  destruct s as [|d s].
  - simpl. now intros ->.
  - intro H. change (stripEnd (String c (String d s)))
      with (String c (stripEnd (String d s))).
    now rewrite IH.
Qed.


Lemma substring_short (n : nat) (s : string) :
  (String.length (substring 0 n s) < n)%nat -> substring 0 n s = s.
Proof.
  revert n. induction s as [|c s IH]; intros n H.
  - now destruct n.
  - destruct n as [|n]; [simpl in H; lia|].
    simpl in *. rewrite IH; [reflexivity|lia].
Qed.

Lemma substring_whole (n : nat) (s : string) :
  (String.length s <= n)%nat -> substring 0 n s = s.
Proof.
  revert n. induction s as [|c s IH]; intros n H.
  - now destruct n.
  - destruct n as [|n]; [simpl in H; lia|].
    simpl in *. rewrite IH; [reflexivity|lia].
Qed.

(** The handle before the cut: clean at both ends. *)
Lemma uncut_handle_facts (title : string) :
  let whole := stripEnd (stripStart (dashRuns false (toLowerCase title))) in
  Spec.allChars Spec.handleChar whole = true
  /\ Spec.hasDoubleDash whole = false
  /\ Spec.startsWithDash whole = false
  /\ Spec.endsWithDash whole = false.
Proof.
  cbv zeta.
  pose proof (dashRuns_chars false (toLowerCase title)) as Hc.
  destruct (dashRuns_dashes false (toLowerCase title)) as [Hd _].
  destruct (stripStart_facts _ Hc Hd) as (Hc1 & Hd1 & Hs1).
  destruct (stripEnd_dashes _ Hd1) as [Hd2 He2].
  repeat split.
  - now apply stripEnd_chars.
  - exact Hd2.
  - now apply stripEnd_keeps_start.
  - exact He2.
Qed.



(** X2.  A handle that is already clean (made of [a-z0-9] and single
    dashes between them, at most 100 characters) is its own handle. *)
Theorem generateHandle_fixes_clean (handle : string) :
  Spec.cleanHandle handle -> generateHandle handle = handle.
Proof.
  intros (Hc & Hs & He & Hd & Hl). unfold generateHandle.
  rewrite (toLowerCase_handle _ Hc).
  rewrite (dashRuns_clean false _ Hc Hd) by discriminate.
  rewrite (stripStart_clean _ Hs), (stripEnd_clean _ He).
  now apply substring_whole.
Qed.

Lemma generateHandle_fixes_clean_witness :
  generateHandle "summer-sale-2024" = "summer-sale-2024".
Proof.
  apply generateHandle_fixes_clean.
  repeat split. vm_compute. lia.
Defined.

(** X3.  Making a handle of a handle changes nothing, as long as the first
    one was not cut at 100 characters. *)
Theorem generateHandle_idempotent (title : string) :
  (String.length (generateHandle title) < 100)%nat ->
  generateHandle (generateHandle title) = generateHandle title.
Proof.
  intro Hshort.
  destruct (uncut_handle_facts title) as (Hc & Hd & Hs & He).
  cbv zeta in Hc, Hd, Hs, He.
  assert (Hsame : generateHandle title
                  = stripEnd (stripStart (dashRuns false (toLowerCase title))))
    by (unfold generateHandle in *; now apply substring_short).
  rewrite Hsame in Hshort |- *.
  unfold generateHandle at 1.
  rewrite (toLowerCase_handle _ Hc).
  rewrite (dashRuns_clean false _ Hc Hd) by discriminate.
  rewrite (stripStart_clean _ Hs), (stripEnd_clean _ He).
  apply substring_whole. lia.
Qed.

Lemma generateHandle_idempotent_witness :
  generateHandle (generateHandle "Été à Paris") = generateHandle "Été à Paris".
Proof. apply generateHandle_idempotent. vm_compute. lia. Defined.

Lemma stripPrefix_app (p s : string) : stripPrefix p (p ++ s) = Some s.
Proof.
  induction p as [|a p IH]; simpl; [now destruct s|].
  now rewrite Ascii.eqb_refl.
Qed.

(** X4.  The GID of a product and its bare id match, whichever comes
    first, when the bare id is not empty and is not itself a GID; a
    missing or empty id matches nothing, not even itself. *)
Theorem productIdsMatch_gid (id : string) :
  id <> "" ->
  stripPrefix gidPrefix id = None ->
  normalizeProductId (gidPrefix ++ id) = id
  /\ productIdsMatch (Some (gidPrefix ++ id)) (Some id) = true
  /\ productIdsMatch (Some id) (Some (gidPrefix ++ id)) = true
  /\ (forall other, productIdsMatch None other = false
                    /\ productIdsMatch other None = false
                    /\ productIdsMatch (Some "") other = false
                    /\ productIdsMatch other (Some "") = false).
Proof.
  intros Hne Hbare.
  assert (Hn : normalizeProductId (gidPrefix ++ id) = id)
    by (unfold normalizeProductId; now rewrite stripPrefix_app).
  assert (Hi : normalizeProductId id = id)
    by (unfold normalizeProductId; now rewrite Hbare).
  apply JSFacts.truthy_string_iff in Hne.
  split; [exact Hn|].
  unfold productIdsMatch. rewrite Hn, Hi, Hne, String.eqb_refl.
  repeat split;
    destruct other as [o|]; try reflexivity;
    now destruct (truthy_string o).
Qed.

Lemma productIdsMatch_gid_witness :
  productIdsMatch (Some "gid://shopify/Product/8984540053667")
    (Some "8984540053667") = true.
Proof.
  apply (productIdsMatch_gid "8984540053667"); [discriminate|reflexivity].
Defined.

(** X5.  Matching is symmetric and transitive: it is the equality of the
    normalized ids, among ids that are not empty. *)
Theorem productIdsMatch_equivalence (a b c : option string) :
  productIdsMatch a b = productIdsMatch b a
  /\ (productIdsMatch a b = true -> productIdsMatch b c = true ->
      productIdsMatch a c = true)
  /\ (productIdsMatch a b = true ->
      productIdsMatch a a = true /\ productIdsMatch b b = true).
Proof.
  unfold productIdsMatch.
  destruct a as [a|], b as [b|], c as [c|]; try (now repeat split).
  all: destruct (truthy_string a), (truthy_string b); cbn [negb orb];
    try (now repeat split).
  all: try destruct (truthy_string c); cbn [negb orb];
    rewrite ?String.eqb_refl, (String.eqb_sym (normalizeProductId b));
    repeat split; try discriminate; intros H1; try intros H2;
    try reflexivity.
  all: apply String.eqb_eq in H1; try apply String.eqb_eq in H2;
    apply String.eqb_eq; congruence.
Qed.

Lemma productIdsMatch_equivalence_witness :
  productIdsMatch (Some "gid://shopify/Product/7")
    (Some "gid://shopify/Product/7") = true.
Proof.
  apply (proj1 (proj2 (productIdsMatch_equivalence
                         (Some "gid://shopify/Product/7") (Some "7")
                         (Some "gid://shopify/Product/7"))));
    reflexivity.
Defined.

End IdsFacts.

(* ================================================================== *)
(** ** More about bundle pricing *)

Module PricingMore.
Import Engine.

Section Validity.
Context {fmt : NumberFormat}.

Lemma fail_invalid (msg : string) (st : Locals) :
  isValid (fail msg st) = false /\ errors (fail msg st) <> [].
Proof.
  split; [reflexivity|]. simpl. now destruct (errors st).
Qed.

(** The fixed case and the volume case touch neither [isValid] nor
    [errors]. *)
Lemma caseFixed_keeps (bundle : Bundle.t) (quantity originalPrice : number)
    (st : Locals) :
  isValid (caseFixed bundle quantity originalPrice st) = isValid st
  /\ errors (caseFixed bundle quantity originalPrice st) = errors st.
Proof.
  unfold caseFixed. destruct (Bundle.price bundle); [now split|].
  destruct (configuredDiscount bundle) as [[? ?]|]; now split.
Qed.

Lemma caseVolume_keeps (bundle : Bundle.t)
    (selectedItems : list SelectedItem.t) (quantity originalPrice : number)
    (st : Locals) :
  isValid (caseVolume bundle selectedItems quantity originalPrice st)
  = isValid st
  /\ errors (caseVolume bundle selectedItems quantity originalPrice st)
     = errors st.
Proof.
  unfold caseVolume. destruct (findApplicableVolumeRule _ _); now split.
Qed.

Lemma caseTiered_consistent (bundle : Bundle.t)
    (selectedItems : list SelectedItem.t) (tierId : option string)
    (quantity originalPrice : number) :
  let st :=
    caseTiered bundle selectedItems tierId quantity
      (initialLocals originalPrice) in
  isValid st = true <-> errors st = [].
Proof.
  cbv zeta. unfold caseTiered.
  destruct (truthy_opt truthy_string tierId); [|now split].
  destruct (find _ _); [|now split].
  destruct (negb _); now split.
Qed.

Lemma caseMixMatch_consistent (bundle : Bundle.t)
    (selectedItems : list SelectedItem.t) (originalPrice : number) :
  let st :=
    caseMixMatch bundle selectedItems originalPrice
      (initialLocals originalPrice) in
  isValid st = true <-> errors st = [].
Proof.
  destruct (PricingFacts.caseMixMatch_outcome bundle selectedItems
              originalPrice) as (He & Hv & _).
  cbv zeta in He, Hv |- *. rewrite He, Hv.
  destruct (_ ++ _)%list; simpl; split; congruence.
Qed.

End Validity.

(** X6.  For every bundle, selection, tier id and quantity, the result is
    valid exactly when it carries no validation error. *)
Theorem pricing_valid_iff_no_errors {fmt : NumberFormat} (bundle : Bundle.t)
    (selectedItems : list SelectedItem.t) (tierId : option string)
    (quantity : number) :
  let r := calculateBundlePricing bundle selectedItems tierId quantity in
  PricingCalculationResponse.isValid r = true
  <-> PricingCalculationResponse.validationErrors r = [].
Proof.
  cbv zeta. unfold calculateBundlePricing.
  cbn [PricingCalculationResponse.isValid
       PricingCalculationResponse.validationErrors].
  set (originalPrice := sumOriginal selectedItems * quantity).
  unfold typeSwitch.
  destruct (String.eqb _ BundleType.FIXED).
  { destruct (caseFixed_keeps bundle quantity originalPrice
                (initialLocals originalPrice)) as [-> ->].
    now split. }
  destruct (String.eqb _ BundleType.MIX_MATCH).
  { apply caseMixMatch_consistent. }
  destruct (String.eqb _ BundleType.VOLUME).
  { destruct (caseVolume_keeps bundle selectedItems quantity originalPrice
                (initialLocals originalPrice)) as [-> ->].
    now split. }
  destruct (String.eqb _ BundleType.TIERED).
  { apply caseTiered_consistent. }
  now split.
Qed.

(** X7.  A fixed bundle and a volume bundle are never reported invalid by
    the pricing function, whatever is selected: it has no check for
    them. *)
Theorem fixed_and_volume_never_invalid {fmt : NumberFormat}
    (bundle : Bundle.t) (selectedItems : list SelectedItem.t)
    (tierId : option string) (quantity : number) :
  Bundle.type bundle = BundleType.FIXED
  \/ Bundle.type bundle = BundleType.VOLUME ->
  let r := calculateBundlePricing bundle selectedItems tierId quantity in
  PricingCalculationResponse.isValid r = true
  /\ PricingCalculationResponse.validationErrors r = [].
Proof.
  intros Htype. cbv zeta. unfold calculateBundlePricing.
  cbn [PricingCalculationResponse.isValid
       PricingCalculationResponse.validationErrors].
  destruct Htype as [Htype|Htype].
  - rewrite (PricingFacts.typeSwitch_fixed _ _ _ _ _ _ Htype).
    destruct (caseFixed_keeps bundle quantity
                (sumOriginal selectedItems * quantity)
                (initialLocals (sumOriginal selectedItems * quantity)))
      as [-> ->].
    now split.
  - rewrite (PricingFacts.typeSwitch_volume _ _ _ _ _ _ Htype).
    destruct (caseVolume_keeps bundle selectedItems quantity
                (sumOriginal selectedItems * quantity)
                (initialLocals (sumOriginal selectedItems * quantity)))
      as [-> ->].
    now split.
Qed.

(** X8.  [itemPrices] has one entry per selected item, in the order of the
    selection, with the item's product id, variant id and quantity, and
    the item's price as original price; this holds for every bundle. *)
Theorem item_prices_follow_selection {fmt : NumberFormat} (bundle : Bundle.t)
    (selectedItems : list SelectedItem.t) (tierId : option string)
    (quantity : number) :
  let entries :=
    PricingCalculationResponse.itemPrices
      (calculateBundlePricing bundle selectedItems tierId quantity) in
  map ItemPrice.productId entries = map SelectedItem.productId selectedItems
  /\ map ItemPrice.variantId entries
     = map SelectedItem.variantId selectedItems
  /\ map ItemPrice.quantity entries = map SelectedItem.quantity selectedItems
  /\ map ItemPrice.originalPrice entries
     = map SelectedItem.price selectedItems
  /\ List.length entries = List.length selectedItems.
Proof.
  cbv zeta. unfold calculateBundlePricing.
  cbn [PricingCalculationResponse.itemPrices].
  set (st := typeSwitch _ _ _ _ _ _).
  assert (H : forall l : list ItemPrice.t,
             l = map initialItemPrice selectedItems
             \/ (exists k, l = map (rescale k)
                                (map initialItemPrice selectedItems)) ->
             map ItemPrice.productId l
             = map SelectedItem.productId selectedItems
             /\ map ItemPrice.variantId l
                = map SelectedItem.variantId selectedItems
             /\ map ItemPrice.quantity l
                = map SelectedItem.quantity selectedItems
             /\ map ItemPrice.originalPrice l
                = map SelectedItem.price selectedItems
             /\ List.length l = List.length selectedItems).
  { intros l [->|[k ->]]; rewrite ?map_map, ?length_map; now repeat split. }
  apply H.
  destruct (appliedDiscount st); [|now left].
  destruct (ltb 0 _); [right; eauto | now left].
Qed.

Section Sums.

Let line (sum : number) (item : SelectedItem.t) : number :=
  sum + SelectedItem.price item * SelectedItem.quantity item.

Lemma sumOriginal_shift (l : list SelectedItem.t) (a : number) :
  fold_left line l a == a + fold_left line l 0.
Proof.
  revert a. induction l as [|x l IH]; intro a; simpl.
  - ring.
  - rewrite (IH (line a x)), (IH (line 0 x)). unfold line. ring.
Qed.

Lemma discountedTotal_scaled (k : number) (l : list SelectedItem.t)
    (a : number) :
  fold_left
    (fun sum entry =>
       sum + ItemPrice.discountedPrice entry * ItemPrice.quantity entry)
    (map (rescale k) (map initialItemPrice l)) a
  == a + k * fold_left line l 0.
Proof.
  revert a. induction l as [|x l IH]; intro a; simpl.
  - ring.
  - rewrite IH, (sumOriginal_shift l (line 0 x)). unfold line. ring.
Qed.

Lemma discountedTotal_unscaled (l : list SelectedItem.t) (a : number) :
  fold_left
    (fun sum entry =>
       sum + ItemPrice.discountedPrice entry * ItemPrice.quantity entry)
    (map initialItemPrice l) a
  == a + fold_left line l 0.
Proof.
  revert a. induction l as [|x l IH]; intro a; simpl.
  - ring.
  - rewrite IH, (sumOriginal_shift l (line 0 x)). unfold line. ring.
Qed.

Lemma sumOriginal_zero (l : list SelectedItem.t) :
  Forall (fun item => SelectedItem.price item == 0) l ->
  fold_left line l 0 == 0.
Proof.
  induction 1 as [|x l Hx Hl IH]; simpl; [reflexivity|].
  rewrite sumOriginal_shift, IH. unfold line. rewrite Hx. ring.
Qed.

End Sums.

(** X9.  The proportional allocation loses nothing: when a discount was
    applied and the original price is positive, the discounted unit
    prices times their quantities, times the bundle quantity, add up to
    the discounted price. *)
Theorem allocation_adds_up {fmt : NumberFormat} (bundle : Bundle.t)
    (selectedItems : list SelectedItem.t) (tierId : option string)
    (quantity : number) :
  let r := calculateBundlePricing bundle selectedItems tierId quantity in
  PricingCalculationResponse.appliedDiscount r <> None ->
  0 < PricingCalculationResponse.originalPrice r ->
  Spec.discountedTotal (PricingCalculationResponse.itemPrices r) * quantity
  == PricingCalculationResponse.discountedPrice r.
Proof.
  cbv zeta. unfold calculateBundlePricing, Spec.discountedTotal.
  cbn [PricingCalculationResponse.discountedPrice
       PricingCalculationResponse.originalPrice
       PricingCalculationResponse.appliedDiscount
       PricingCalculationResponse.itemPrices].
  set (st := typeSwitch _ _ _ _ _ _).
  intros Happlied Hpos.
  destruct (appliedDiscount st); [|congruence].
  pose proof (proj2 (JSFacts.ltb_lt _ _) Hpos) as Hb. rewrite Hb.
  rewrite discountedTotal_scaled.
  unfold sumOriginal in *.
  set (total := fold_left _ selectedItems 0) in *.
  field.
  split; intro Hz; rewrite Hz in Hpos; apply (Qlt_irrefl 0);
    [rewrite Qmult_0_r in Hpos | rewrite Qmult_0_l in Hpos]; exact Hpos.
Qed.

(** X10.  When no discount is applied, the entries add up to the original
    price: the lines at their own prices, times the bundle quantity. *)
Theorem undiscounted_adds_up {fmt : NumberFormat} (bundle : Bundle.t)
    (selectedItems : list SelectedItem.t) (tierId : option string)
    (quantity : number) :
  let r := calculateBundlePricing bundle selectedItems tierId quantity in
  PricingCalculationResponse.appliedDiscount r = None ->
  Spec.discountedTotal (PricingCalculationResponse.itemPrices r) * quantity
  == PricingCalculationResponse.originalPrice r.
Proof.
  cbv zeta. unfold calculateBundlePricing, Spec.discountedTotal.
  cbn [PricingCalculationResponse.originalPrice
       PricingCalculationResponse.appliedDiscount
       PricingCalculationResponse.itemPrices].
  set (st := typeSwitch _ _ _ _ _ _).
  intros Hnone. rewrite Hnone.
  rewrite discountedTotal_unscaled. unfold sumOriginal. ring.
Qed.

(** X11.  A selection whose prices are all zero, the empty selection
    included, has an original price of zero; the percentage saved is then
    zero, the entries keep their prices, and whatever the bundle charges
    shows as negative savings. *)
Theorem free_selection {fmt : NumberFormat} (bundle : Bundle.t)
    (selectedItems : list SelectedItem.t) (tierId : option string)
    (quantity : number) :
  Forall (fun item => SelectedItem.price item == 0) selectedItems ->
  let r := calculateBundlePricing bundle selectedItems tierId quantity in
  PricingCalculationResponse.originalPrice r == 0
  /\ PricingCalculationResponse.savingsPercent r = 0
  /\ PricingCalculationResponse.savingsAmount r
     == - PricingCalculationResponse.discountedPrice r
  /\ PricingCalculationResponse.itemPrices r
     = map initialItemPrice selectedItems.
Proof.
  intros Hfree. cbv zeta.
  assert (Hzero : sumOriginal selectedItems * quantity == 0)
    by (unfold sumOriginal; rewrite (sumOriginal_zero _ Hfree); ring).
  assert (Hb : ltb 0 (sumOriginal selectedItems * quantity) = false)
    by (apply JSFacts.ltb_ge; lra).
  unfold calculateBundlePricing.
  cbn [PricingCalculationResponse.discountedPrice
       PricingCalculationResponse.originalPrice
       PricingCalculationResponse.savingsPercent
       PricingCalculationResponse.savingsAmount
       PricingCalculationResponse.itemPrices].
  rewrite Hb. split; [exact Hzero|]. split; [reflexivity|].
  split; [lra|].
  now destruct (appliedDiscount _).
Qed.

(** X12.  On an amount that is not negative, a percentage between 0 and
    100 and a fixed amount that is not negative never raise the price and
    never make it negative.  A percentage above 100 is not clamped: on a
    positive amount it gives a negative price. *)
Theorem applyDiscount_bounds {fmt : NumberFormat}
    (originalAmount discountValue : number) :
  0 <= originalAmount ->
  let discounted t :=
    dr_discountedPrice
      (applyDiscount originalAmount (Some t) discountValue) in
  (0 <= discountValue -> discountValue <= 100 ->
   0 <= discounted DiscountType.PERCENTAGE
   /\ discounted DiscountType.PERCENTAGE <= originalAmount)
  /\ (0 <= discountValue ->
      0 <= discounted DiscountType.FIXED_AMOUNT
      /\ discounted DiscountType.FIXED_AMOUNT <= originalAmount)
  /\ (100 < discountValue -> 0 < originalAmount ->
      discounted DiscountType.PERCENTAGE < 0).
Proof.
  intros Hx. cbv beta zeta.
  rewrite DiscountFacts.applyDiscount_percentage,
    DiscountFacts.applyDiscount_fixed_amount.
  unfold Spec.discountOf. cbn [dr_discountedPrice].
  assert (Hdiv : discountValue / 100 == discountValue * (1 # 100))
    by (unfold Qdiv; reflexivity).
  split; [|split].
  - intros H0 H100. rewrite Hdiv. split; nra.
  - intros H0. unfold Math_max.
    destruct (ltb 0 (originalAmount - discountValue)) eqn:E.
    + apply JSFacts.ltb_lt in E. split; lra.
    + split; lra.
  - intros H100 Hpos. rewrite Hdiv. nra.
Qed.

Section Runs.
#[local] Existing Instance Decimal.format.

Lemma fixed_and_volume_never_invalid_witness :
  PricingCalculationResponse.isValid
    (calculateBundlePricing Samples.threeSteps [] None 1) = true.
Proof.
  apply (fixed_and_volume_never_invalid Samples.threeSteps [] None 1).
  right. reflexivity.
Defined.

(** The first scenario: 30 and 25 become 1500/55 and 1250/55, which add up
    to 50. *)
Lemma allocation_adds_up_witness :
  Spec.discountedTotal
    (PricingCalculationResponse.itemPrices
       (calculateBundlePricing Samples.fixedAtFifty
          Samples.thirtyAndTwentyFive None 1)) * 1
  == 50 * 1.
Proof.
  apply (allocation_adds_up Samples.fixedAtFifty Samples.thirtyAndTwentyFive
           None 1).
  - discriminate.
  - reflexivity.
Defined.

Lemma undiscounted_adds_up_witness :
  Spec.discountedTotal
    (PricingCalculationResponse.itemPrices
       (calculateBundlePricing (Samples.bare "BOGO")
          Samples.thirtyAndTwentyFive None 2)) * 2
  == (0 + 30 * 1 + 25 * 1) * 2.
Proof.
  apply (undiscounted_adds_up (Samples.bare "BOGO")
           Samples.thirtyAndTwentyFive None 2).
  reflexivity.
Defined.

(** A fixed bundle at 50 over lines that cost nothing: savings of -50. *)
Lemma free_selection_witness :
  PricingCalculationResponse.savingsAmount
    (calculateBundlePricing Samples.fixedAtFifty Samples.freeLines None 1)
  == - (50 * 1).
Proof.
  apply (free_selection Samples.fixedAtFifty Samples.freeLines None 1).
  repeat constructor.
Defined.

(** 15% off 80 lies between 0 and 80. *)
Lemma applyDiscount_bounds_witness :
  0 <= dr_discountedPrice
         (applyDiscount 80 (Some DiscountType.PERCENTAGE) 15)
  /\ dr_discountedPrice
       (applyDiscount 80 (Some DiscountType.PERCENTAGE) 15) <= 80.
Proof.
  apply (applyDiscount_bounds 80 15); discriminate.
Defined.

End Runs.

End PricingMore.

(* ================================================================== *)
(** ** More about volume rules *)

Module VolumeMore.
Import Engine.

Lemma find_none_iff {A} (p : A -> bool) (l : list A) :
  find p l = None <-> (forall x, In x l -> p x = false).
Proof.
  split; [apply find_none|].
  induction l as [|a l IH]; simpl; [reflexivity|].
  intro H. rewrite (H a) by now left.
  apply IH. intros x Hx. apply H. now right.
Qed.

(** The rule that is returned qualifies, is one of the rules, and no
    qualifying rule starts higher. *)
Lemma selected_rule_is_best (rules : list VolumeRule.t) (quantity : number)
    (rule : VolumeRule.t) :
  findApplicableVolumeRule rules quantity = Some rule ->
  In rule rules
  /\ ruleApplies quantity rule = true
  /\ (forall other, In other rules -> ruleApplies quantity other = true ->
      VolumeRule.minQuantity other <= VolumeRule.minQuantity rule).
Proof.
  unfold findApplicableVolumeRule.
  set (cmp := fun a b => VolumeRule.minQuantity b - VolumeRule.minQuantity a).
  intro E.
  pose proof (find_some _ _ E) as [Hin Happ].
  apply VolumeFacts.sort_In in Hin.
  split; [exact Hin|]. split; [exact Happ|].
  intros other Hother Hq.
  assert (Hs : StronglySorted (Spec.descending VolumeRule.minQuantity)
                 (sort cmp rules))
    by (apply VolumeFacts.sort_sorted; reflexivity).
  destruct (VolumeFacts.find_first_sorted _ _ _ _ Hs E other) as [->|Hd].
  - now apply VolumeFacts.sort_In.
  - exact Hq.
  - apply Qle_refl.
  - exact Hd.
Qed.


(** X14.  The rule that is selected does not depend on the order in which
    the rules are stored, as long as rules that start at the same quantity
    are the same rule. *)
Theorem volume_rule_order_free (rules rules' : list VolumeRule.t)
    (quantity : number) :
  (forall rule, In rule rules <-> In rule rules') ->
  (forall a b, In a rules -> In b rules ->
     VolumeRule.minQuantity a == VolumeRule.minQuantity b -> a = b) ->
  findApplicableVolumeRule rules quantity
  = findApplicableVolumeRule rules' quantity.
Proof.
  intros Hsame Hkey.
  destruct (findApplicableVolumeRule rules quantity) as [r|] eqn:E;
    destruct (findApplicableVolumeRule rules' quantity) as [r'|] eqn:E'.
  - destruct (selected_rule_is_best _ _ _ E) as (Hin & Hq & Hmax).
    destruct (selected_rule_is_best _ _ _ E') as (Hin' & Hq' & Hmax').
    f_equal. apply Hkey; [exact Hin | now apply Hsame |].
    apply Qle_antisym.
    + apply Hmax'; [now apply Hsame | exact Hq].
    + apply Hmax; [now apply Hsame | exact Hq'].
  - exfalso. destruct (selected_rule_is_best _ _ _ E) as (Hin & Hq & _).
    unfold findApplicableVolumeRule in E'.
    rewrite find_none_iff in E'.
    rewrite (E' r) in Hq; [discriminate|].
    apply VolumeFacts.sort_In. now apply Hsame.
  - exfalso. destruct (selected_rule_is_best _ _ _ E') as (Hin & Hq & _).
    unfold findApplicableVolumeRule in E.
    rewrite find_none_iff in E.
    rewrite (E r') in Hq; [discriminate|].
    apply VolumeFacts.sort_In. now apply Hsame.
  - reflexivity.
Qed.

Lemma volume_rule_order_free_witness :
  findApplicableVolumeRule Samples.overlappingRules 6
  = findApplicableVolumeRule Samples.overlappingRulesReversed 6.
Proof.
  apply volume_rule_order_free.
  - intro rule. simpl. tauto.
  - intros a b [<-|[<-|[]]] [<-|[<-|[]]] H;
      try reflexivity; discriminate H.
Defined.

Section Ties.
Context {A : Type} (cmp : A -> A -> number) (key : A -> number).
Hypothesis cmp_key : forall a b, cmp a b = key b - key a.
Variable p : A -> bool.

(** Searching after one more insertion: the newcomer wins over what was
    found before when it passes the test and does not start lower. *)
Lemma find_sort_insert (x : A) (l : list A) :
  StronglySorted (Spec.descending key) l ->
  find p (sort_insert cmp x l)
  = match find p l with
    | Some r => if p x && leb (key r) (key x) then Some x else Some r
    | None => if p x then Some x else None
    end.
Proof.
  induction 1 as [|y l Hs IH Hall]; simpl; [now destruct (p x)|].
  destruct (ltb 0 (cmp x y)) eqn:E; simpl.
  - apply JSFacts.ltb_lt in E. rewrite cmp_key in E.
    destruct (p y) eqn:Ey; [|exact IH].
    assert (Hleb : leb (key y) (key x) = false).
    { destruct (leb (key y) (key x)) eqn:El; [|reflexivity].
      apply JSFacts.leb_le in El. lra. }
    now rewrite Hleb, andb_false_r.
  - apply JSFacts.ltb_ge in E. rewrite cmp_key in E.
    destruct (p x) eqn:Ex;
      [|simpl; destruct (p y); [reflexivity|now destruct (find p l)]].
    simpl.
    destruct (p y) eqn:Ey.
    + assert (Hleb : leb (key y) (key x) = true)
        by (apply JSFacts.leb_le; lra).
      now rewrite Hleb.
    + destruct (find p l) as [r|] eqn:Ef; [|reflexivity].
      assert (Hleb : leb (key r) (key x) = true).
      { apply JSFacts.leb_le.
        destruct (find_some _ _ Ef) as [Hin _].
        rewrite Forall_forall in Hall. specialize (Hall r Hin).
        unfold Spec.descending in Hall. lra. }
      now rewrite Hleb.
Qed.

(** What is found in the sorted list, read off the stored list: everything
    stored before it that passes the test starts strictly lower, everything
    stored after it that passes the test starts no higher. *)
Lemma find_sort_position (l : list A) (r : A) :
  find p (sort cmp l) = Some r ->
  exists before after,
    l = (before ++ r :: after)%list
    /\ (forall o, In o before -> p o = true -> key o < key r)
    /\ (forall o, In o after -> p o = true -> key o <= key r).
Proof.
  revert r. induction l as [|x l IH]; intro r; [discriminate|].
  simpl. rewrite find_sort_insert
    by (apply VolumeFacts.sort_sorted; exact cmp_key).
  destruct (find p (sort cmp l)) as [r0|] eqn:Ef.
  - destruct (IH r0 eq_refl) as (before & after & -> & Hb & Ha).
    destruct (p x && leb (key r0) (key x)) eqn:E.
    + intros [= <-]. apply andb_true_iff in E as [Ex El].
      apply JSFacts.leb_le in El.
      exists [], (before ++ r0 :: after)%list.
      split; [reflexivity|]. split; [intros o []|].
      intros o Ho Hp. apply in_app_or in Ho as [Ho|[<-|Ho]].
      * specialize (Hb o Ho Hp). lra.
      * exact El.
      * specialize (Ha o Ho Hp). lra.
    + intros [= <-].
      exists (x :: before), after.
      split; [reflexivity|]. split; [|exact Ha].
      intros o [<-|Ho] Hp; [|now apply Hb].
      rewrite Hp in E. simpl in E.
      destruct (leb (key r0) (key x)) eqn:El; [discriminate|].
      apply Qnot_le_lt. intro Hle. apply JSFacts.leb_le in Hle. congruence.
  - destruct (p x) eqn:Ex; [|discriminate].
    intros [= <-]. exists [], l. split; [reflexivity|].
    split; [intros o []|].
    intros o Ho Hp. rewrite find_none_iff in Ef.
    rewrite (Ef o) in Hp; [discriminate|].
    now apply VolumeFacts.sort_In.
Qed.

End Ties.

(** X15.  When several qualifying rules start at the same, highest
    quantity, the one stored first is selected: every qualifying rule
    stored before the selected one starts strictly lower, and every
    qualifying rule stored after it starts no higher. *)
Theorem volume_rule_ties (rules : list VolumeRule.t) (quantity : number)
    (rule : VolumeRule.t) :
  findApplicableVolumeRule rules quantity = Some rule ->
  exists before after,
    rules = (before ++ rule :: after)%list
    /\ (forall other, In other before -> Spec.qualifies quantity other ->
        VolumeRule.minQuantity other < VolumeRule.minQuantity rule)
    /\ (forall other, In other after -> Spec.qualifies quantity other ->
        VolumeRule.minQuantity other <= VolumeRule.minQuantity rule).
Proof.
  unfold findApplicableVolumeRule. intro E.
  destruct (find_sort_position _ VolumeRule.minQuantity
              (fun a b => eq_refl) _ _ _ E)
    as (before & after & Hl & Hb & Ha).
  exists before, after. split; [exact Hl|].
  split; intros other Ho Hq; apply VolumeFacts.ruleApplies_iff in Hq; eauto.
Qed.

(** Two rules from 3 on, 10% stored before 20%: the 10% rule is selected. *)
Lemma volume_rule_ties_witness :
  exists before after,
    [Samples.percentRule 3 None 10; Samples.percentRule 3 None 20]
    = (before ++ Samples.percentRule 3 None 10 :: after)%list
    /\ (forall other, In other before -> Spec.qualifies 4 other ->
        VolumeRule.minQuantity other
        < VolumeRule.minQuantity (Samples.percentRule 3 None 10))
    /\ (forall other, In other after -> Spec.qualifies 4 other ->
        VolumeRule.minQuantity other
        <= VolumeRule.minQuantity (Samples.percentRule 3 None 10)).
Proof.
  apply (volume_rule_ties
           [Samples.percentRule 3 None 10; Samples.percentRule 3 None 20] 4).
  reflexivity.
Defined.

End VolumeMore.

(* ================================================================== *)
(** ** More about configuration-time validation *)

Module ConfigMore.
Import Config.

Lemma pushIf_app (cond : bool) (e : ValidationError.t)
    (errors : list ValidationError.t) :
  pushIf cond e errors = (errors ++ pushIf cond e [])%list.
Proof. unfold pushIf. destruct cond; [reflexivity|now rewrite app_nil_r]. Qed.

Lemma checkTitle_app bundle errors :
  checkTitle bundle errors = (errors ++ checkTitle bundle [])%list.
Proof. unfold checkTitle. apply pushIf_app. Qed.

Lemma checkType_app bundle errors :
  checkType bundle errors = (errors ++ checkType bundle [])%list.
Proof. unfold checkType. apply pushIf_app. Qed.

Lemma checkFixed_app bundle errors :
  checkFixed bundle errors = (errors ++ checkFixed bundle [])%list.
Proof.
  unfold checkFixed, pushIf.
  destruct (missingOrEmpty _), (is_null _ && is_null _); simpl;
    rewrite <- ?app_assoc, ?app_nil_r; reflexivity.
Qed.

Lemma checkMixMatch_app bundle errors :
  checkMixMatch bundle errors = (errors ++ checkMixMatch bundle [])%list.
Proof.
  unfold checkMixMatch, pushIf.
  destruct (missingOrEmpty _);
    destruct (PartialBundle.minProducts bundle);
    destruct (PartialBundle.maxProducts bundle);
    try destruct (_ && _ && _); simpl;
    rewrite <- ?app_assoc, ?app_nil_r; reflexivity.
Qed.

Lemma checkByType_app bundle errors :
  checkByType bundle errors = (errors ++ checkByType bundle [])%list.
Proof.
  unfold checkByType.
  destruct (hasType bundle BundleType.FIXED); [apply checkFixed_app|].
  destruct (hasType bundle BundleType.MIX_MATCH); [apply checkMixMatch_app|].
  destruct (hasType bundle BundleType.VOLUME); [apply pushIf_app|].
  destruct (hasType bundle BundleType.TIERED); [apply pushIf_app|].
  now rewrite app_nil_r.
Qed.

Lemma checkSchedule_app bundle errors :
  checkSchedule bundle errors = (errors ++ checkSchedule bundle [])%list.
Proof.
  unfold checkSchedule.
  destruct (PartialBundle.startDate bundle); try now rewrite app_nil_r.
  destruct (PartialBundle.endDate bundle); try now rewrite app_nil_r.
  apply pushIf_app.
Qed.

(** The errors, check by check, in the order of the checks. *)
Lemma validateBundle_errors (bundle : PartialBundle.t) :
  ValidationResult.errors (validateBundle bundle)
  = (checkTitle bundle [] ++ checkType bundle []
       ++ checkByType bundle [] ++ checkSchedule bundle [])%list.
Proof.
  unfold validateBundle. cbn [ValidationResult.errors].
  rewrite checkSchedule_app, checkByType_app, checkType_app.
  now rewrite <- !app_assoc.
Qed.


Lemma validateBundle_fixed_nulls_witness :
  In (error "price" "Fixed bundles must have a price or discount" "REQUIRED")
     (ValidationResult.errors (validateBundle Samples.fixedWithNulls))
  /\ ValidationResult.isValid (validateBundle Samples.fixedWithNulls) = false.
Proof. apply ConfigFacts.validateBundle_fixed_nulls; reflexivity. Defined.





Lemma checkTitle_fields bundle e :
  In e (checkTitle bundle []) -> ValidationError.field e = "title".
Proof.
  unfold checkTitle, pushIf. destruct (_ || _); [|intros []].
  now intros [<-|[]].
Qed.

Lemma checkType_fields bundle e :
  In e (checkType bundle []) -> ValidationError.field e = "type".
Proof.
  unfold checkType, pushIf. destruct (negb _); [|intros []].
  now intros [<-|[]].
Qed.

Lemma checkByType_fields bundle e :
  In e (checkByType bundle []) ->
  ValidationError.field e = "items" \/ ValidationError.field e = "price"
  \/ ValidationError.field e = "volumeRules"
  \/ ValidationError.field e = "tiers"
  \/ (e = Spec.rangeError /\ hasType bundle BundleType.MIX_MATCH = true).
Proof.
  unfold checkByType, checkFixed, checkMixMatch, checkVolume, checkTiered,
    pushIf.
  destruct (hasType bundle BundleType.FIXED).
  { repeat match goal with
           | |- context [if ?c then _ else _] => destruct c
           end; simpl; intuition (subst; auto). }
  destruct (hasType bundle BundleType.MIX_MATCH).
  { repeat match goal with
           | |- context [if ?c then _ else _] => destruct c
           | |- context [match ?x with _ => _ end] => destruct x
           end; simpl; intuition (subst; auto). }
  destruct (hasType bundle BundleType.VOLUME).
  { repeat match goal with
           | |- context [if ?c then _ else _] => destruct c
           end; simpl; intuition (subst; auto). }
  destruct (hasType bundle BundleType.TIERED).
  { repeat match goal with
           | |- context [if ?c then _ else _] => destruct c
           end; simpl; intuition (subst; auto). }
  intros [].
Qed.

Lemma checkSchedule_iff bundle e :
  In e (checkSchedule bundle [])
  <-> e = Spec.scheduleError
      /\ Spec.upsideDown (PartialBundle.startDate bundle)
           (PartialBundle.endDate bundle).
Proof.
  unfold checkSchedule, Spec.upsideDown.
  destruct (PartialBundle.startDate bundle) as [| |s];
    try (split; [intros [] | intros (_ & ? & ? & ? & ? & H & _);
                             discriminate H]).
  destruct (PartialBundle.endDate bundle) as [| |e'];
    try (split; [intros [] | intros (_ & ? & ? & ? & ? & _ & H & _);
                             discriminate H]).
  unfold pushIf, Date.geb.
  destruct (Date.getTime s) as [x|] eqn:Ex.
  2:{ split; [intros []|].
      intros (_ & ? & ? & ? & ? & [= <-] & _ & H & _). congruence. }
  destruct (Date.getTime e') as [y|] eqn:Ey.
  2:{ split; [intros []|].
      intros (_ & ? & ? & ? & ? & _ & [= <-] & _ & H & _). congruence. }
  destruct (leb y x) eqn:El.
  - apply JSFacts.leb_le in El. split.
    + intros [<-|[]]. split; [reflexivity|].
      exists s, e', x, y. now repeat split.
    + intros [-> _]. now left.
  - split; [intros []|].
    intros (_ & s0 & e0 & x0 & y0 & [= <-] & [= <-] & Hx & Hy & Hle).
    rewrite Ex in Hx. rewrite Ey in Hy.
    injection Hx as <-. injection Hy as <-.
    apply JSFacts.leb_le in Hle. congruence.
Qed.

(** X19.  The schedule is refused exactly when both dates are given and
    valid and the start is not before the end; equal dates are refused, and
    a date that is not valid switches the check off. *)
Theorem schedule_refused_iff (bundle : PartialBundle.t) :
  In Spec.scheduleError (ValidationResult.errors (validateBundle bundle))
  <-> Spec.upsideDown (PartialBundle.startDate bundle)
        (PartialBundle.endDate bundle).
Proof.
  rewrite validateBundle_errors, !in_app_iff. split.
  - intros [H|[H|[H|H]]].
    + apply checkTitle_fields in H. discriminate H.
    + apply checkType_fields in H. discriminate H.
    + apply checkByType_fields in H.
      destruct H as [H|[H|[H|[H|[H _]]]]]; discriminate H.
    + now apply checkSchedule_iff in H.
  - intro H. right; right; right. now apply checkSchedule_iff.
Qed.

Lemma schedule_refused_iff_witness :
  In Spec.scheduleError
    (ValidationResult.errors
       (validateBundle
          (Samples.scheduled (present (Samples.at_ 7))
             (present (Samples.at_ 7))))).
Proof.
  apply schedule_refused_iff.
  exists (Samples.at_ 7), (Samples.at_ 7), 7, 7.
  repeat split. apply Qle_refl.
Defined.

(** X20.  A mix and match bundle is told that its minimum exceeds its
    maximum exactly when both bounds are given, neither is zero, and the
    maximum is below the minimum. *)
Theorem range_refused_iff (bundle : PartialBundle.t) :
  PartialBundle.type bundle = present BundleType.MIX_MATCH ->
  In Spec.rangeError (ValidationResult.errors (validateBundle bundle))
  <-> exists lo hi,
        PartialBundle.minProducts bundle = present lo
        /\ PartialBundle.maxProducts bundle = present hi
        /\ ~ lo == 0 /\ ~ hi == 0 /\ hi < lo.
Proof.
  intro Htype.
  rewrite validateBundle_errors, !in_app_iff.
  assert (Hby : In Spec.rangeError (checkByType bundle [])
                <-> exists lo hi,
                      PartialBundle.minProducts bundle = present lo
                      /\ PartialBundle.maxProducts bundle = present hi
                      /\ ~ lo == 0 /\ ~ hi == 0 /\ hi < lo).
  { unfold checkByType, hasType. rewrite Htype. cbn - [checkMixMatch].
    unfold checkMixMatch.
    set (items := pushIf _ _ []).
    assert (Hitems : ~ In Spec.rangeError items).
    { subst items. unfold pushIf. destruct (missingOrEmpty _);
        [intros [H|[]]; discriminate H | intros []]. }
    destruct (PartialBundle.minProducts bundle) as [| |lo];
      try (split; [tauto | intros (? & ? & H & _); discriminate H]).
    destruct (PartialBundle.maxProducts bundle) as [| |hi];
      try (split; [tauto | intros (? & ? & _ & H & _); discriminate H]).
    unfold pushIf.
    destruct (truthy_number lo && truthy_number hi && ltb hi lo) eqn:E.
    - apply andb_true_iff in E as [E E3]. apply andb_true_iff in E as [E1 E2].
      apply JSFacts.truthy_number_iff in E1, E2. apply JSFacts.ltb_lt in E3.
      split; [|intros _; apply in_or_app; right; now left].
      intros _. exists lo, hi. now repeat split.
    - split; [tauto|].
      intros (lo' & hi' & [= <-] & [= <-] & H1 & H2 & H3).
      apply JSFacts.truthy_number_iff in H1, H2. apply JSFacts.ltb_lt in H3.
      rewrite H1, H2, H3 in E. discriminate E. }
  split.
  - intros [H|[H|[H|H]]].
    + apply checkTitle_fields in H. discriminate H.
    + apply checkType_fields in H. discriminate H.
    + now apply Hby.
    + apply checkSchedule_iff in H as [H _]. discriminate H.
  - intro H. right; right; left. now apply Hby.
Qed.

Lemma range_refused_iff_witness :
  In Spec.rangeError
    (ValidationResult.errors
       (validateBundle (Samples.bounded (present 5) (present 3)))).
Proof.
  apply range_refused_iff; [reflexivity|].
  exists 5, 3. repeat split; discriminate.
Defined.



End ConfigMore.

(* ================================================================== *)
(** ** More about the client-safe helpers *)

Module ClientMore.
Import Client.


(** X22.  A bundle is on schedule exactly when the clock is neither before
    its start nor after its end.  Both ends are inclusive, and a date that
    is missing or not valid restricts nothing. *)
Theorem schedule_window (now : Date.t) (startDate endDate : option Date.t)
    (n : number) :
  Date.getTime now = Some n ->
  isBundleScheduleActive now startDate endDate = true
  <-> (forall s x, startDate = Some s -> Date.getTime s = Some x -> x <= n)
      /\ (forall e y, endDate = Some e -> Date.getTime e = Some y -> n <= y).
Proof.
  intro Hnow. unfold isBundleScheduleActive, Date.ltb, Date.gtb.
  rewrite Hnow.
  destruct startDate as [s|]; [destruct (Date.getTime s) as [x|] eqn:Ex|];
    (destruct endDate as [e|]; [destruct (Date.getTime e) as [y|] eqn:Ey|]).
  all: repeat match goal with
         | |- context [ltb ?a ?b] =>
             let E := fresh "E" in
             destruct (ltb a b) eqn:E;
             [apply JSFacts.ltb_lt in E | apply JSFacts.ltb_ge in E]
         end.
  all: split;
    [ intro H; try discriminate H; split; intros d t Hd Ht;
      try discriminate Hd; injection Hd as <-;
      try congruence;
      match goal with
      | H1 : Date.getTime ?d = Some ?a, H2 : Date.getTime ?d = Some ?b |- _ =>
          rewrite H1 in H2; injection H2 as <-
      end; lra
    | intros [Hs He]; try reflexivity; exfalso;
      repeat match goal with
             | H : forall s x, Some ?d = Some s -> _ -> _,
               H' : Date.getTime ?d = Some ?t |- _ =>
                 specialize (H d t eq_refl H')
             end; lra ].
Qed.

Lemma schedule_window_witness :
  isBundleScheduleActive (Samples.at_ 10) (Some (Samples.at_ 10))
    (Some (Samples.at_ 10)) = true.
Proof.
  apply (schedule_window (Samples.at_ 10) _ _ 10 eq_refl).
  split; intros d t [= <-] [= <-]; apply Qle_refl.
Defined.



(** X24.  Where the original price of a priced bundle is positive, the
    percentage that [formatSavings] computes from the two prices is the
    [savingsPercent] of the pricing result. *)
Theorem formatSavings_agrees {fmt : NumberFormat} (bundle : Bundle.t)
    (selectedItems : list SelectedItem.t) (tierId : option string)
    (quantity : number) :
  let r := Engine.calculateBundlePricing bundle selectedItems tierId quantity in
  0 < PricingCalculationResponse.originalPrice r ->
  savingsPercentOf (PricingCalculationResponse.originalPrice r)
    (PricingCalculationResponse.discountedPrice r)
  = Finite (PricingCalculationResponse.savingsPercent r).
Proof.
  cbv zeta. intro Hpos.
  rewrite ClientFacts.savingsPercentOf_nonzero by lra.
  destruct (PricingFacts.savingsPercent_guarded bundle selectedItems tierId
              quantity) as (_ & Hp & _).
  cbv zeta in Hp. now rewrite (Hp Hpos).
Qed.

Section Runs.
#[local] Existing Instance Decimal.format.

Lemma formatSavings_agrees_witness :
  savingsPercentOf (55 * 1) (50 * 1)
  = Finite
      (PricingCalculationResponse.savingsPercent
         (Engine.calculateBundlePricing Samples.fixedAtFifty
            Samples.thirtyAndTwentyFive None 1)).
Proof.
  apply (formatSavings_agrees Samples.fixedAtFifty
           Samples.thirtyAndTwentyFive None 1).
  reflexivity.
Defined.

End Runs.

End ClientMore.

(* ================================================================== *)
(** ** More about the validate routes *)

Module RouteMore.
Import Routes.

Section Admin.
Context {fmt : NumberFormat}.

Lemma fold_pushIf_keeps {A} (cond : A -> bool) (err : A -> ValidationError.t)
    (l : list A) (errors : list ValidationError.t) (e : ValidationError.t) :
  In e errors ->
  In e (fold_left (fun errors x => Config.pushIf (cond x) (err x) errors)
          l errors).
Proof.
  revert errors. induction l as [|x l IH]; intros errors H; simpl;
    [exact H|].
  apply IH. now apply ConfigFacts.pushIf_In.
Qed.

Lemma fold_pushIf_adds {A} (cond : A -> bool) (err : A -> ValidationError.t)
    (l : list A) (errors : list ValidationError.t) (x : A) :
  In x l -> cond x = true ->
  In (err x)
     (fold_left (fun errors x => Config.pushIf (cond x) (err x) errors)
        l errors).
Proof.
  revert errors. induction l as [|y l IH]; intros errors Hin Hc;
    [destruct Hin|].
  destruct Hin as [->|Hin]; simpl.
  - apply fold_pushIf_keeps. rewrite Hc. apply ConfigFacts.pushIf_true_In.
  - now apply IH.
Qed.

Lemma adminCommon_keeps (selectedItems : list SelectedItem.t)
    (quantity : number) (errors : list ValidationError.t)
    (e : ValidationError.t) :
  In e errors -> In e (adminCommon selectedItems quantity errors).
Proof.
  intro H. unfold adminCommon.
  apply (fold_pushIf_keeps (fun item => ltb (SelectedItem.price item) 0)).
  now apply ConfigFacts.pushIf_In.
Qed.

Lemma nonempty_invalid (errors : list ValidationError.t)
    (e : ValidationError.t) :
  In e errors -> Nat.eqb (List.length errors) 0 = false.
Proof. destruct errors; [intros []|reflexivity]. Qed.

End Admin.

(** The admin route refuses a volume selection that spans several
    products when the bundle applies to one product only: the answer is
    invalid and carries SAME_PRODUCT_REQUIRED. *)
Lemma pricingValidate_same_product {fmt : NumberFormat}
    (JSON_parse : string -> option parsed) (bundleId : string)
    (bundle : Bundle.t) (selectedItems : list SelectedItem.t)
    (tierId : option string) (quantity : number) :
  bundleId <> "" ->
  Bundle.type bundle = BundleType.VOLUME ->
  Bundle.applyToSameProduct bundle = true ->
  (1 < List.length (distinctProductIds selectedItems))%nat ->
  exists body,
    pricingValidate JSON_parse "POST" (Some bundleId) (Some bundle)
      selectedItems tierId quantity = AdminOk body
    /\ ab_isValid body = false
    /\ In (Config.error "selectedItems"
             "Volume discount applies only to the same product"
             "SAME_PRODUCT_REQUIRED")
          (ab_errors body).
Proof.
  intros Hid Htype Hflag Hmany.
  unfold pricingValidate. cbn [String.eqb Ascii.eqb Bool.eqb negb truthy_opt].
  apply JSFacts.truthy_string_iff in Hid. rewrite Hid. cbn [negb].
  rewrite Htype. cbn [String.eqb Ascii.eqb Bool.eqb BundleType.FIXED
                      BundleType.MIX_MATCH BundleType.VOLUME].
  assert (Hin : In (Config.error "selectedItems"
                      "Volume discount applies only to the same product"
                      "SAME_PRODUCT_REQUIRED")
                  (fst (adminVolume bundle selectedItems quantity [] []))).
  { unfold adminVolume. rewrite Hflag.
    apply Nat.ltb_lt in Hmany. rewrite Hmany.
    destruct (Nat.eqb _ 0); [|destruct (qualifyingRule _ _)];
      cbn [fst]; apply ConfigFacts.pushIf_true_In. }
  destruct (adminVolume bundle selectedItems quantity [] [])
    as [errors warnings].
  cbn [fst] in Hin.
  eexists. split; [reflexivity|]. cbn [ab_isValid ab_errors].
  apply (adminCommon_keeps selectedItems quantity) in Hin.
  split; [now apply (nonempty_invalid _ _ Hin)|exact Hin].
Qed.

(** X25.  Whatever the type of the bundle, an answer of the admin route
    reports a bundle quantity below 1 and every negative price, and is
    valid exactly when it carries no error. *)
Theorem pricingValidate_common {fmt : NumberFormat}
    (JSON_parse : string -> option parsed) (method : string)
    (bundleId : option string) (found : option Bundle.t)
    (selectedItems : list SelectedItem.t) (tierId : option string)
    (quantity : number) (body : AdminBody) :
  pricingValidate JSON_parse method bundleId found selectedItems tierId
    quantity = AdminOk body ->
  (quantity < 1 ->
   In (Config.error "quantity" "Quantity must be at least 1" "MIN_QUANTITY")
      (ab_errors body))
  /\ (forall item, In item selectedItems -> SelectedItem.price item < 0 ->
      In (Config.error "selectedItems"
            ("Invalid price for item: " ++ SelectedItem.productId item)
            "INVALID_PRICE")
         (ab_errors body))
  /\ (ab_isValid body = true <-> ab_errors body = []).
Proof.
  unfold pricingValidate.
  destruct (negb (String.eqb method "POST")); [discriminate|].
  destruct (negb (truthy_opt truthy_string bundleId)); [discriminate|].
  destruct found as [bundle|]; [|discriminate].
  match goal with
  | |- match ?sw with _ => _ end = _ -> _ => destruct sw as [[errors warnings]|]
  end; [|discriminate].
  intros [= <-]. cbn [ab_isValid ab_errors].
  split; [|split].
  - intro Hq. unfold adminCommon.
    apply (fold_pushIf_keeps (fun item => ltb (SelectedItem.price item) 0)).
    apply JSFacts.ltb_lt in Hq. rewrite Hq.
    apply ConfigFacts.pushIf_true_In.
  - intros item Hin Hneg. unfold adminCommon.
    apply (fold_pushIf_adds
             (fun item => ltb (SelectedItem.price item) 0)
             (fun item =>
                Config.error "selectedItems"
                  ("Invalid price for item: " ++ SelectedItem.productId item)
                  "INVALID_PRICE")); [exact Hin|].
    now apply JSFacts.ltb_lt.
  - destruct (adminCommon _ _ _); simpl; split; congruence.
Qed.


Section Duplicates.
Context {fmt : NumberFormat}.

Lemma countVariant_nonneg (key : string) (quantity : number)
    (counts : list (string * number)) :
  0 <= quantity ->
  (forall k c, In (k, c) counts -> 0 <= c) ->
  forall k c, In (k, c) (countVariant key quantity counts) -> 0 <= c.
Proof.
  intros Hq. induction counts as [|[k0 c0] rest IH]; intros Hall k c Hin.
  - destruct Hin as [[= <- <-]|[]]. lra.
  - simpl in Hin. destruct (String.eqb k0 key).
    + destruct Hin as [[= <- <-]|Hin].
      * pose proof (Hall k0 c0 (or_introl eq_refl)). lra.
      * apply (Hall k c). now right.
    + destruct Hin as [[= <- <-]|Hin].
      * apply (Hall k0 c0). now left.
      * exact (IH (fun k' c' H' => Hall k' c' (or_intror H')) k c Hin).
Qed.

Lemma countVariant_keeps (key k : string) (quantity : number)
    (counts : list (string * number)) :
  0 <= quantity ->
  Spec.counted k counts ->
  Spec.counted k (countVariant key quantity counts).
Proof.
  intros Hq. induction counts as [|[k0 c0] rest IH]; intros (c & Hin & Hc).
  - destruct Hin.
  - simpl. destruct (String.eqb k0 key).
    + destruct Hin as [[= -> ->]|Hin].
      * exists (c + quantity). split; [now left|lra].
      * exists c. split; [now right|exact Hc].
    + destruct Hin as [[= -> ->]|Hin].
      * exists c. split; [now left|exact Hc].
      * destruct IH as (c' & Hin' & Hc'); [now exists c|].
        exists c'. split; [now right|exact Hc'].
Qed.

Lemma countVariant_adds (key : string) (quantity : number)
    (counts : list (string * number)) :
  1 < quantity ->
  (forall k c, In (k, c) counts -> 0 <= c) ->
  Spec.counted key (countVariant key quantity counts).
Proof.
  intros Hq. induction counts as [|[k0 c0] rest IH]; intro Hall.
  - exists (0 + quantity). split; [now left|lra].
  - simpl. destruct (String.eqb_spec k0 key) as [->|Hne].
    + exists (c0 + quantity). split; [now left|].
      pose proof (Hall key c0 (or_introl eq_refl)). lra.
    + destruct IH as (c & Hin & Hc).
      { intros k' c' H'. apply (Hall k' c'). now right. }
      exists c. split; [now right|exact Hc].
Qed.

Lemma counts_of_selection (key : string)
    (selectedItems : list SelectedItem.t) :
  forall counts,
  (forall i, In i selectedItems -> 0 <= SelectedItem.quantity i) ->
  (forall k c, In (k, c) counts -> 0 <= c) ->
  Spec.counted key counts
  \/ (exists item, In item selectedItems
                   /\ Spec.selectionKey item = key
                   /\ 1 < SelectedItem.quantity item) ->
  Spec.counted key
    (fold_left
       (fun counts item =>
          let key :=
            if truthy_string (SelectedItem.variantId item)
            then SelectedItem.variantId item
            else SelectedItem.productId item in
          countVariant key (SelectedItem.quantity item) counts)
       selectedItems counts).
Proof.
  induction selectedItems as [|i rest IH]; intros counts Hq Hall H.
  - destruct H as [H|(item & [] & _)]. exact H.
  - cbn [fold_left]. cbv zeta.
    assert (Hi : 0 <= SelectedItem.quantity i) by (apply Hq; now left).
    apply IH.
    + intros j Hj. apply Hq. now right.
    + now apply countVariant_nonneg.
    + destruct H as [H|(item & [->|Hin] & Hkey & Hmany)].
      * left. now apply countVariant_keeps.
      * left. rewrite <- Hkey. unfold Spec.selectionKey.
        now apply countVariant_adds.
      * right. now exists item.
Qed.

Lemma duplicates_keep (counts : list (string * number))
    (errors : list ValidationError.t) (e : ValidationError.t) :
  In e errors ->
  In e (fold_left
          (fun errors '(key, count) =>
             Config.pushIf (ltb 1 count)
               (Config.error "selectedItems"
                  ("Duplicate selection not allowed: " ++ key)
                  "NO_DUPLICATES")
               errors)
          counts errors).
Proof.
  revert errors. induction counts as [|[k c] rest IH]; intros errors H;
    [exact H|].
  cbn [fold_left]. apply IH. now apply ConfigFacts.pushIf_In.
Qed.

Lemma duplicates_reported (key : string) (counts : list (string * number))
    (errors : list ValidationError.t) :
  Spec.counted key counts ->
  In (Config.error "selectedItems"
        ("Duplicate selection not allowed: " ++ key) "NO_DUPLICATES")
     (fold_left
        (fun errors '(key, count) =>
           Config.pushIf (ltb 1 count)
             (Config.error "selectedItems"
                ("Duplicate selection not allowed: " ++ key)
                "NO_DUPLICATES")
             errors)
        counts errors).
Proof.
  revert errors. induction counts as [|[k c] rest IH];
    intros errors (count & Hin & Hc); [destruct Hin|].
  cbn [fold_left]. destruct Hin as [[= -> ->]|Hin].
  - apply duplicates_keep. apply JSFacts.ltb_lt in Hc. rewrite Hc.
    apply ConfigFacts.pushIf_true_In.
  - apply IH. now exists count.
Qed.

End Duplicates.

(** X27.  When a mix and match bundle allows no duplicates, the admin
    route counts quantities, not lines: a selection with a line whose
    quantity is above 1 is refused with NO_DUPLICATES for that line's key,
    also when no variant is selected twice. *)
Theorem pricingValidate_quantity_as_duplicate {fmt : NumberFormat}
    (JSON_parse : string -> option parsed) (bundleId : string)
    (bundle : Bundle.t) (selectedItems : list SelectedItem.t)
    (tierId : option string) (quantity : number) (item : SelectedItem.t) :
  bundleId <> "" ->
  Bundle.type bundle = BundleType.MIX_MATCH ->
  Bundle.allowDuplicates bundle = false ->
  (forall i, In i selectedItems -> 0 <= SelectedItem.quantity i) ->
  In item selectedItems ->
  1 < SelectedItem.quantity item ->
  exists body,
    pricingValidate JSON_parse "POST" (Some bundleId) (Some bundle)
      selectedItems tierId quantity = AdminOk body
    /\ ab_isValid body = false
    /\ In (Config.error "selectedItems"
             ("Duplicate selection not allowed: " ++ Spec.selectionKey item)
             "NO_DUPLICATES")
          (ab_errors body).
Proof.
  intros Hid Htype Hflag Hq Hitem Hmany.
  unfold pricingValidate. cbn [String.eqb Ascii.eqb Bool.eqb negb truthy_opt].
  apply JSFacts.truthy_string_iff in Hid. rewrite Hid. cbn [negb].
  rewrite Htype. cbn [String.eqb Ascii.eqb Bool.eqb BundleType.FIXED
                      BundleType.MIX_MATCH].
  eexists. split; [reflexivity|]. cbn [ab_isValid ab_errors].
  assert (Hin : In (Config.error "selectedItems"
                      ("Duplicate selection not allowed: "
                         ++ Spec.selectionKey item)
                      "NO_DUPLICATES")
                  (adminMixMatch bundle selectedItems [])).
  { unfold adminMixMatch. cbv zeta. rewrite Hflag. cbn [negb].
    apply duplicates_reported. apply counts_of_selection.
    - exact Hq.
    - intros k c [].
    - right. now exists item. }
  apply (adminCommon_keeps selectedItems quantity) in Hin.
  split; [now apply (nonempty_invalid _ _ Hin)|exact Hin].
Qed.

Section Store.
Context {fmt : NumberFormat}.

Lemma push_not_nil (msg : string) (l : list string) : push msg l <> [].
Proof. unfold push. now destruct l. Qed.

(** A loop whose steps only add messages ends without a message only if it
    started without one. *)
Lemma fold_nil {A} (step : list string -> A -> list string) (xs : list A)
    (l : list string) :
  (forall x l, step l x = [] -> l = []) ->
  fold_left step xs l = [] -> l = [].
Proof.
  intro Hstep. revert l. induction xs as [|x xs IH]; intros l H;
    [exact H|].
  simpl in H. apply IH in H. now apply Hstep in H.
Qed.

Lemma storeInventory_nil (selectedItems : list SelectedItem.t)
    (quantity : number) (nodes : list (option InventoryNode.t))
    (errors : list string) :
  storeInventory selectedItems quantity nodes errors = [] -> errors = [].
Proof.
  unfold storeInventory. apply fold_nil. intros [node|] l H; [|exact H].
  destruct (find _ selectedItems); [|exact H].
  cbv zeta in H.
  destruct (negb _); [now apply push_not_nil in H|].
  destruct (ltb _ _); [now apply push_not_nil in H|exact H].
Qed.

Lemma storeMixMatch_engine (bundle : Bundle.t)
    (selectedItems : list SelectedItem.t) (originalPrice : number) :
  storeMixMatch bundle selectedItems [] = [] ->
  let st :=
    Engine.caseMixMatch bundle selectedItems originalPrice
      (Engine.initialLocals originalPrice) in
  Engine.isValid st = true /\ Engine.errors st = [].
Proof.
  intro H. cbv zeta.
  destruct (PricingFacts.caseMixMatch_outcome bundle selectedItems
              originalPrice) as (He & Hv & _).
  cbv zeta in He, Hv. rewrite He, Hv. clear He Hv.
  unfold storeMixMatch, sumQuantity in H. cbv zeta in H.
  assert (H' : forall l, (if negb (Bundle.allowDuplicates bundle)
                             && seenTwice [] selectedItems
                          then push "Duplicate products are not allowed in this bundle" l
                          else l) = [] -> l = []).
  { intros l Hl. destruct (_ && _); [now apply push_not_nil in Hl|exact Hl]. }
  apply H' in H. clear H'.
  apply fold_nil in H.
  - destruct (Bundle.minProducts bundle) as [lo|];
      destruct (Bundle.maxProducts bundle) as [hi|];
      repeat match goal with
             | H : context [if ?c then _ else _] |- _ => destruct c
             end;
      try (now apply push_not_nil in H); now split.
  - clear H. intros category l H. cbv beta zeta in H.
    destruct (BundleCategory.maxSelect category) as [maxSelect|].
    + destruct (truthy_number maxSelect && _) in H;
        [now apply push_not_nil in H|].
      destruct (_ && _) in H; [now apply push_not_nil in H|exact H].
    + destruct (_ && _) in H; [now apply push_not_nil in H|exact H].
Qed.

Lemma storeTiered_engine (bundle : Bundle.t)
    (selectedItems : list SelectedItem.t) (tierId : option string)
    (quantity originalPrice : number) :
  storeTiered bundle selectedItems tierId [] = [] ->
  let st :=
    Engine.caseTiered bundle selectedItems tierId quantity
      (Engine.initialLocals originalPrice) in
  Engine.isValid st = true /\ Engine.errors st = [].
Proof.
  intro H. cbv zeta. unfold storeTiered, sumQuantity in H.
  unfold Engine.caseTiered.
  destruct (truthy_opt truthy_string tierId);
    [|now apply push_not_nil in H].
  cbn [negb] in H.
  destruct (find _ (Bundle.tiers bundle)) as [selectedTier|];
    [|now apply push_not_nil in H].
  cbv zeta in H |- *.
  destruct (ltb (Engine.totalSelected selectedItems) _) eqn:Elt;
    [now apply push_not_nil in H|].
  destruct (ltb _ (Engine.totalSelected selectedItems)) eqn:Egt;
    [now apply push_not_nil in H|].
  apply JSFacts.ltb_ge in Elt, Egt.
  assert (Heq : eqb (Engine.totalSelected selectedItems)
                  (BundleTier.productCount selectedTier) = true)
    by (apply JSFacts.eqb_eq; now apply Qle_antisym).
  rewrite Heq. now split.
Qed.

(** What the type switch of the storefront route lets through, the pricing
    function finds valid. *)
Lemma storeSwitch_engine (bundle : Bundle.t)
    (selectedItems : list SelectedItem.t) (tierId : option string)
    (quantity : number) :
  fst (if String.eqb (Bundle.type bundle) BundleType.FIXED then
         ([], [])
       else if String.eqb (Bundle.type bundle) BundleType.MIX_MATCH then
         (storeMixMatch bundle selectedItems [], [])
       else if String.eqb (Bundle.type bundle) BundleType.TIERED then
         (storeTiered bundle selectedItems tierId [], [])
       else if String.eqb (Bundle.type bundle) BundleType.VOLUME then
         storeVolume bundle selectedItems quantity [] []
       else ([], [])) = [] ->
  let r :=
    Engine.calculateBundlePricing bundle selectedItems tierId quantity in
  PricingCalculationResponse.isValid r = true
  /\ PricingCalculationResponse.validationErrors r = [].
Proof.
  intro H. cbv zeta. unfold Engine.calculateBundlePricing.
  cbn [PricingCalculationResponse.isValid
       PricingCalculationResponse.validationErrors].
  set (originalPrice := Engine.sumOriginal selectedItems * quantity).
  unfold Engine.typeSwitch.
  destruct (String.eqb _ BundleType.FIXED).
  { destruct (PricingMore.caseFixed_keeps bundle quantity originalPrice
                (Engine.initialLocals originalPrice)) as [-> ->].
    now split. }
  destruct (String.eqb _ BundleType.MIX_MATCH).
  { now apply storeMixMatch_engine. }
  destruct (String.eqb _ BundleType.VOLUME).
  { destruct (PricingMore.caseVolume_keeps bundle selectedItems quantity
                originalPrice (Engine.initialLocals originalPrice))
      as [-> ->].
    now split. }
  destruct (String.eqb _ BundleType.TIERED).
  { now apply storeTiered_engine. }
  now split.
Qed.

Lemma length_zero_nil {A} (l : list A) :
  Nat.eqb (List.length l) 0 = true -> l = [].
Proof. now destruct l. Qed.

End Store.

(** X28.  Whenever the storefront route hands out a price, the pricing
    function found the selection valid: the checks that the route makes
    itself cover those of the pricing function.  The answer then has
    status 200, is valid and carries no error. *)
Theorem storefront_price_is_valid {fmt : NumberFormat} (method : string)
    (shop bundleId : option string) (found : option Bundle.t) (now : Date.t)
    (selectedItems : list SelectedItem.t) (tierId : option string)
    (quantity : number)
    (inventory : option (option (list (option InventoryNode.t))))
    (status : nat) (body : StoreBody) (p : PricingCalculationResponse.t) :
  storefrontValidate method shop bundleId found now selectedItems tierId
    quantity inventory = StoreJson status body ->
  sb_pricing body = Some p ->
  exists bundle,
    found = Some bundle
    /\ p = Engine.calculateBundlePricing bundle selectedItems tierId quantity
    /\ PricingCalculationResponse.isValid p = true
    /\ PricingCalculationResponse.validationErrors p = []
    /\ status = 200%nat
    /\ sb_isValid body = true
    /\ sb_errors body = [].
Proof.
  unfold storefrontValidate.
  destruct (negb (String.eqb method "POST")); [discriminate|].
  destruct (negb (truthy_opt truthy_string shop)); [discriminate|].
  destruct (negb (truthy_opt truthy_string bundleId)); [discriminate|].
  destruct found as [bundle|];
    [|unfold storeRejected; intros [= _ <-]; discriminate].
  destruct (negb (Client.isBundleScheduleActive _ _ _));
    [unfold storeRejected; intros [= _ <-]; discriminate|].
  pose proof (storeSwitch_engine bundle selectedItems tierId quantity)
    as Hsw.
  revert Hsw.
  match goal with
  | |- context [fst ?sw] => destruct sw as [errors warnings]
  end.
  cbn [fst]. intro Hsw.
  assert (Hend : forall errors',
             (errors' = [] -> errors = []) ->
             StoreJson 200
               {| sb_isValid := Nat.eqb (List.length errors') 0;
                  sb_errors := errors';
                  sb_warnings := warnings;
                  sb_pricing :=
                    if Nat.eqb (List.length errors') 0
                    then Some (Engine.calculateBundlePricing bundle
                                 selectedItems tierId quantity)
                    else None |} = StoreJson status body ->
             sb_pricing body = Some p ->
             exists bundle0,
               Some bundle = Some bundle0
               /\ p = Engine.calculateBundlePricing bundle0 selectedItems
                        tierId quantity
               /\ PricingCalculationResponse.isValid p = true
               /\ PricingCalculationResponse.validationErrors p = []
               /\ status = 200%nat
               /\ sb_isValid body = true
               /\ sb_errors body = []).
  { intros errors' Hnil [= <- <-]. cbn [sb_pricing sb_isValid sb_errors].
    destruct (Nat.eqb (List.length errors') 0) eqn:E; [|discriminate].
    intros [= <-]. apply length_zero_nil in E.
    destruct (Hsw (Hnil E)) as [Hv He].
    exists bundle. now repeat split. }
  destruct (existsb _ selectedItems).
  - destruct inventory as [[nodes|]|].
    + apply Hend. apply storeInventory_nil.
    + now apply Hend.
    + unfold storeRejected; intros [= _ <-]; discriminate.
  - now apply Hend.
Qed.

(** X29.  The storefront route makes no check of its own for a fixed
    bundle, nor of the bundle quantity: a fixed bundle on schedule is
    valid for every selection, tier id and quantity whenever the inventory
    answer raises no objection. *)
Theorem storefront_fixed_unchecked {fmt : NumberFormat}
    (shop bundleId : string) (bundle : Bundle.t) (now : Date.t)
    (selectedItems : list SelectedItem.t) (tierId : option string)
    (quantity : number) (nodes : option (list (option InventoryNode.t))) :
  shop <> "" ->
  bundleId <> "" ->
  Bundle.type bundle = BundleType.FIXED ->
  Client.isBundleScheduleActive now (Bundle.startDate bundle)
    (Bundle.endDate bundle) = true ->
  (forall l, nodes = Some l ->
             storeInventory selectedItems quantity l [] = []) ->
  storefrontValidate "POST" (Some shop) (Some bundleId) (Some bundle) now
    selectedItems tierId quantity (Some nodes)
  = StoreJson 200
      {| sb_isValid := true;
         sb_errors := [];
         sb_warnings := [];
         sb_pricing :=
           Some (Engine.calculateBundlePricing bundle selectedItems tierId
                   quantity) |}.
Proof.
  intros Hshop Hid Htype Hactive Hinv.
  unfold storefrontValidate.
  cbn [String.eqb Ascii.eqb Bool.eqb negb truthy_opt].
  apply JSFacts.truthy_string_iff in Hshop, Hid. rewrite Hshop, Hid, Hactive.
  cbn [negb]. rewrite Htype.
  cbn [String.eqb Ascii.eqb Bool.eqb BundleType.FIXED].
  destruct (existsb _ selectedItems); [|reflexivity].
  destruct nodes as [l|]; [|reflexivity].
  now rewrite (Hinv l eq_refl).
Qed.

(** X30.  A selected variant that the inventory answer reports as not for
    sale makes the storefront answer invalid, with the message naming the
    product and without a price, whatever the type of the bundle. *)
Theorem storefront_unavailable_variant {fmt : NumberFormat}
    (shop bundleId : string) (bundle : Bundle.t) (now : Date.t)
    (selectedItems : list SelectedItem.t) (tierId : option string)
    (quantity : number) (nodes : list (option InventoryNode.t))
    (node : InventoryNode.t) (item : SelectedItem.t) :
  shop <> "" ->
  bundleId <> "" ->
  Client.isBundleScheduleActive now (Bundle.startDate bundle)
    (Bundle.endDate bundle) = true ->
  In item selectedItems ->
  SelectedItem.variantId item <> "" ->
  SelectedItem.variantId item = InventoryNode.id node
  \/ "gid://shopify/ProductVariant/" ++ SelectedItem.variantId item
     = InventoryNode.id node ->
  In (Some node) nodes ->
  InventoryNode.availableForSale node = false ->
  exists body,
    storefrontValidate "POST" (Some shop) (Some bundleId) (Some bundle) now
      selectedItems tierId quantity (Some (Some nodes))
    = StoreJson 200 body
    /\ sb_isValid body = false
    /\ sb_pricing body = None
    /\ In (InventoryNode.productTitle node ++ " is not available")
          (sb_errors body).
Proof.
  intros Hshop Hid Hactive Hitem Hvariant Hmatch Hnode Hsale.
  unfold storefrontValidate.
  cbn [String.eqb Ascii.eqb Bool.eqb negb truthy_opt].
  apply JSFacts.truthy_string_iff in Hshop, Hid. rewrite Hshop, Hid, Hactive.
  cbn [negb].
  match goal with
  | |- context [let '(errors, warnings) := ?sw in _] =>
      destruct sw as [errors warnings]
  end.
  assert (Hq : existsb
                 (fun item => truthy_string (SelectedItem.variantId item))
                 selectedItems = true).
  { apply existsb_exists. exists item. split; [exact Hitem|].
    now apply JSFacts.truthy_string_iff. }
  rewrite Hq.
  assert (Hin : In (InventoryNode.productTitle node ++ " is not available")
                  (storeInventory selectedItems quantity nodes errors)).
  { unfold storeInventory. clear Hq.
    revert errors. induction nodes as [|n nodes IH]; intro errors;
      [destruct Hnode|].
    assert (Hkeep : forall l (e : list string),
               In (InventoryNode.productTitle node ++ " is not available") e ->
               In (InventoryNode.productTitle node ++ " is not available")
                  (fold_left
                     (fun (errors : list string) node =>
                        match node with
                        | None => errors
                        | Some node =>
                            match
                              find
                                (fun item =>
                                   String.eqb (SelectedItem.variantId item)
                                     (InventoryNode.id node)
                                   || String.eqb
                                        ("gid://shopify/ProductVariant/"
                                           ++ SelectedItem.variantId item)
                                        (InventoryNode.id node))
                                selectedItems
                            with
                            | None => errors
                            | Some selectedItem =>
                                let requiredQty :=
                                  SelectedItem.quantity selectedItem
                                  * quantity in
                                let available :=
                                  match InventoryNode.quantityAvailable node
                                  with
                                  | Some n => if truthy_number n then n else 0
                                  | None => 0
                                  end in
                                if negb (InventoryNode.availableForSale node)
                                then
                                  push (InventoryNode.productTitle node
                                          ++ " is not available")
                                    errors
                                else if ltb available requiredQty then
                                  push ("Only " ++ toString available ++ " of "
                                          ++ InventoryNode.productTitle node
                                          ++ " available")
                                    errors
                                else errors
                            end
                        end)
                     l e)).
    { clear. induction l as [|n l IH]; intros e He; [exact He|].
      simpl. apply IH. destruct n as [n|]; [|exact He].
      destruct (find _ selectedItems); [|exact He].
      destruct (negb _); [apply in_or_app; now left|].
      destruct (ltb _ _); [apply in_or_app; now left|exact He]. }
    destruct Hnode as [->|Hnode]; [|simpl; now apply IH].
    cbn [fold_left]. apply Hkeep.
    destruct (find _ selectedItems) as [selected|] eqn:Efind.
    - rewrite Hsale. cbn [negb]. apply in_or_app. right. now left.
    - exfalso. apply (find_none _ _ Efind) in Hitem. cbv beta in Hitem.
      apply orb_false_iff in Hitem. destruct Hitem as [H1 H2].
      destruct Hmatch as [Hm|Hm];
        [rewrite Hm, String.eqb_refl in H1
        |rewrite Hm, String.eqb_refl in H2]; discriminate. }
  eexists. split; [reflexivity|]. cbn [sb_isValid sb_pricing sb_errors].
  destruct (storeInventory selectedItems quantity nodes errors);
    [destruct Hin|].
  now repeat split.
Qed.

Section Runs.
#[local] Existing Instance Decimal.format.

(** A fixed bundle asked for zero times with a price of -5: both are
    reported. *)
Lemma pricingValidate_common_witness :
  In (Config.error "quantity" "Quantity must be at least 1" "MIN_QUANTITY")
     [Config.error "quantity" "Quantity must be at least 1" "MIN_QUANTITY";
      Config.error "selectedItems" "Invalid price for item: p1"
        "INVALID_PRICE"].
Proof.
  apply (proj1 (pricingValidate_common Samples.rejectAll "POST" (Some "b1")
                  (Some Samples.fixedAtFifty)
                  [Samples.selected "p1" "v1" 1 (-5)] None 0 _ eq_refl)).
  reflexivity.
Defined.


(** One line, twice the same mug. *)
Lemma pricingValidate_quantity_as_duplicate_witness :
  exists body,
    pricingValidate Samples.rejectAll "POST" (Some "b1")
      (Some Samples.noDuplicates) [Samples.selected "p1" "v1" 2 10] None 1
    = AdminOk body
    /\ ab_isValid body = false
    /\ In (Config.error "selectedItems"
             ("Duplicate selection not allowed: "
                ++ Spec.selectionKey (Samples.selected "p1" "v1" 2 10))
             "NO_DUPLICATES")
          (ab_errors body).
Proof.
  apply (pricingValidate_quantity_as_duplicate Samples.rejectAll "b1"
           Samples.noDuplicates [Samples.selected "p1" "v1" 2 10] None 1
           (Samples.selected "p1" "v1" 2 10)).
  - discriminate.
  - reflexivity.
  - reflexivity.
  - intros i [<-|[]]. discriminate.
  - left. reflexivity.
  - reflexivity.
Defined.

(** Three products for the tier of three. *)
Lemma storefront_price_is_valid_witness :
  PricingCalculationResponse.isValid
    (Engine.calculateBundlePricing Samples.tiered
       [Samples.selected "p1" "v1" 3 10] (Some "t1") 1) = true.
Proof.
  destruct (storefront_price_is_valid "POST" (Some "shop.example")
              (Some "b1") (Some Samples.tiered) (Samples.at_ 10)
              [Samples.selected "p1" "v1" 3 10] (Some "t1") 1
              (Some (Some [])) 200 _ _ eq_refl eq_refl)
    as (bundle & _ & _ & Hvalid & _).
  exact Hvalid.
Defined.

(** A fixed bundle, nothing selected, asked for zero times. *)
Lemma storefront_fixed_unchecked_witness :
  storefrontValidate "POST" (Some "shop.example") (Some "b1")
    (Some Samples.fixedAtFifty) (Samples.at_ 10) [] None 0 (Some None)
  = StoreJson 200
      {| sb_isValid := true;
         sb_errors := [];
         sb_warnings := [];
         sb_pricing :=
           Some (Engine.calculateBundlePricing Samples.fixedAtFifty [] None
                   0) |}.
Proof.
  apply (storefront_fixed_unchecked "shop.example" "b1" Samples.fixedAtFifty
           (Samples.at_ 10) [] None 0 None).
  - discriminate.
  - discriminate.
  - reflexivity.
  - reflexivity.
  - intros l H. discriminate H.
Defined.

Lemma storefront_unavailable_variant_witness :
  exists body,
    storefrontValidate "POST" (Some "shop.example") (Some "b1")
      (Some Samples.sameProductVolume) (Samples.at_ 10) Samples.twoProducts
      None 1 (Some (Some [Some Samples.soldOut]))
    = StoreJson 200 body
    /\ sb_isValid body = false
    /\ sb_pricing body = None
    /\ In (InventoryNode.productTitle Samples.soldOut ++ " is not available")
          (sb_errors body).
Proof.
  apply (storefront_unavailable_variant "shop.example" "b1"
           Samples.sameProductVolume (Samples.at_ 10) Samples.twoProducts
           None 1 [Some Samples.soldOut] Samples.soldOut
           (Samples.selected "B" "v2" 2 10)).
  - discriminate.
  - discriminate.
  - reflexivity.
  - right. left. reflexivity.
  - discriminate.
  - right. reflexivity.
  - left. reflexivity.
  - reflexivity.
Defined.

End Runs.

End RouteMore.
